(** * Face-recognition attendance backend: handlers of [index.js]

    A shallow embedding of the request handlers of the Express service in
    [src/index.js] and the properties its specification states about them.

    The service keeps no state of its own: everything lives in four
    DynamoDB tables, one S3 bucket and one Rekognition face collection.
    These form the [World]; a handler is a computation in a state and
    exception monad over it.  What the outside world decides during a
    request (wall clock, random numbers, what Rekognition recognises,
    which adapter call fails) is read from an environment [Env]. *)

From Stdlib Require Import Ascii String ZArith Lia.
From stdpp Require Import base gmap strings list pretty fin_maps.

Open Scope Z_scope.

(** ** JavaScript values and string helpers *)

Module JS.

(** A request field destructured from [req.body] is modelled as a
    string; the empty string also stands for a field that is absent
    ([undefined]): the handlers only ever test such fields with [!x] or
    [x || d], which treat both alike. *)
Definition truthy (s : string) : bool := negb (String.eqb s "").

(** Truthiness of a boolean attribute that may be missing on a stored
    item. *)
Definition truthy_flag (o : option bool) : bool :=
  match o with Some b => b | None => false end.

(** [a || b] on strings. *)
Definition or_else (a b : string) : string := if truthy a then a else b.

(** [a || o] where [o] may be [undefined]; [None] is [undefined]. *)
Definition or_attr (a : string) (o : option string) : option string :=
  if truthy a then Some a else o.

(** [o || b] where [o] may be [undefined]. *)
Definition attr_or (o : option string) (b : string) : string :=
  match o with Some s => or_else s b | None => b end.

(** [n.toString()] for an integer. *)
Definition toString (n : Z) : string := pretty n.

Fixpoint drop_chars (n : nat) (s : string) : string :=
  match n, s with
  | O, _ => s
  | S n', String _ s' => drop_chars n' s'
  | S _, EmptyString => EmptyString
  end.

(** [s.slice(-n)]: the last [n] characters, all of [s] when it is
    shorter. *)
Definition slice_last (n : nat) (s : string) : string :=
  drop_chars (String.length s - n) s.

Fixpoint repeat_char (c : ascii) (n : nat) : string :=
  match n with
  | O => EmptyString
  | S n' => String c (repeat_char c n')
  end.

(** [s.padStart(n, c)] for a one-character pad. *)
Definition padStart (n : nat) (c : ascii) (s : string) : string :=
  repeat_char c (n - String.length s) +:+ s.

(** [s.split(c)[0]]: the text before the first [c]. *)
Fixpoint before (c : ascii) (s : string) : string :=
  match s with
  | EmptyString => EmptyString
  | String a s' => if Ascii.eqb a c then EmptyString else String a (before c s')
  end.

Fixpoint strip_prefix (p s : string) : option string :=
  match p, s with
  | EmptyString, _ => Some s
  | String a p', String b s' => if Ascii.eqb a b then strip_prefix p' s' else None
  | String _ _, EmptyString => None
  end.

Definition is_letter (c : ascii) : bool :=
  let n := nat_of_ascii c in
  ((65 <=? n) && (n <=? 90) || (97 <=? n) && (n <=? 122))%nat.

Fixpoint drop_letters (s : string) : string :=
  match s with
  | String a s' => if is_letter a then drop_letters s' else s
  | EmptyString => EmptyString
  end.

(** [s.replace(/^data:image\/[a-zA-Z]+;base64,/, '')].  The letters are
    followed by [;], which is no letter, so the greedy run is the only
    way the pattern can match. *)
Definition strip_data_url (s : string) : string :=
  match strip_prefix "data:image/" s with
  | Some r =>
      match r with
      | String a _ =>
          if is_letter a then
            match strip_prefix ";base64," (drop_letters r) with
            | Some rest => rest
            | None => s
            end
          else s
      | EmptyString => s
      end
  | None => s
  end.

(** The values placed in a JSON response. *)
Inductive value :=
| Null
| Bool (b : bool)
| Num (n : Z)
| Str (s : string).

End JS.

(** ** Data model: the items of the four tables *)

Module User.
(** An item of the Users table.  Only [userId] (the key) is always
    there: [UpdateCommand] creates the item when it is missing, so the
    other attributes are optional.  [faceId] is [Some None] when it was
    set to [null]. *)
Record t := mk {
  userId : string;
  name : option string;
  email : option string;
  role : option string;
  approved : option bool;
  faceImage : option string;
  password : option string;
  faceId : option (option string);
  photoKey : option string;
  isActive : option bool;
  approvedAt : option string
}.

Definition blank (k : string) : t :=
  mk k None None None None None None None None None None.
End User.

Module Session.
(** An item of the AttendanceSessions table; [expireAt] is in unix
    seconds. *)
Record t := mk {
  sessionId : string;
  classId : string;
  teacherId : string;
  expireAt : Z
}.
End Session.

Module Attendance.
(** An item of the Attendance table.  [markedBy], [method] and
    [cameraUsed] are [None] when the writer put no such attribute. *)
Record t := mk {
  attendanceId : string;
  userId : string;
  sessionId : string;
  timestamp : string;
  date : string;
  status : string;
  markedBy : option string;
  method : option string;
  cameraUsed : option string
}.
End Attendance.

Module Timetable.
(** An item of the Timetable table; optional for the same reason as
    [User.t]. *)
Record t := mk {
  timetableId : string;
  classId : option string;
  className : option string;
  teacherId : option string;
  teacherName : option string;
  dayOfWeek : option string;
  startTime : option string;
  endTime : option string;
  subject : option string;
  room : option string;
  createdAt : option string;
  assignedAt : option string;
  isActive : option bool
}.

Definition blank (k : string) : t :=
  mk k None None None None None None None None None None None None.
End Timetable.

(** ** The face-matching service's messages *)

Definition Bytes := list Byte.byte.

Module Rekognition.
Record Face := mkFace {
  FaceId : option string;
  ExternalImageId : option string
}.

(** An entry of [FaceMatches]; [MatchedFace] is its [Face] field.
    [Similarity] is a percentage; the handlers only pass it on. *)
Record FaceMatch := mkFaceMatch {
  Similarity : Z;
  MatchedFace : Face
}.

Record SearchRequest := mkSearch {
  SearchImage : Bytes;
  MaxFaces : Z;
  FaceMatchThreshold : Z
}.

(** [FaceMatches] may be missing from a response. *)
Record SearchResponse := mkSearchResponse {
  FaceMatches : option (list FaceMatch)
}.

Record IndexRequest := mkIndex {
  IndexImage : Bytes;
  IndexExternalImageId : string
}.

(** An entry of [FaceRecords]; [RecordFace] is its [Face] field. *)
Record FaceRecord := mkFaceRecord {
  RecordFace : option Face
}.

Record IndexResponse := mkIndexResponse {
  FaceRecords : option (list FaceRecord)
}.

(** The faces an [IndexFaces] call adds to the collection: those the
    response reports, tagged with the request's external id. *)
Definition indexed (rq : IndexRequest) (rs : IndexResponse) : list Face :=
  (fun f => mkFace (FaceId f) (Some (IndexExternalImageId rq)))
    <$> omap RecordFace (default [] (FaceRecords rs)).
End Rekognition.

(** ** The world outside the process *)

Record World := mkWorld {
  Users : gmap string User.t;
  Sessions : gmap string Session.t;
  AttendanceTable : gmap string Attendance.t;
  TimetableTable : gmap string Timetable.t;
  Bucket : gmap string Bytes;
  Collection : list Rekognition.Face
}.

Record Exn := mkExn {
  exn_name : string;
  exn_message : string
}.

Inductive outcome (A : Type) :=
| Returned (a : A)
| Threw (e : Exn).
Arguments Returned {A} a.
Arguments Threw {A} e.

Inductive TableName := USERS_TABLE | SESSIONS_TABLE | ATTENDANCE_TABLE | TIMETABLE_TABLE.

(** The adapter calls that can fail on their own. *)
Inductive Call :=
| GetCommand (t : TableName) (key : string)
| PutCommand (t : TableName) (key : string)
| UpdateCommand (t : TableName) (key : string)
| PutObjectCommand (key : string)
| QRCode_toDataURL (text : string).

(** What the environment decides during one request.
    - [clock i] is the [i]-th reading of the wall clock, in milliseconds;
    - [random100] is [Math.floor(Math.random() * 100)];
    - [fault c] is the exception call [c] ends in, if any;
    - [search] and [index] are Rekognition's answers, which may depend on
      the collection;
    - [toISOString], [fromBase64] and [qrImage] are the library functions
      of these names;
    - [FACE_MATCH_THRESHOLD] is the configured threshold (default 75). *)
Record Env := mkEnv {
  clock : nat -> Z;
  random100 : Z;
  fault : Call -> option Exn;
  search : list Rekognition.Face -> Rekognition.SearchRequest ->
           outcome Rekognition.SearchResponse;
  index : list Rekognition.Face -> Rekognition.IndexRequest ->
          outcome Rekognition.IndexResponse;
  toISOString : Z -> string;
  fromBase64 : string -> Bytes;
  qrImage : string -> string;
  FACE_MATCH_THRESHOLD : Z
}.

(** ** The handler monad: environment, state, exceptions *)

Record St := mkSt {
  world : World;
  reads : nat
}.

Definition M (A : Type) : Type := Env -> St -> outcome A * St.

Definition ret {A} (a : A) : M A := fun _ s => (Returned a, s).

Definition bind {A B} (m : M A) (k : A -> M B) : M B :=
  fun e s =>
    match m e s with
    | (Returned a, s') => k a e s'
    | (Threw x, s') => (Threw x, s')
    end.

Definition throw {A} (x : Exn) : M A := fun _ s => (Threw x, s).

(** [try { m } catch (err) { h err }]; what [m] wrote before it threw
    stays written. *)
Definition try_catch {A} (m : M A) (h : Exn -> M A) : M A :=
  fun e s =>
    match m e s with
    | (Returned a, s') => (Returned a, s')
    | (Threw x, s') => h x e s'
    end.

Declare Scope handler_scope.
Delimit Scope handler_scope with handler.
Notation "x <- m ;; k" := (bind m (fun x => k))
  (at level 100, m at next level, right associativity) : handler_scope.
Notation "m ;;; k" := (bind m (fun _ => k))
  (at level 100, right associativity) : handler_scope.
Open Scope handler_scope.

Definition ask {A} (f : Env -> A) : M A := fun e s => (Returned (f e), s).

Definition get_world : M World := fun _ s => (Returned (world s), s).

Definition modify (f : World -> World) : M unit :=
  fun _ s => (Returned tt, mkSt (f (world s)) (reads s)).

(** An adapter call: it throws when the environment says so, otherwise
    it goes on. *)
Definition attempt (c : Call) : M unit :=
  fun e s =>
    match fault e c with
    | Some x => (Threw x, s)
    | None => (Returned tt, s)
    end.

(** [Date.now()], and also the instant of a [new Date()]. *)
Definition Date_now : M Z :=
  fun e s => (Returned (clock e (reads s)), mkSt (world s) (S (reads s))).

(** [new Date().toISOString()] *)
Definition now_iso : M string :=
  t <- Date_now ;; f <- ask toISOString ;; ret (f t).

(** ** Adapters *)

Definition with_Users (f : gmap string User.t -> gmap string User.t) (w : World) : World :=
  mkWorld (f (Users w)) (Sessions w) (AttendanceTable w) (TimetableTable w)
          (Bucket w) (Collection w).

Definition with_Sessions (f : gmap string Session.t -> gmap string Session.t) (w : World) : World :=
  mkWorld (Users w) (f (Sessions w)) (AttendanceTable w) (TimetableTable w)
          (Bucket w) (Collection w).

Definition with_Attendance (f : gmap string Attendance.t -> gmap string Attendance.t)
    (w : World) : World :=
  mkWorld (Users w) (Sessions w) (f (AttendanceTable w)) (TimetableTable w)
          (Bucket w) (Collection w).

Definition with_Timetable (f : gmap string Timetable.t -> gmap string Timetable.t)
    (w : World) : World :=
  mkWorld (Users w) (Sessions w) (AttendanceTable w) (f (TimetableTable w))
          (Bucket w) (Collection w).

Definition with_Bucket (f : gmap string Bytes -> gmap string Bytes) (w : World) : World :=
  mkWorld (Users w) (Sessions w) (AttendanceTable w) (TimetableTable w)
          (f (Bucket w)) (Collection w).

Definition with_Collection (f : list Rekognition.Face -> list Rekognition.Face)
    (w : World) : World :=
  mkWorld (Users w) (Sessions w) (AttendanceTable w) (TimetableTable w)
          (Bucket w) (f (Collection w)).

Module ddb.
(** [ddb.send(new GetCommand({ TableName, Key }))], giving [.Item]. *)
Definition get_user (k : string) : M (option User.t) :=
  attempt (GetCommand USERS_TABLE k) ;;;
  w <- get_world ;; ret (Users w !! k).

Definition get_session (k : string) : M (option Session.t) :=
  attempt (GetCommand SESSIONS_TABLE k) ;;;
  w <- get_world ;; ret (Sessions w !! k).

(** The document client refuses a key that is [undefined]. *)
Definition marshall_error : Exn :=
  mkExn "Error" "Pass options.removeUndefinedValues=true to remove undefined values from map/array/set.".

Definition get_user_by (k : option string) : M (option User.t) :=
  match k with
  | Some k => get_user k
  | None => throw marshall_error
  end.

(** [ddb.send(new PutCommand({ TableName, Item }))]: the item replaces
    whatever the table holds under its key. *)
Definition put_user (u : User.t) : M unit :=
  attempt (PutCommand USERS_TABLE (User.userId u)) ;;;
  modify (with_Users (insert (User.userId u) u)).

Definition put_session (x : Session.t) : M unit :=
  attempt (PutCommand SESSIONS_TABLE (Session.sessionId x)) ;;;
  modify (with_Sessions (insert (Session.sessionId x) x)).

Definition put_attendance (r : Attendance.t) : M unit :=
  attempt (PutCommand ATTENDANCE_TABLE (Attendance.attendanceId r)) ;;;
  modify (with_Attendance (insert (Attendance.attendanceId r) r)).

(** [ddb.send(new UpdateCommand({ TableName, Key, UpdateExpression }))]
    with a [SET] expression [f]: applied to the stored item, or to a new
    item holding only the key. *)
Definition update_user (k : string) (f : User.t -> User.t) : M unit :=
  attempt (UpdateCommand USERS_TABLE k) ;;;
  modify (with_Users (fun t => <[k := f (default (User.blank k) (t !! k))]> t)).

Definition update_timetable (k : string) (f : Timetable.t -> Timetable.t) : M unit :=
  attempt (UpdateCommand TIMETABLE_TABLE k) ;;;
  modify (with_Timetable (fun t => <[k := f (default (Timetable.blank k) (t !! k))]> t)).
End ddb.

Module rekognition.
(** [rekognition.send(new SearchFacesByImageCommand(rq))] *)
Definition search_faces (rq : Rekognition.SearchRequest) : M Rekognition.SearchResponse :=
  fun e s =>
    match search e (Collection (world s)) rq with
    | Returned rs => (Returned rs, s)
    | Threw x => (Threw x, s)
    end.

(** [rekognition.send(new IndexFacesCommand(rq))]: the collection gains
    the faces the response reports. *)
Definition index_faces (rq : Rekognition.IndexRequest) : M Rekognition.IndexResponse :=
  fun e s =>
    match index e (Collection (world s)) rq with
    | Returned rs =>
        (Returned rs,
         mkSt (with_Collection (fun c => c ++ Rekognition.indexed rq rs) (world s))
              (reads s))
    | Threw x => (Threw x, s)
    end.
End rekognition.

(** [uploadToS3(key, buffer)]; the returned URL is not used by any
    caller. *)
Definition uploadToS3 (key : string) (buffer : Bytes) : M unit :=
  attempt (PutObjectCommand key) ;;;
  modify (with_Bucket (insert key buffer)).

(** [Buffer.from(s.replace(/^data:image\/[a-zA-Z]+;base64,/, ''), 'base64')] *)
Definition image_buffer (imageBase64 : string) : M Bytes :=
  f <- ask fromBase64 ;; ret (f (JS.strip_data_url imageBase64)).

(** ** Responses *)

Record Response := mkResponse {
  status : Z;
  body : list (string * JS.value)
}.

(** [res.json(b)] *)
Definition json (b : list (string * JS.value)) : Response := mkResponse 200 b.

(** [res.status(code).json(b)] *)
Definition status_json (code : Z) (b : list (string * JS.value)) : Response :=
  mkResponse code b.

Fixpoint assoc (k : string) (b : list (string * JS.value)) : option JS.value :=
  match b with
  | [] => None
  | (k', v) :: b' => if String.eqb k k' then Some v else assoc k b'
  end.

Definition field (k : string) (r : Response) : option JS.value := assoc k (body r).

Definition success (r : Response) : option JS.value := field "success" r.

(** Every route is wrapped in the same
    [try { ... } catch (err) { res.status(500).json({ success:false, error: err.message }) }]. *)
Definition handle (route : M Response) (e : Env) (w : World) : Response * World :=
  match route e (mkSt w 0) with
  | (Returned r, s) => (r, world s)
  | (Threw x, s) =>
      (status_json 500 [("success", JS.Bool false); ("error", JS.Str (exn_message x))],
       world s)
  end.

Import JS.

(** ** Routes *)

(** The identifier of an attendance record. *)
Definition attendance_key (userId sessionId : string) : string :=
  userId +:+ "-" +:+ sessionId.

(** [POST /auth/register] *)
Definition register_route (name email role imageBase64 : string) : M Response :=
  if negb (truthy name) || negb (truthy email) || negb (truthy role)
     || negb (truthy imageBase64)
  then ret (status_json 400 [("success", Bool false); ("error", Str "Missing fields")])
  else
    imageBuffer <- image_buffer imageBase64 ;;
    duplicate <-
      try_catch
        (searchResponse <- rekognition.search_faces
                             (Rekognition.mkSearch imageBuffer 1 80) ;;
         match Rekognition.FaceMatches searchResponse with
         | Some (match_ :: _) =>
             let existingUserId :=
               Rekognition.ExternalImageId (Rekognition.MatchedFace match_) in
             try_catch
               (existingUser <- ddb.get_user_by existingUserId ;;
                ret (Some (status_json 409
                  [("success", Bool false);
                   ("error", Str ("This face is already registered to another user: "
                       +:+ attr_or (existingUser ≫= User.name)
                                   (default "undefined" existingUserId)
                       +:+ ". Each person can only register once."));
                   ("code", Str "DUPLICATE_FACE")])))
               (fun userLookupErr =>
                ret (Some (status_json 409
                  [("success", Bool false);
                   ("error", Str "This face is already registered to another user. Each person can only register once.");
                   ("code", Str "DUPLICATE_FACE")])))
         | _ => ret None
         end)
        (fun searchErr => ret None) ;;
    match duplicate with
    | Some response => ret response
    | None =>
        now <- Date_now ;;
        random <- ask random100 ;;
        let rolePrefix := if String.eqb role "student" then "1" else "2" in
        let timestamp := slice_last 8 (toString now) in
        let randomSuffix := padStart 2 "0" (toString random) in
        let tempId := rolePrefix +:+ timestamp +:+ randomSuffix in
        let item :=
          User.mk tempId (Some name) (Some email) (Some role) (Some false)
                  (Some imageBase64) None None None None None in
        ddb.put_user item ;;;
        ret (json [("success", Bool true); ("message", Str "Registration submitted");
                   ("userId", Str tempId)])
    end.

Definition register name email role imageBase64 :=
  handle (register_route name email role imageBase64).

(** [indexResp.FaceRecords?.[0]?.Face?.FaceId || null]; [None] is [null]. *)
Definition first_face_id (indexResp : Rekognition.IndexResponse) : option string :=
  match Rekognition.FaceRecords indexResp with
  | Some (r :: _) =>
      match Rekognition.RecordFace r ≫= Rekognition.FaceId with
      | Some f => if truthy f then Some f else None
      | None => None
      end
  | _ => None
  end.

(** [SET approved = true, password = :p, faceId = :f, photoKey = :k,
    isActive = true, approvedAt = :now] *)
Definition set_approved (password : string) (faceId : option string) (key now : string)
    (u : User.t) : User.t :=
  User.mk (User.userId u) (User.name u) (User.email u) (User.role u)
          (Some true) (User.faceImage u) (Some password) (Some faceId)
          (Some key) (Some true) (Some now).

(** [POST /admin/approve] *)
Definition approve_route (userId password : string) : M Response :=
  if negb (truthy userId) || negb (truthy password)
  then ret (status_json 400 [("success", Bool false);
                             ("error", Str "userId and password required")])
  else
    user <- ddb.get_user userId ;;
    match user with
    | None => ret (status_json 404 [("success", Bool false); ("error", Str "User not found")])
    | Some user =>
        match User.faceImage user with
        | Some faceImage =>
            if truthy faceImage then
              imageBuffer <- image_buffer faceImage ;;
              let key := userId +:+ ".jpg" in
              uploadToS3 key imageBuffer ;;;
              indexResp <- rekognition.index_faces (Rekognition.mkIndex imageBuffer userId) ;;
              let faceId := first_face_id indexResp in
              now <- now_iso ;;
              ddb.update_user userId (set_approved password faceId key now) ;;;
              ret (json [("success", Bool true);
                         ("message", Str "User approved and face indexed");
                         ("faceId", match faceId with Some f => Str f | None => Null end)])
            else ret (status_json 400 [("success", Bool false);
                                       ("error", Str "No face image for user")])
        | None => ret (status_json 400 [("success", Bool false);
                                        ("error", Str "No face image for user")])
        end
    end.

Definition approve userId password := handle (approve_route userId password).

(** [POST /auth/login] *)
Definition login_route (userId password role : string) : M Response :=
  if negb (truthy userId) || negb (truthy password) || negb (truthy role)
  then ret (status_json 400 [("success", Bool false); ("error", Str "Missing fields")])
  else
    user <- ddb.get_user userId ;;
    match user with
    | None => ret (status_json 404 [("success", Bool false); ("error", Str "User not found")])
    | Some user =>
        if negb (truthy_flag (User.approved user))
        then ret (status_json 401 [("success", Bool false); ("error", Str "User not approved")])
        else if negb (bool_decide (User.password user = Some password))
        then ret (status_json 401 [("success", Bool false); ("error", Str "Incorrect password")])
        else ret (json [("success", Bool true); ("message", Str "Login successful");
                        ("userId", Str userId); ("role", Str role)])
    end.

Definition login userId password role := handle (login_route userId password role).

(** [f => f.Face.ExternalImageId === userId] *)
Definition same_person (userId : string) (f : Rekognition.FaceMatch) : bool :=
  bool_decide (Rekognition.ExternalImageId (Rekognition.MatchedFace f) = Some userId).

(** [POST /auth/verify-face] *)
Definition verify_face_route (userId imageBase64 : string) : M Response :=
  if negb (truthy userId) || negb (truthy imageBase64)
  then ret (status_json 400 [("success", Bool false); ("error", Str "Missing fields")])
  else
    user <- ddb.get_user userId ;;
    match user with
    | None => ret (status_json 404 [("success", Bool false); ("error", Str "User not found")])
    | Some _ =>
        imageBuffer <- image_buffer imageBase64 ;;
        threshold <- ask FACE_MATCH_THRESHOLD ;;
        search <- rekognition.search_faces (Rekognition.mkSearch imageBuffer 1 threshold) ;;
        let matched := Rekognition.FaceMatches search ≫= List.find (same_person userId) in
        match matched with
        | Some matched =>
            ret (json [("success", Bool true); ("message", Str "Face matched");
                       ("similarity", Num (Rekognition.Similarity matched))])
        | None => ret (json [("success", Bool false); ("message", Str "Face not matched")])
        end
    end.

Definition verify_face userId imageBase64 := handle (verify_face_route userId imageBase64).

(** [POST /teacher/generate-qr] *)
Definition generate_qr_route (teacherId classId : string) : M Response :=
  if negb (truthy teacherId) || negb (truthy classId)
  then ret (status_json 400 [("success", Bool false); ("error", Str "Missing fields")])
  else
    created <- Date_now ;;
    let sessionId := "CLASS-" +:+ classId +:+ "-" +:+ toString created in
    attempt (QRCode_toDataURL sessionId) ;;;
    render <- ask qrImage ;;
    let qrData := render sessionId in
    now <- Date_now ;;
    let expireAt := (now + 10 * 60 * 1000) `div` 1000 in
    ddb.put_session (Session.mk sessionId classId teacherId expireAt) ;;;
    ret (json [("success", Bool true); ("qrData", Str qrData); ("sessionId", Str sessionId)]).

Definition generate_qr teacherId classId := handle (generate_qr_route teacherId classId).

(** [POST /attendance/mark] *)
Definition mark_route (userId sessionId : string) : M Response :=
  if negb (truthy userId) || negb (truthy sessionId)
  then ret (status_json 400 [("success", Bool false); ("error", Str "Missing fields")])
  else
    session <- ddb.get_session sessionId ;;
    match session with
    | None => ret (json [("success", Bool false); ("error", Str "Invalid session")])
    | Some session =>
        ms <- Date_now ;;
        let now := ms `div` 1000 in
        if now >? Session.expireAt session
        then ret (json [("success", Bool false); ("error", Str "Session expired")])
        else
          iso <- now_iso ;;
          let today := before "T" iso in
          timestamp <- now_iso ;;
          ddb.put_attendance
            (Attendance.mk (attendance_key userId sessionId) userId sessionId
                           timestamp today "Present" None None None) ;;;
          ret (json [("success", Bool true); ("message", Str "Attendance marked")])
    end.

Definition mark userId sessionId := handle (mark_route userId sessionId).

(** [POST /student/scan-qr] *)
Definition scan_qr_route (userId qrData cameraType : string) : M Response :=
  if negb (truthy userId) || negb (truthy qrData)
  then ret (status_json 400 [("success", Bool false); ("error", Str "Missing fields")])
  else
    session <- ddb.get_session qrData ;;
    match session with
    | None => ret (json [("success", Bool false); ("error", Str "Invalid QR code")])
    | Some session =>
        ms <- Date_now ;;
        let now := ms `div` 1000 in
        if now >? Session.expireAt session
        then ret (json [("success", Bool false); ("error", Str "QR code has expired")])
        else
          iso <- now_iso ;;
          let today := before "T" iso in
          let attendanceId := attendance_key userId qrData in
          timestamp <- now_iso ;;
          ddb.put_attendance
            (Attendance.mk attendanceId userId qrData timestamp today "Present"
                           None (Some "qr_scan") (Some (or_else cameraType "unknown"))) ;;;
          ret (json [("success", Bool true);
                     ("message", Str "Attendance marked successfully via QR scan");
                     ("classId", Str (Session.classId session))])
    end.

Definition scan_qr userId qrData cameraType := handle (scan_qr_route userId qrData cameraType).

(** The record the manual route writes for one student. *)
Definition manual_record (teacherId finalSessionId timestamp today studentId : string)
    : Attendance.t :=
  Attendance.mk (attendance_key studentId finalSessionId) studentId finalSessionId
                timestamp today "Present" (Some teacherId) (Some "manual") None.

(** [await Promise.all(items.map(async item => ddb.send(new PutCommand(...))))]:
    every write is issued, whatever becomes of the others; the whole
    rejects when one of them does.  The writes are applied here in the
    order of the array. *)
Fixpoint put_all (items : list Attendance.t) : M (option Exn) :=
  match items with
  | [] => ret None
  | r :: items' =>
      first <- try_catch (ddb.put_attendance r ;;; ret None) (fun x => ret (Some x)) ;;
      rest <- put_all items' ;;
      ret (match first with Some x => Some x | None => rest end)
  end.

Definition Promise_all (items : list Attendance.t) : M unit :=
  rejected <- put_all items ;;
  match rejected with
  | Some x => throw x
  | None => ret tt
  end.

(** [POST /teacher/submit-attendance]; [presentStudents] is [None] when
    the field is no array. *)
Definition submit_attendance_route (teacherId classId : string)
    (presentStudents : option (list string)) (sessionId : string) : M Response :=
  match presentStudents with
  | Some presentStudents =>
      if negb (truthy teacherId) || negb (truthy classId)
      then ret (status_json 400 [("success", Bool false);
                                 ("error", Str "Missing required fields")])
      else
        iso <- now_iso ;;
        let today := before "T" iso in
        timestamp <- now_iso ;;
        finalSessionId <-
          (if truthy sessionId then ret sessionId
           else created <- Date_now ;;
                ret ("MANUAL-" +:+ classId +:+ "-" +:+ toString created)) ;;
        Promise_all (manual_record teacherId finalSessionId timestamp today
                       <$> presentStudents) ;;;
        let count := Z.of_nat (length presentStudents) in
        ret (json [("success", Bool true);
                   ("message", Str ("Attendance marked for " +:+ toString count
                                      +:+ " students"));
                   ("presentCount", Num count);
                   ("sessionId", Str finalSessionId)])
  | None => ret (status_json 400 [("success", Bool false);
                                  ("error", Str "Missing required fields")])
  end.

Definition submit_attendance teacherId classId presentStudents sessionId :=
  handle (submit_attendance_route teacherId classId presentStudents sessionId).

(** [POST /admin/assign-teacher] *)
Definition assign_teacher_route (timetableId teacherId teacherName : string) : M Response :=
  if negb (truthy timetableId) || negb (truthy teacherId)
  then ret (status_json 400 [("success", Bool false);
                             ("error", Str "Timetable ID and Teacher ID are required")])
  else
    teacher <- ddb.get_user teacherId ;;
    match teacher with
    | None => ret (status_json 404 [("success", Bool false);
                                    ("error", Str "Teacher not found or invalid role")])
    | Some teacher =>
        if negb (bool_decide (User.role teacher = Some "teacher"))
        then ret (status_json 404 [("success", Bool false);
                                   ("error", Str "Teacher not found or invalid role")])
        else
          now <- now_iso ;;
          match or_attr teacherName (User.name teacher) with
          | None => throw ddb.marshall_error
          | Some tname =>
              ddb.update_timetable timetableId (fun t =>
                Timetable.mk (Timetable.timetableId t) (Timetable.classId t)
                  (Timetable.className t) (Some teacherId) (Some tname)
                  (Timetable.dayOfWeek t) (Timetable.startTime t) (Timetable.endTime t)
                  (Timetable.subject t) (Timetable.room t) (Timetable.createdAt t)
                  (Some now) (Timetable.isActive t)) ;;;
              ret (json [("success", Bool true);
                         ("message", Str ("Teacher " +:+ tname
                                            +:+ " assigned to class successfully"))])
          end
    end.

Definition assign_teacher timetableId teacherId teacherName :=
  handle (assign_teacher_route timetableId teacherId teacherName).

(** ** Notions used in the statements *)

(** An environment in which no adapter call fails. *)
Definition no_fault (e : Env) : Prop := ∀ c, fault e c = None.

(** A small world for the examples: one approved teacher, one pending
    student, one session that expires at second 1730000600. *)
Definition teacher1 : User.t :=
  User.mk "TEACH001" (Some "Dr. Sarah Johnson") (Some "sarah.johnson@university.edu")
          (Some "teacher") (Some true) None (Some "password123") None None None None.

Definition student1 : User.t :=
  User.mk "10000012307" (Some "A") (Some "a@example.com") (Some "student") (Some false)
          (Some "data:image/png;base64,iVBORw0KGgo=") None None None None None.

Definition session1 : Session.t :=
  Session.mk "CLASS-CS101-1730000000123" "CS101" "TEACH001" 1730000600.

Definition world1 : World :=
  mkWorld {[ "TEACH001" := teacher1; "10000012307" := student1 ]}
          {[ "CLASS-CS101-1730000000123" := session1 ]}
          ∅ ∅ ∅ [].

(** An environment for the examples: the clock stands at [t] ms, the
    face search answers [found], nothing fails. *)
Definition env_at (t : Z) (found : list Rekognition.FaceMatch) : Env :=
  mkEnv (fun _ => t) 7 (fun _ => None)
        (fun _ _ => Returned (Rekognition.mkSearchResponse (Some found)))
        (fun c rq => Returned (Rekognition.mkIndexResponse
           (Some [Rekognition.mkFaceRecord
                    (Some (Rekognition.mkFace (Some ("face-" +:+ toString (Z.of_nat (length c))))
                                              (Some (Rekognition.IndexExternalImageId rq))))])))
        (fun _ => "2024-10-27T03:33:20.123Z")
        (fun _ => [])
        (fun s => "data:image/png;base64," +:+ s)
        75.

Definition face_of (userId : string) : Rekognition.FaceMatch :=
  Rekognition.mkFaceMatch 99 (Rekognition.mkFace (Some "face-0") (Some userId)).

(** The stored user with another role. *)
Definition with_role (stored : option string) (u : User.t) : User.t :=
  User.mk (User.userId u) (User.name u) (User.email u) stored (User.approved u)
          (User.faceImage u) (User.password u) (User.faceId u) (User.photoKey u)
          (User.isActive u) (User.approvedAt u).

(** The request [approve] sends to [IndexFaces] for a stored image. *)
Definition index_request (e : Env) (userId faceImage : string) : Rekognition.IndexRequest :=
  Rekognition.mkIndex (fromBase64 e (strip_data_url faceImage)) userId.

(** The entries of the collection that carry [userId] as external
    reference. *)
Definition tagged (userId : string) (c : list Rekognition.Face) : list Rekognition.Face :=
  filter (λ f, Rekognition.ExternalImageId f = Some userId) c.

(** The write of [r] goes through. *)
Definition put_ok (e : Env) (r : Attendance.t) : bool :=
  match fault e (PutCommand ATTENDANCE_TABLE (Attendance.attendanceId r)) with
  | None => true
  | Some _ => false
  end.

(** The table after the writes of [items] that go through. *)
Definition stored (e : Env) (items : list Attendance.t) (t : gmap string Attendance.t)
    : gmap string Attendance.t :=
  foldl (λ t r, if put_ok e r then <[Attendance.attendanceId r := r]> t else t) t items.

(** The session identifier the manual route files its records under:
    the supplied one, else one made from the third clock reading. *)
Definition final_session_id (e : Env) (classId sessionId : string) : string :=
  if truthy sessionId then sessionId
  else "MANUAL-" +:+ classId +:+ "-" +:+ toString (clock e 2).

(** The records the manual route sends to the table. *)
Definition manual_records (e : Env) (teacherId classId sessionId : string)
    (presentStudents : list string) : list Attendance.t :=
  manual_record teacherId (final_session_id e classId sessionId)
                (toISOString e (clock e 1)) (before "T" (toISOString e (clock e 0)))
    <$> presentStudents.

(** The record the face route writes: no [method], no [markedBy]. *)
Definition face_record (e : Env) (userId sessionId : string) : Attendance.t :=
  Attendance.mk (attendance_key userId sessionId) userId sessionId
                (toISOString e (clock e 2)) (before "T" (toISOString e (clock e 1)))
                "Present" None None None.

(** The record the QR route writes. *)
Definition qr_record (e : Env) (userId qrData cameraType : string) : Attendance.t :=
  Attendance.mk (attendance_key userId qrData) userId qrData
                (toISOString e (clock e 2)) (before "T" (toISOString e (clock e 1)))
                "Present" None (Some "qr_scan") (Some (or_else cameraType "unknown")).

(** Every row of the table sits under the identifier derived from its
    own user and session. *)
Definition keyed (t : gmap string Attendance.t) : Prop :=
  ∀ k r, t !! k = Some r →
         k = attendance_key (Attendance.userId r) (Attendance.sessionId r).

Definition well_keyed (r : Attendance.t) : Prop :=
  Attendance.attendanceId r
  = attendance_key (Attendance.userId r) (Attendance.sessionId r).

(** The three ways to mark [userId] present in [sessionId]. *)
Inductive entry_point :=
| FaceMark
| QrScan (cameraType : string)
| ManualSubmission (teacherId classId : string) (classmates : list string).

Definition mark_via (p : entry_point) (userId sessionId : string)
    : Env → World → Response * World :=
  match p with
  | FaceMark => mark userId sessionId
  | QrScan cameraType => scan_qr userId sessionId cameraType
  | ManualSubmission teacherId classId classmates =>
      submit_attendance teacherId classId (Some (userId :: classmates)) sessionId
  end.

(** The [method] attribute each of them puts on its record. *)
Definition method_written (p : entry_point) : option string :=
  match p with
  | FaceMark => None
  | QrScan _ => Some "qr_scan"
  | ManualSubmission _ _ _ => Some "manual"
  end.

(** One marking of a user in a session by one of the three routes; the
    manual route is given its whole list of students. *)
Inductive marking :=
| ByFace
| ByQr (cameraType : string)
| ByTeacher (teacherId classId : string) (presentStudents : list string).

Definition run_marking (p : marking) (userId sessionId : string)
    : Env → World → Response * World :=
  match p with
  | ByFace => mark userId sessionId
  | ByQr cameraType => scan_qr userId sessionId cameraType
  | ByTeacher teacherId classId presentStudents =>
      submit_attendance teacherId classId (Some presentStudents) sessionId
  end.

(** The marking is about [userId]: a manual submission has to list it. *)
Definition names (p : marking) (userId : string) : Prop :=
  match p with
  | ByTeacher _ _ presentStudents => userId ∈ presentStudents
  | _ => True
  end.

(** The record the marking writes for [userId], with the times read in
    environment [e]. *)
Definition marking_record (p : marking) (e : Env) (userId sessionId : string)
    : Attendance.t :=
  match p with
  | ByFace => face_record e userId sessionId
  | ByQr cameraType => qr_record e userId sessionId cameraType
  | ByTeacher teacherId _ _ =>
      manual_record teacherId sessionId (toISOString e (clock e 1))
                    (before "T" (toISOString e (clock e 0))) userId
  end.

(** The table after each of [items] has been put. *)
Definition insert_all (items : list Attendance.t) (t : gmap string Attendance.t)
    : gmap string Attendance.t :=
  foldl (λ t r, <[Attendance.attendanceId r := r]> t) t items.

(** The Attendance table after a marking that succeeded: one put for the
    face and QR routes, one put per listed student for the manual
    route. *)
Definition marked_table (p : marking) (e : Env) (userId sessionId : string)
    (t : gmap string Attendance.t) : gmap string Attendance.t :=
  match p with
  | ByTeacher teacherId _ presentStudents =>
      insert_all (manual_record teacherId sessionId (toISOString e (clock e 1))
                                (before "T" (toISOString e (clock e 0)))
                    <$> presentStudents) t
  | _ => <[attendance_key userId sessionId := marking_record p e userId sessionId]> t
  end.

(** An environment for the examples in which nothing fails, the clock
    stands at [t] ms and prints as [iso]. *)
Definition env_iso (t : Z) (iso : string) : Env :=
  mkEnv (fun _ => t) 7 (fun _ => None)
        (fun _ _ => Returned (Rekognition.mkSearchResponse (Some [])))
        (fun c rq => Returned (Rekognition.mkIndexResponse
           (Some [Rekognition.mkFaceRecord
                    (Some (Rekognition.mkFace (Some ("face-" +:+ toString (Z.of_nat (length c))))
                                              (Some (Rekognition.IndexExternalImageId rq))))])))
        (fun _ => iso)
        (fun s => Byte.x89 :: Byte.x50 :: Byte.x4e :: Byte.x47 :: [])
        (fun s => "data:image/png;base64," +:+ s)
        75.

Definition is_digit (c : ascii) : bool :=
  let n := nat_of_ascii c in ((48 <=? n) && (n <=? 57))%nat.

Fixpoint all_digits (s : string) : bool :=
  match s with
  | EmptyString => true
  | String c s' => is_digit c && all_digits s'
  end.

(** [/^1\d{10}$/.test(s)] *)
Definition student_id (s : string) : bool :=
  match s with
  | String "1" rest => (String.length rest =? 10)%nat && all_digits rest
  | _ => false
  end.

(** The [k] low-order decimal digits of [n], most significant first. *)
Fixpoint low_digits (k : nat) (n : N) : string :=
  match k with
  | O => EmptyString
  | S k' => low_digits k' (n `div` 10)%N +:+ String (pretty_N_char (n `mod` 10)%N) EmptyString
  end.

(** The identifier and the pending record [register] makes. *)
Definition temp_id (e : Env) (role : string) : string :=
  (if String.eqb role "student" then "1" else "2")
    +:+ slice_last 8 (toString (clock e 0))
    +:+ padStart 2 "0" (toString (random100 e)).

Definition pending_user (tempId name email role imageBase64 : string) : User.t :=
  User.mk tempId (Some name) (Some email) (Some role) (Some false)
          (Some imageBase64) None None None None None.

(** ** Further routes *)

(** [ddb.send(new PutCommand({ TableName: TIMETABLE_TABLE, Item }))] *)
Definition put_timetable (t : Timetable.t) : M unit :=
  attempt (PutCommand TIMETABLE_TABLE (Timetable.timetableId t)) ;;;
  modify (with_Timetable (insert (Timetable.timetableId t) t)).

(** [SET approved = :inactive, isActive = :inactive] with [false] *)
Definition set_removed (u : User.t) : User.t :=
  User.mk (User.userId u) (User.name u) (User.email u) (User.role u)
          (Some false) (User.faceImage u) (User.password u) (User.faceId u)
          (User.photoKey u) (Some false) (User.approvedAt u).

(** [DELETE /admin/user/:userId] *)
Definition remove_user_route (userId : string) : M Response :=
  user <- ddb.get_user userId ;;
  match user with
  | None => ret (status_json 404 [("success", Bool false); ("error", Str "User not found")])
  | Some _ =>
      ddb.update_user userId set_removed ;;;
      ret (json [("success", Bool true);
                 ("message", Str ("User " +:+ userId +:+ " removed successfully"))])
  end.

Definition remove_user userId := handle (remove_user_route userId).

(** The identifier of a timetable entry. *)
Definition timetable_key (classId dayOfWeek startTime : string) : string :=
  classId +:+ "-" +:+ dayOfWeek +:+ "-" +:+ startTime.

(** [POST /admin/timetable] *)
Definition upsert_timetable_route
    (classId className teacherId teacherName dayOfWeek startTime endTime subject room : string)
    : M Response :=
  if negb (truthy classId) || negb (truthy className) || negb (truthy teacherId)
     || negb (truthy dayOfWeek) || negb (truthy startTime) || negb (truthy endTime)
     || negb (truthy subject)
  then ret (status_json 400 [("success", Bool false); ("error", Str "Missing required fields")])
  else
    let timetableId := timetable_key classId dayOfWeek startTime in
    createdAt <- now_iso ;;
    put_timetable
      (Timetable.mk timetableId (Some classId) (Some className) (Some teacherId)
         (Some (or_else teacherName "Unknown Teacher")) (Some dayOfWeek) (Some startTime)
         (Some endTime) (Some subject) (Some (or_else room "")) (Some createdAt)
         None (Some true)) ;;;
    ret (json [("success", Bool true); ("message", Str "Timetable entry created/updated");
               ("timetableId", Str timetableId)]).

Definition upsert_timetable classId className teacherId teacherName dayOfWeek startTime
    endTime subject room :=
  handle (upsert_timetable_route classId className teacherId teacherName dayOfWeek
            startTime endTime subject room).

(** [SET isActive = :inactive] with [false] *)
Definition set_inactive (t : Timetable.t) : Timetable.t :=
  Timetable.mk (Timetable.timetableId t) (Timetable.classId t) (Timetable.className t)
    (Timetable.teacherId t) (Timetable.teacherName t) (Timetable.dayOfWeek t)
    (Timetable.startTime t) (Timetable.endTime t) (Timetable.subject t) (Timetable.room t)
    (Timetable.createdAt t) (Timetable.assignedAt t) (Some false).

(** [DELETE /admin/timetable/:timetableId] *)
Definition delete_timetable_route (timetableId : string) : M Response :=
  ddb.update_timetable timetableId set_inactive ;;;
  ret (json [("success", Bool true); ("message", Str "Timetable entry deleted")]).

Definition delete_timetable timetableId := handle (delete_timetable_route timetableId).

(** [SET teacherId = :tid, teacherName = :tname, assignedAt = :now] *)
Definition set_teacher (teacherId tname now : string) (t : Timetable.t) : Timetable.t :=
  Timetable.mk (Timetable.timetableId t) (Timetable.classId t) (Timetable.className t)
    (Some teacherId) (Some tname) (Timetable.dayOfWeek t) (Timetable.startTime t)
    (Timetable.endTime t) (Timetable.subject t) (Timetable.room t) (Timetable.createdAt t)
    (Some now) (Timetable.isActive t).

(** ** Listings *)

(** What a route that lists data answers: [Success payload] stands for
    [res.json({ success: true, ...payload })], [Failure r] for an error
    response. *)
Inductive reply (A : Type) :=
| Success (payload : A)
| Failure (r : Response).
Arguments Success {A} payload.
Arguments Failure {A} r.

(** The wrapper of [handle] for a route that answers with data. *)
Definition handle_data {A} (route : M A) (e : Env) (w : World) : reply A * World :=
  match route e (mkSt w 0) with
  | (Returned a, s) => (Success a, world s)
  | (Threw x, s) =>
      (Failure (status_json 500 [("success", Bool false); ("error", Str (exn_message x))]),
       world s)
  end.

(** [(await ddb.send(new ScanCommand({ TableName: USERS_TABLE, FilterExpression }))).Items || []].
    [failure] is the exception the call ends in, if any; otherwise the
    scan answers with every item that passes the filter, in the order
    the table yields them (the handlers never ask for a further page). *)
Definition scan_users (failure : option Exn) (keep : User.t → bool) : M (list User.t) :=
  fun _ s =>
    match failure with
    | Some x => (Threw x, s)
    | None => (Returned (List.filter keep (map_to_list (Users (world s))).*2), s)
    end.

(** [FilterExpression: 'approved = :a'] with [false] *)
Definition is_pending (u : User.t) : bool :=
  bool_decide (User.approved u = Some false).

(** [GET /admin/pending] *)
Definition pending_route (failure : option Exn) : M (list User.t) :=
  scan_users failure is_pending.

Definition pending failure := handle_data (pending_route failure).

(** [FilterExpression: 'approved = :a AND (attribute_not_exists(isActive) OR isActive = :active)']
    with [true] and [true] *)
Definition is_approved_active (u : User.t) : bool :=
  bool_decide (User.approved u = Some true)
  && (bool_decide (User.isActive u = None) || bool_decide (User.isActive u = Some true)).

Record UserList := mkUserList {
  students : list User.t;
  teachers : list User.t;
  total : nat
}.

(** [GET /admin/users] *)
Definition admin_users_route (failure : option Exn) : M UserList :=
  users <- scan_users failure is_approved_active ;;
  let students := List.filter (λ user, bool_decide (User.role user = Some "student")) users in
  let teachers := List.filter (λ user, bool_decide (User.role user = Some "teacher")) users in
  ret (mkUserList students teachers (length users)).

Definition admin_users failure := handle_data (admin_users_route failure).

(** ** Class times *)

(** [now.getHours().toString().padStart(2, '0') + ':' + now.getMinutes().toString().padStart(2, '0')] *)
Definition current_time (hours minutes : Z) : string :=
  padStart 2 "0" (toString hours) +:+ ":" +:+ padStart 2 "0" (toString minutes).

(** [a < b] on a string and an attribute that may be [undefined]; a
    comparison with [undefined] is false.  Strings compare by code unit. *)
Definition str_lt (a : string) (b : option string) : bool :=
  match b with Some b => String.ltb a b | None => false end.

(** [a > b] *)
Definition str_gt (a : string) (b : option string) : bool :=
  match b with Some b => String.ltb b a | None => false end.

(** [a >= b] *)
Definition str_ge (a : string) (b : option string) : bool :=
  match b with Some b => negb (String.ltb a b) | None => false end.

(** [a <= b] *)
Definition str_le (a : string) (b : option string) : bool :=
  match b with Some b => negb (String.ltb b a) | None => false end.

Record ClassFlags := mkFlags {
  canTakeAttendance : bool;
  isUpcoming : bool;
  isCompleted : bool
}.

(** The three flags [GET /teacher/classes/:teacherId] adds to a class. *)
Definition class_flags (currentTime : string) (cls : Timetable.t) : ClassFlags :=
  mkFlags (str_ge currentTime (Timetable.startTime cls)
           && str_le currentTime (Timetable.endTime cls))
          (str_lt currentTime (Timetable.startTime cls))
          (str_gt currentTime (Timetable.endTime cls)).

(** ** Further notions used in the statements *)

(** No ["-"] occurs in [s]. *)
Fixpoint dash_free (s : string) : bool :=
  match s with
  | EmptyString => true
  | String c s' => negb (Ascii.eqb c "-") && dash_free s'
  end.

Fixpoint all_letters (s : string) : bool :=
  match s with
  | EmptyString => true
  | String c s' => is_letter c && all_letters s'
  end.

(** An environment for the examples in which [IndexFaces] is down. *)
Definition env_index_down (t : Z) : Env :=
  mkEnv (fun _ => t) 7 (fun _ => None)
        (fun _ _ => Returned (Rekognition.mkSearchResponse (Some [])))
        (fun _ _ => Threw (mkExn "ServiceUnavailableException" "Rekognition is unavailable"))
        (fun _ => "2024-10-27T03:33:20.123Z")
        (fun _ => [])
        (fun s => "data:image/png;base64," +:+ s)
        75.

(** An environment for the examples in which exactly the call [c]
    fails. *)
Definition env_failing (t : Z) (c : Call → bool) : Env :=
  mkEnv (fun _ => t) 7
        (fun c' => if c c' then Some (mkExn "InternalServerError" "DynamoDB is unavailable")
                   else None)
        (fun _ _ => Returned (Rekognition.mkSearchResponse (Some [])))
        (fun c rq => Returned (Rekognition.mkIndexResponse
           (Some [Rekognition.mkFaceRecord
                    (Some (Rekognition.mkFace (Some ("face-" +:+ toString (Z.of_nat (length c))))
                                              (Some (Rekognition.IndexExternalImageId rq))))])))
        (fun _ => "2024-10-27T03:33:20.123Z")
        (fun _ => [])
        (fun s => "data:image/png;base64," +:+ s)
        75.

(** The write of the attendance record [key]. *)
Definition is_put_attendance (key : string) (c : Call) : bool :=
  match c with
  | PutCommand ATTENDANCE_TABLE k => String.eqb k key
  | _ => false
  end.

(** The lookups in the Users table, and those in the Sessions table. *)
Definition is_get_user (c : Call) : bool :=
  match c with
  | GetCommand USERS_TABLE _ => true
  | _ => false
  end.

Definition is_get_session (c : Call) : bool :=
  match c with
  | GetCommand SESSIONS_TABLE _ => true
  | _ => false
  end.

(** Every item of the Users table sits under its own [userId], as in a
    table whose key attribute is [userId]. *)
Definition users_keyed (t : gmap string User.t) : Prop :=
  ∀ k u, t !! k = Some u → User.userId u = k.

(** ** Further listings *)

(** [(await ddb.send(new ScanCommand({ TableName: TIMETABLE_TABLE, FilterExpression }))).Items || []],
    read as [scan_users]. *)
Definition scan_timetable (failure : option Exn) (keep : Timetable.t → bool)
    : M (list Timetable.t) :=
  fun _ s =>
    match failure with
    | Some x => (Threw x, s)
    | None => (Returned (List.filter keep (map_to_list (TimetableTable (world s))).*2), s)
    end.

(** The same for the Attendance table. *)
Definition scan_attendance (failure : option Exn) (keep : Attendance.t → bool)
    : M (list Attendance.t) :=
  fun _ s =>
    match failure with
    | Some x => (Threw x, s)
    | None => (Returned (List.filter keep (map_to_list (AttendanceTable (world s))).*2), s)
    end.

(** [FilterExpression: 'isActive = :active'] with [true] *)
Definition is_active (t : Timetable.t) : bool :=
  bool_decide (Timetable.isActive t = Some true).

(** [FilterExpression: '#role = :role AND approved = :approved'] with
    ["teacher"] and [true] *)
Definition is_approved_teacher (u : User.t) : bool :=
  bool_decide (User.role u = Some "teacher") && bool_decide (User.approved u = Some true).

(** [!t.teacherId || t.teacherId === ''] *)
Definition has_no_teacher (t : Timetable.t) : bool :=
  match Timetable.teacherId t with
  | Some teacherId => negb (truthy teacherId)
  | None => true
  end.

(** [{ ...teacher, assignedClasses, classes }] *)
Record TeacherAssignment := mkTeacherAssignment {
  assigned_teacher : User.t;
  assignedClasses : nat;
  classes : list Timetable.t
}.

Record Assignments := mkAssignments {
  assigned_teachers : list TeacherAssignment;
  unassignedClasses : list Timetable.t;
  totalClasses : nat
}.

(** [GET /admin/teacher-assignments]; the two arguments are what the
    two scans end in. *)
Definition teacher_assignments_route (failure1 failure2 : option Exn) : M Assignments :=
  timetables <- scan_timetable failure1 is_active ;;
  teachers <- scan_users failure2 is_approved_teacher ;;
  let teacherAssignments :=
    (λ teacher,
       let assignedClasses :=
         List.filter (λ t, bool_decide (Timetable.teacherId t = Some (User.userId teacher)))
                     timetables in
       mkTeacherAssignment teacher (length assignedClasses) assignedClasses)
      <$> teachers in
  ret (mkAssignments teacherAssignments (List.filter has_no_teacher timetables)
                     (length timetables)).

Definition teacher_assignments failure1 failure2 :=
  handle_data (teacher_assignments_route failure1 failure2).

(** [contains(s, sub)] of a filter expression: [sub] occurs in [s]. *)
Fixpoint contains (sub s : string) : bool :=
  match strip_prefix sub s with
  | Some _ => true
  | None =>
      match s with
      | String _ s' => contains sub s'
      | EmptyString => false
      end
  end.

(** [{ ...record, userName, userEmail, userRole }] *)
Record AttendanceView := mkView {
  view_record : Attendance.t;
  userName : string;
  userEmail : string;
  userRole : string
}.

(** The callback of the enrichment: a failed lookup is caught and
    answered with the placeholders. *)
Definition enrich (record : Attendance.t) : M AttendanceView :=
  try_catch
    (userData <- ddb.get_user (Attendance.userId record) ;;
     ret (mkView record
            (attr_or (userData ≫= User.name) "Unknown User")
            (attr_or (userData ≫= User.email) "")
            (attr_or (userData ≫= User.role) "student")))
    (fun err => ret (mkView record "Unknown User" "" "student")).

(** [await Promise.all(attendance.map(async (record) => ...))] for a
    callback that catches its own failures; the results keep the order of
    the records. *)
Fixpoint enrich_all (attendance : list Attendance.t) : M (list AttendanceView) :=
  match attendance with
  | [] => ret []
  | record :: rest =>
      v <- enrich record ;;
      vs <- enrich_all rest ;;
      ret (v :: vs)
  end.

(** [GET /teacher/attendance/:classId] *)
Definition class_attendance_route (failure : option Exn) (classId : string)
    : M (list AttendanceView) :=
  attendance <- scan_attendance failure (λ r, contains classId (Attendance.sessionId r)) ;;
  enrich_all attendance.

Definition class_attendance failure classId :=
  handle_data (class_attendance_route failure classId).

(** Every active entry of the timetable names a teacher. *)
Definition active_entries_have_teacher (t : gmap string Timetable.t) : Prop :=
  ∀ k entry, t !! k = Some entry → Timetable.isActive entry = Some true →
             has_no_teacher entry = false.

(** * Properties *)

(** ** Running a route *)

Ltac unfold_monad :=
  cbv [bind ret throw try_catch ask get_world modify attempt Date_now now_iso
       image_buffer uploadToS3
       ddb.get_user ddb.get_session ddb.get_user_by ddb.put_user ddb.put_session
       ddb.put_attendance ddb.update_user ddb.update_timetable
       rekognition.search_faces rekognition.index_faces] in *.

Ltac reduce := cbn [world reads negb orb andb fst snd] in *.

Tactic Notation "step" constr(H) := rewrite H; reduce.

(** ** Registration: the duplicate-face guard *)

(** C1. When the request passes validation and the face search (run with
    threshold 80) returns at least one match, [register] answers 409 with
    success=false and code DUPLICATE_FACE, whether or not the lookup of the
    matched user works, and leaves the whole world, the Users table
    included, as it was. *)
Theorem register_duplicate_face e w name email role imageBase64 m ms :
  truthy name = true → truthy email = true → truthy role = true →
  truthy imageBase64 = true →
  search e (Collection w)
         (Rekognition.mkSearch (fromBase64 e (strip_data_url imageBase64)) 1 80)
    = Returned (Rekognition.mkSearchResponse (Some (m :: ms))) →
  status (register name email role imageBase64 e w).1 = 409
  ∧ success (register name email role imageBase64 e w).1 = Some (Bool false)
  ∧ field "code" (register name email role imageBase64 e w).1 = Some (Str "DUPLICATE_FACE")
  ∧ (register name email role imageBase64 e w).2 = w.
Proof.
  intros Hn He Hr Hi Hs.
  unfold register, handle, register_route.
  step Hn. step He. step Hr. step Hi. unfold_monad. reduce. step Hs.
  cbn [Rekognition.FaceMatches].
  destruct (Rekognition.ExternalImageId (Rekognition.MatchedFace m)) as [k|]; reduce;
    [|done].
  destruct (fault e (GetCommand USERS_TABLE k)); reduce; [done|].
  by destruct (Users w !! k).
Qed.

Lemma register_duplicate_face_witness :
  status (register "B" "b@example.com" "teacher" "data:image/png;base64,iVBORw0KGgo="
                   (env_at 1730000000123 [face_of "TEACH001"]) world1).1 = 409
  ∧ (register "B" "b@example.com" "teacher" "data:image/png;base64,iVBORw0KGgo="
              (env_at 1730000000123 [face_of "TEACH001"]) world1).2 = world1.
Proof.
  destruct (register_duplicate_face (env_at 1730000000123 [face_of "TEACH001"]) world1
              "B" "b@example.com" "teacher" "data:image/png;base64,iVBORw0KGgo="
              (face_of "TEACH001") [])
    as (H1 & _ & _ & H4); try reflexivity.
  split; [exact H1 | exact H4].
Defined.

(** ** Attendance: expired sessions *)

(** C3. When the request passes validation, the session lookup returns a
    session and the current time in unix seconds (the first clock reading
    of the request, divided by 1000) is strictly greater than its
    [expireAt], both the face route and the QR route answer success=false
    with their expiry message and leave the world, the Attendance table
    included, as it was. *)
Theorem expired_session_writes_nothing e w userId sessionId cameraType session :
  truthy userId = true → truthy sessionId = true →
  fault e (GetCommand SESSIONS_TABLE sessionId) = None →
  Sessions w !! sessionId = Some session →
  clock e 0 `div` 1000 > Session.expireAt session →
  mark userId sessionId e w
    = (json [("success", Bool false); ("error", Str "Session expired")], w)
  ∧ scan_qr userId sessionId cameraType e w
    = (json [("success", Bool false); ("error", Str "QR code has expired")], w).
Proof.
  intros Hu Hs Hf Hl Ht.
  assert (Hgt : (clock e 0 `div` 1000 >? Session.expireAt session) = true)
    by (apply Z.gtb_lt; lia).
  unfold mark, scan_qr, handle, mark_route, scan_qr_route.
  step Hu. step Hs. unfold_monad. step Hf. step Hl. by step Hgt.
Qed.

Lemma expired_session_writes_nothing_witness :
  mark "10000012307" "CLASS-CS101-1730000000123" (env_at 1730000601000 []) world1
    = (json [("success", Bool false); ("error", Str "Session expired")], world1)
  ∧ scan_qr "10000012307" "CLASS-CS101-1730000000123" "back"
            (env_at 1730000601000 []) world1
    = (json [("success", Bool false); ("error", Str "QR code has expired")], world1).
Proof.
  apply (expired_session_writes_nothing (env_at 1730000601000 []) world1
           "10000012307" "CLASS-CS101-1730000000123" "back" session1);
    reflexivity.
Defined.

(** ** Timetable: assigning a teacher *)

(** C8. When [teacherId] names no user, or a user whose role is not
    "teacher", [assign_teacher] leaves the world, the Timetable table
    included, as it was, whatever the rest of the request and whatever
    fails; and when the request passes validation and the lookup returns,
    the answer is 404 with success=false. *)
Theorem assign_teacher_rejects_non_teacher e w timetableId teacherId teacherName :
  (∀ u, Users w !! teacherId = Some u → User.role u ≠ Some "teacher") →
  (assign_teacher timetableId teacherId teacherName e w).2 = w
  ∧ (truthy timetableId = true → truthy teacherId = true →
     fault e (GetCommand USERS_TABLE teacherId) = None →
     (assign_teacher timetableId teacherId teacherName e w).1
       = status_json 404 [("success", Bool false);
                          ("error", Str "Teacher not found or invalid role")]).
Proof.
  intros Hrole.
  unfold assign_teacher, handle, assign_teacher_route.
  destruct (truthy timetableId), (truthy teacherId); reduce;
    try (split; [reflexivity | discriminate]).
  unfold_monad.
  destruct (fault e (GetCommand USERS_TABLE teacherId)) as [x|]; reduce.
  { split; [reflexivity | discriminate]. }
  destruct (Users w !! teacherId) as [u|] eqn:Hu; reduce; [|done].
  by rewrite bool_decide_eq_false_2 by (by apply Hrole).
Qed.

Lemma assign_teacher_rejects_non_teacher_witness :
  (assign_teacher "CS101-Monday-09:00" "10000012307" "" (env_at 1730000000123 []) world1).2
    = world1
  ∧ (assign_teacher "CS101-Monday-09:00" "10000012307" "" (env_at 1730000000123 []) world1).1
    = status_json 404 [("success", Bool false);
                       ("error", Str "Teacher not found or invalid role")].
Proof.
  destruct (assign_teacher_rejects_non_teacher (env_at 1730000000123 []) world1
              "CS101-Monday-09:00" "10000012307" "") as [H1 H2].
  - intros u Hu. vm_compute in Hu. injection Hu as <-. discriminate.
  - split; [exact H1 | apply H2; reflexivity].
Defined.

(** ** Authentication *)

(** C9. For an approved user whose stored password is the supplied one,
    [login] answers success=true and echoes the role the caller sent,
    whatever role the user record holds: the answer is the same for every
    stored role. *)
Theorem login_echoes_supplied_role e w userId password role u stored :
  truthy userId = true → truthy password = true → truthy role = true →
  fault e (GetCommand USERS_TABLE userId) = None →
  Users w !! userId = Some u →
  User.approved u = Some true →
  User.password u = Some password →
  (login userId password role e (with_Users (insert userId (with_role stored u)) w)).1
    = json [("success", Bool true); ("message", Str "Login successful");
            ("userId", Str userId); ("role", Str role)]
  ∧ login userId password role e w
    = (json [("success", Bool true); ("message", Str "Login successful");
             ("userId", Str userId); ("role", Str role)], w).
Proof.
  intros Hu Hp Hr Hf Hl Ha Hpw.
  unfold login, handle, login_route.
  step Hu. step Hp. step Hr. unfold_monad. step Hf.
  split.
  - cbn [Users with_Users]. rewrite lookup_insert_eq. cbn [with_role User.approved User.password].
    rewrite Ha, Hpw. by rewrite bool_decide_eq_true_2.
  - step Hl. rewrite Ha, Hpw. by rewrite bool_decide_eq_true_2.
Qed.

Lemma login_echoes_supplied_role_witness :
  User.role teacher1 = Some "teacher"
  ∧ login "TEACH001" "password123" "admin" (env_at 1730000000123 []) world1
    = (json [("success", Bool true); ("message", Str "Login successful");
             ("userId", Str "TEACH001"); ("role", Str "admin")], world1).
Proof.
  split; [reflexivity|].
  apply (login_echoes_supplied_role (env_at 1730000000123 []) world1
           "TEACH001" "password123" "admin" teacher1 None); reflexivity.
Defined.

(** C6. When the request passes validation, the user exists and the face
    search returns, [verify_face] answers 200, and with success=true
    exactly when some returned candidate carries [userId] as its external
    reference; when no candidate does (for instance when every match
    belongs to somebody else) the answer is success=false, "Face not
    matched". *)
Theorem verify_face_matches_own_reference e w userId imageBase64 u rs :
  truthy userId = true → truthy imageBase64 = true →
  fault e (GetCommand USERS_TABLE userId) = None →
  Users w !! userId = Some u →
  search e (Collection w)
         (Rekognition.mkSearch (fromBase64 e (strip_data_url imageBase64)) 1
                               (FACE_MATCH_THRESHOLD e))
    = Returned rs →
  let candidates := default [] (Rekognition.FaceMatches rs) in
  let own f := Rekognition.ExternalImageId (Rekognition.MatchedFace f) = Some userId in
  status (verify_face userId imageBase64 e w).1 = 200
  ∧ (success (verify_face userId imageBase64 e w).1 = Some (Bool true)
     ↔ ∃ f, f ∈ candidates ∧ own f)
  ∧ ((∀ f, f ∈ candidates → ¬ own f) →
     (verify_face userId imageBase64 e w).1
       = json [("success", Bool false); ("message", Str "Face not matched")]).
Proof.
  intros Hu Hi Hf Hl Hs candidates own.
  unfold verify_face, handle, verify_face_route.
  step Hu. step Hi. unfold_monad. step Hf. step Hl. step Hs.
  subst candidates own. cbn beta.
  destruct (Rekognition.FaceMatches rs) as [l|]; cbn [mbind option_bind default].
  - destruct (find (same_person userId) l) as [m|] eqn:Hfind.
    + apply find_some in Hfind as [Hin Hm]. apply bool_decide_eq_true_1 in Hm.
      split; [done|]. split.
      * split; [|done]. intros _. exists m. split; [|done]. by apply list_elem_of_In.
      * intros Hno. destruct (Hno m); [by apply list_elem_of_In | done].
    + split; [done|]. split; [|done].
      split; [discriminate|]. intros (f & Hin & Hown).
      apply list_elem_of_In in Hin.
      pose proof (find_none _ _ Hfind f Hin) as Hn. unfold same_person in Hn.
      by rewrite bool_decide_eq_true_2 in Hn.
  - split; [done|]. split; [|done].
    split; [discriminate|]. intros (f & Hin & _). by apply elem_of_nil in Hin.
Qed.

Lemma verify_face_matches_own_reference_witness :
  (verify_face "TEACH001" "data:image/png;base64,iVBORw0KGgo="
               (env_at 1730000000123 [face_of "10000012307"]) world1).1
    = json [("success", Bool false); ("message", Str "Face not matched")].
Proof.
  refine (proj2 (proj2 (verify_face_matches_own_reference
            (env_at 1730000000123 [face_of "10000012307"]) world1
            "TEACH001" "data:image/png;base64,iVBORw0KGgo=" teacher1
            (Rekognition.mkSearchResponse (Some [face_of "10000012307"]))
            eq_refl eq_refl eq_refl eq_refl eq_refl)) _).
  intros f Hin Hown. apply list_elem_of_singleton in Hin. subst f. discriminate Hown.
Defined.

(** ** Approval *)

Lemma tagged_app userId c1 c2 : tagged userId (c1 ++ c2) = tagged userId c1 ++ tagged userId c2.
Proof. apply filter_app. Qed.

Lemma tagged_indexed rq rs :
  tagged (Rekognition.IndexExternalImageId rq) (Rekognition.indexed rq rs)
  = Rekognition.indexed rq rs.
Proof.
  unfold tagged, Rekognition.indexed.
  induction (omap Rekognition.RecordFace (default [] (Rekognition.FaceRecords rs)))
    as [|f l IH]; [done|].
  rewrite fmap_cons, filter_cons_True by done. by rewrite IH.
Qed.

(** One run of [approve] on a user with a stored image, when nothing
    fails: there is no test of [User.approved]. *)
Lemma approve_run e w userId password u faceImage rs :
  truthy userId = true → truthy password = true →
  no_fault e →
  Users w !! userId = Some u →
  User.faceImage u = Some faceImage → truthy faceImage = true →
  index e (Collection w) (index_request e userId faceImage) = Returned rs →
  approve userId password e w
  = (json [("success", Bool true); ("message", Str "User approved and face indexed");
           ("faceId", match first_face_id rs with Some f => Str f | None => Null end)],
     mkWorld (<[userId := set_approved password (first_face_id rs) (userId +:+ ".jpg")
                            (toISOString e (clock e 0)) u]> (Users w))
             (Sessions w) (AttendanceTable w) (TimetableTable w)
             (<[userId +:+ ".jpg" := fromBase64 e (strip_data_url faceImage)]> (Bucket w))
             (Collection w ++ Rekognition.indexed (index_request e userId faceImage) rs)).
Proof.
  intros Hu Hp Hnf Hl Hi Ht Hx.
  unfold approve, handle, approve_route.
  step Hu. step Hp. unfold_monad. rewrite ?Hnf. reduce. step Hl. step Hi. step Ht.
  rewrite ?Hnf. reduce.
  unfold index_request in Hx. cbn [with_Bucket Collection].
  step Hx. rewrite ?Hnf. reduce.
  unfold with_Users, with_Collection, with_Bucket, index_request.
  cbn [Users Sessions AttendanceTable TimetableTable Bucket Collection].
  by rewrite Hl.
Qed.

(** C5. [approve] does not look at the approval state.  For a user with
    a stored face image, approved or not, it uploads the photo, calls
    [IndexFaces] and updates the record when nothing fails; a second call
    with the same identifier runs on the now approved user and does all
    of it again: it uploads the photo again, indexes again and rewrites
    the record with the second password and time.  The answers and the
    worlds after both calls are given in full.  The collection gains
    what each of the two calls indexed, so when each reports at least one
    face it ends with at least two more entries tagged with the
    identifier. *)
Theorem approve_twice_indexes_twice e1 e2 w userId password1 password2 u faceImage rs1 rs2 :
  truthy userId = true → truthy password1 = true → truthy password2 = true →
  no_fault e1 → no_fault e2 →
  Users w !! userId = Some u →
  User.faceImage u = Some faceImage → truthy faceImage = true →
  let rq1 := index_request e1 userId faceImage in
  let rq2 := index_request e2 userId faceImage in
  index e1 (Collection w) rq1 = Returned rs1 →
  index e2 (Collection w ++ Rekognition.indexed rq1 rs1) rq2 = Returned rs2 →
  Rekognition.indexed rq1 rs1 ≠ [] → Rekognition.indexed rq2 rs2 ≠ [] →
  let w1 := (approve userId password1 e1 w).2 in
  let w2 := (approve userId password2 e2 w1).2 in
  let key := userId +:+ ".jpg" in
  let u1 := set_approved password1 (first_face_id rs1) key (toISOString e1 (clock e1 0)) u in
  let u2 := set_approved password2 (first_face_id rs2) key (toISOString e2 (clock e2 0)) u1 in
  success (approve userId password1 e1 w).1 = Some (Bool true)
  ∧ (User.approved <$> Users w1 !! userId) = Some (Some true)
  ∧ success (approve userId password2 e2 w1).1 = Some (Bool true)
  ∧ Collection w2
    = (Collection w ++ Rekognition.indexed rq1 rs1) ++ Rekognition.indexed rq2 rs2
  ∧ (length (tagged userId (Collection w)) + 2 ≤ length (tagged userId (Collection w2)))%nat
  ∧ approve userId password1 e1 w
    = (json [("success", Bool true); ("message", Str "User approved and face indexed");
             ("faceId", match first_face_id rs1 with Some f => Str f | None => Null end)],
       mkWorld (<[userId := u1]> (Users w)) (Sessions w) (AttendanceTable w)
               (TimetableTable w)
               (<[key := fromBase64 e1 (strip_data_url faceImage)]> (Bucket w))
               (Collection w ++ Rekognition.indexed rq1 rs1))
  ∧ approve userId password2 e2 w1
    = (json [("success", Bool true); ("message", Str "User approved and face indexed");
             ("faceId", match first_face_id rs2 with Some f => Str f | None => Null end)],
       mkWorld (<[userId := u2]> (<[userId := u1]> (Users w))) (Sessions w)
               (AttendanceTable w) (TimetableTable w)
               (<[key := fromBase64 e2 (strip_data_url faceImage)]>
                  (<[key := fromBase64 e1 (strip_data_url faceImage)]> (Bucket w)))
               ((Collection w ++ Rekognition.indexed rq1 rs1)
                  ++ Rekognition.indexed rq2 rs2))
  ∧ Users w2 !! userId = Some u2
  ∧ User.password u2 = Some password2
  ∧ User.approvedAt u2 = Some (toISOString e2 (clock e2 0))
  ∧ Bucket w2 !! key = Some (fromBase64 e2 (strip_data_url faceImage)).
Proof.
  intros Hu Hp1 Hp2 Hnf1 Hnf2 Hl Hi Ht rq1 rq2 Hx1 Hx2 Hne1 Hne2 w1 w2 key u1 u2.
  pose proof (approve_run e1 w userId password1 u faceImage rs1 Hu Hp1 Hnf1 Hl Hi Ht Hx1)
    as Hrun1.
  assert (Hl1 : Users w1 !! userId = Some u1).
  { subst w1. rewrite Hrun1. cbn [snd Users]. apply lookup_insert_eq. }
  assert (Hc1 : Collection w1 = Collection w ++ Rekognition.indexed rq1 rs1).
  { subst w1. by rewrite Hrun1. }
  assert (Hx2' : index e2 (Collection w1) (index_request e2 userId faceImage) = Returned rs2).
  { by rewrite Hc1. }
  pose proof (approve_run e2 w1 userId password2 _ faceImage rs2 Hu Hp2 Hnf2 Hl1 Hi Ht Hx2')
    as Hrun2.
  assert (Hrun2' : approve userId password2 e2 w1
    = (json [("success", Bool true); ("message", Str "User approved and face indexed");
             ("faceId", match first_face_id rs2 with Some f => Str f | None => Null end)],
       mkWorld (<[userId := u2]> (<[userId := u1]> (Users w))) (Sessions w)
               (AttendanceTable w) (TimetableTable w)
               (<[key := fromBase64 e2 (strip_data_url faceImage)]>
                  (<[key := fromBase64 e1 (strip_data_url faceImage)]> (Bucket w)))
               ((Collection w ++ Rekognition.indexed rq1 rs1)
                  ++ Rekognition.indexed rq2 rs2))).
  { rewrite Hrun2. subst w1. by rewrite Hrun1. }
  assert (Hc2 : Collection w2
                = (Collection w ++ Rekognition.indexed rq1 rs1) ++ Rekognition.indexed rq2 rs2).
  { subst w2. by rewrite Hrun2'. }
  split; [by rewrite Hrun1|]. split; [by rewrite Hl1|].
  split; [by rewrite Hrun2'|]. split; [exact Hc2|].
  split.
  { rewrite Hc2, !tagged_app, !length_app.
    subst rq1 rq2.
    pose proof (tagged_indexed (index_request e1 userId faceImage) rs1) as T1.
    pose proof (tagged_indexed (index_request e2 userId faceImage) rs2) as T2.
    cbn [index_request Rekognition.IndexExternalImageId] in T1, T2.
    unfold index_request in *. rewrite T1, T2.
    destruct (Rekognition.indexed _ rs1); [done|].
    destruct (Rekognition.indexed _ rs2); [done|].
    cbn [length]. lia. }
  split; [exact Hrun1|]. split; [exact Hrun2'|].
  subst w2. rewrite Hrun2'. cbn [snd Users Bucket].
  split; [apply lookup_insert_eq|]. split; [done|]. split; [done|].
  apply lookup_insert_eq.
Qed.

Lemma no_fault_env_at t found : no_fault (env_at t found).
Proof. intros c. reflexivity. Qed.

Lemma no_fault_env_iso t iso : no_fault (env_iso t iso).
Proof. intros c. reflexivity. Qed.

Lemma approve_twice_indexes_twice_witness :
  User.approved student1 = Some false
  ∧ Collection (approve "10000012307" "pw2" (env_iso 1730000300000 "2024-10-27T03:38:20.000Z")
                  (approve "10000012307" "pw1"
                     (env_iso 1730000000123 "2024-10-27T03:33:20.123Z") world1).2).2
    = [Rekognition.mkFace (Some "face-0") (Some "10000012307");
       Rekognition.mkFace (Some "face-1") (Some "10000012307")]
  ∧ Users (approve "10000012307" "pw2" (env_iso 1730000300000 "2024-10-27T03:38:20.000Z")
             (approve "10000012307" "pw1"
                (env_iso 1730000000123 "2024-10-27T03:33:20.123Z") world1).2).2
    !! "10000012307"
    = Some (User.mk "10000012307" (Some "A") (Some "a@example.com") (Some "student")
              (Some true) (Some "data:image/png;base64,iVBORw0KGgo=") (Some "pw2")
              (Some (Some "face-1")) (Some "10000012307.jpg") (Some true)
              (Some "2024-10-27T03:38:20.000Z"))
  ∧ Bucket (approve "10000012307" "pw2" (env_iso 1730000300000 "2024-10-27T03:38:20.000Z")
              (approve "10000012307" "pw1"
                 (env_iso 1730000000123 "2024-10-27T03:33:20.123Z") world1).2).2
    !! "10000012307.jpg"
    = Some [Byte.x89; Byte.x50; Byte.x4e; Byte.x47].
Proof.
  split; [reflexivity|].
  destruct (approve_twice_indexes_twice
              (env_iso 1730000000123 "2024-10-27T03:33:20.123Z")
              (env_iso 1730000300000 "2024-10-27T03:38:20.000Z")
              world1 "10000012307" "pw1" "pw2" student1 "data:image/png;base64,iVBORw0KGgo="
              (Rekognition.mkIndexResponse
                 (Some [Rekognition.mkFaceRecord
                          (Some (Rekognition.mkFace (Some "face-0") (Some "10000012307")))]))
              (Rekognition.mkIndexResponse
                 (Some [Rekognition.mkFaceRecord
                          (Some (Rekognition.mkFace (Some "face-1") (Some "10000012307")))]))
              eq_refl eq_refl eq_refl (no_fault_env_iso _ _) (no_fault_env_iso _ _)
              eq_refl eq_refl eq_refl eq_refl eq_refl)
    as (_ & _ & _ & Hc & _ & _ & _ & Hu & _ & _ & Hb); [discriminate..|].
  split; [exact Hc|]. split; [exact Hu | exact Hb].
Defined.

(** ** Attendance: the three ways to mark *)

Lemma length_append s t :
  String.length (s +:+ t) = (String.length s + String.length t)%nat.
Proof. induction s as [|a s IH]; simpl; [done | by f_equal]. Qed.

Lemma append_inv_tail s1 s2 t : s1 +:+ t = s2 +:+ t → s1 = s2.
Proof.
  revert s2. induction s1 as [|a s1 IH]; intros [|b s2] H.
  - done.
  - apply (f_equal String.length) in H. rewrite !length_append in H. cbn in H. lia.
  - apply (f_equal String.length) in H. rewrite !length_append in H. cbn in H. lia.
  - cbn in H. injection H as -> H. f_equal. by apply IH.
Qed.

(** For one session, different users have different identifiers. *)
Lemma attendance_key_inj_user u1 u2 s :
  attendance_key u1 s = attendance_key u2 s → u1 = u2.
Proof. apply append_inv_tail. Qed.

Lemma stored_cons e items r t :
  stored e (r :: items) t
  = stored e items (if put_ok e r then <[Attendance.attendanceId r := r]> t else t).
Proof. reflexivity. Qed.

Lemma stored_snoc e items r t :
  stored e (items ++ [r]) t
  = if put_ok e r then <[Attendance.attendanceId r := r]> (stored e items t)
    else stored e items t.
Proof. unfold stored. by rewrite foldl_app. Qed.

Lemma stored_lookup_ne e items t k :
  (∀ r, r ∈ items → Attendance.attendanceId r ≠ k) →
  stored e items t !! k = t !! k.
Proof.
  induction items as [|r items IH] using rev_ind; intros Hne; [done|].
  rewrite stored_snoc.
  assert (Attendance.attendanceId r ≠ k).
  { apply Hne, elem_of_app. right. by apply list_elem_of_singleton. }
  assert (stored e items t !! k = t !! k).
  { apply IH. intros r' Hr'. apply Hne, elem_of_app. by left. }
  destruct (put_ok e r); [by rewrite lookup_insert_ne | done].
Qed.

Lemma stored_lookup e items t r :
  r ∈ items → put_ok e r = true →
  (∀ r', r' ∈ items → Attendance.attendanceId r' = Attendance.attendanceId r → r' = r) →
  stored e items t !! Attendance.attendanceId r = Some r.
Proof.
  induction items as [|a items IH] using rev_ind; intros Hin Hok Huniq.
  { by apply elem_of_nil in Hin. }
  rewrite stored_snoc.
  destruct (decide (Attendance.attendanceId a = Attendance.attendanceId r)) as [Heq|Hne].
  - assert (a = r) as ->.
    { apply Huniq; [|done]. apply elem_of_app. right. by apply list_elem_of_singleton. }
    rewrite Hok. apply lookup_insert_eq.
  - assert (r ∈ items).
    { apply elem_of_app in Hin as [?|Hin]; [done|].
      apply list_elem_of_singleton in Hin. by subst. }
    assert (stored e items t !! Attendance.attendanceId r = Some r).
    { apply IH; [done..|]. intros r' Hr' Hk. apply Huniq; [|done].
      apply elem_of_app. by left. }
    destruct (put_ok e a); [by rewrite lookup_insert_ne | done].
Qed.

Lemma put_all_run items e s :
  ∃ o, put_all items e s
       = (Returned o, mkSt (with_Attendance (stored e items) (world s)) (reads s))
     ∧ (o = None ↔ ∀ r, r ∈ items → put_ok e r = true).
Proof.
  revert s. induction items as [|r items IH]; intros s.
  - exists None. split.
    + by destruct s as [[] n].
    + split; [|done]. intros _ r Hr. by apply elem_of_nil in Hr.
  - cbn [put_all]. unfold_monad.
    destruct (fault e (PutCommand ATTENDANCE_TABLE (Attendance.attendanceId r)))
      as [x|] eqn:Hf.
    + assert (Hok : put_ok e r = false) by (unfold put_ok; by rewrite Hf).
      destruct (IH s) as (o & Hrun & _). rewrite Hrun.
      exists (Some x). split.
      * unfold with_Attendance. by rewrite stored_cons, Hok.
      * split; [done|]. intros Hall.
        rewrite Hall in Hok; [done|]. apply elem_of_cons. by left.
    + assert (Hok : put_ok e r = true) by (unfold put_ok; by rewrite Hf).
      reduce.
      destruct (IH (mkSt (with_Attendance <[Attendance.attendanceId r := r]> (world s))
                         (reads s))) as (o & Hrun & Ho).
      rewrite Hrun. exists o. split.
      * reduce. unfold with_Attendance. by rewrite stored_cons, Hok.
      * rewrite Ho. split.
        -- intros Hall r' Hr'. apply elem_of_cons in Hr' as [->|?]; [done|by apply Hall].
        -- intros Hall r' Hr'. apply Hall, elem_of_cons. by right.
Qed.

Lemma submit_attendance_run e w teacherId classId presentStudents sessionId :
  truthy teacherId = true → truthy classId = true →
  let items := manual_records e teacherId classId sessionId presentStudents in
  let out := submit_attendance teacherId classId (Some presentStudents) sessionId e w in
  out.2 = with_Attendance (stored e items) w
  ∧ ((∀ r, r ∈ items → put_ok e r = true) ↔ success out.1 = Some (Bool true))
  ∧ ((∀ r, r ∈ items → put_ok e r = true) →
     out.1 = json [("success", Bool true);
                   ("message", Str ("Attendance marked for "
                      +:+ toString (Z.of_nat (length presentStudents)) +:+ " students"));
                   ("presentCount", Num (Z.of_nat (length presentStudents)));
                   ("sessionId", Str (final_session_id e classId sessionId))]).
Proof.
  intros Ht Hc items out. subst items out.
  unfold submit_attendance, handle, submit_attendance_route, Promise_all,
    manual_records, final_session_id.
  step Ht. step Hc. unfold_monad.
  destruct (truthy sessionId); reduce.
  - destruct (put_all_run
      (manual_record teacherId sessionId (toISOString e (clock e 1))
         (before "T" (toISOString e (clock e 0))) <$> presentStudents)
      e (mkSt w 2)) as (o & -> & Ho).
    destruct o as [x|]; reduce.
    + split; [done|]. split; [|intros Hall; by apply Ho in Hall].
      split; [intros Hall; by apply Ho in Hall | discriminate].
    + split; [done|]. split; [|done]. split; [done|]. intros _. by apply Ho.
  - destruct (put_all_run
      (manual_record teacherId ("MANUAL-" +:+ classId +:+ "-" +:+ toString (clock e 2))
         (toISOString e (clock e 1))
         (before "T" (toISOString e (clock e 0))) <$> presentStudents)
      e (mkSt w 3)) as (o & -> & Ho).
    destruct o as [x|]; reduce.
    + split; [done|]. split; [|intros Hall; by apply Ho in Hall].
      split; [intros Hall; by apply Ho in Hall | discriminate].
    + split; [done|]. split; [|done]. split; [done|]. intros _. by apply Ho.
Qed.

Lemma manual_records_unique e teacherId classId sessionId presentStudents r r' :
  r ∈ manual_records e teacherId classId sessionId presentStudents →
  r' ∈ manual_records e teacherId classId sessionId presentStudents →
  Attendance.attendanceId r' = Attendance.attendanceId r → r' = r.
Proof.
  unfold manual_records. intros Hr Hr' Hk.
  apply list_elem_of_fmap in Hr as (x & -> & _).
  apply list_elem_of_fmap in Hr' as (x' & -> & _).
  cbn in Hk. by apply attendance_key_inj_user in Hk as ->.
Qed.

(** C10. The manual route checks neither the session nor the students.
    For any state of the Sessions and Users tables and any [sessionId]
    (also none), when [teacherId] and [classId] are supplied and
    [presentStudents] is an array, every listed student whose write goes
    through has afterwards a record under the derived identifier with
    status "Present", method "manual" and the teacher as [markedBy]; when
    all writes go through the answer is success=true. *)
Theorem manual_submission_is_unchecked e w teacherId classId presentStudents sessionId :
  truthy teacherId = true → truthy classId = true →
  let finalSessionId := final_session_id e classId sessionId in
  let record := manual_record teacherId finalSessionId (toISOString e (clock e 1))
                              (before "T" (toISOString e (clock e 0))) in
  let out := submit_attendance teacherId classId (Some presentStudents) sessionId e w in
  (∀ studentId, studentId ∈ presentStudents →
     put_ok e (record studentId) = true →
     AttendanceTable out.2 !! attendance_key studentId finalSessionId
       = Some (record studentId)
     ∧ Attendance.status (record studentId) = "Present"
     ∧ Attendance.method (record studentId) = Some "manual"
     ∧ Attendance.markedBy (record studentId) = Some teacherId)
  ∧ ((∀ studentId, studentId ∈ presentStudents → put_ok e (record studentId) = true) →
     success out.1 = Some (Bool true)).
Proof.
  intros Ht Hc finalSessionId record out.
  destruct (submit_attendance_run e w teacherId classId presentStudents sessionId Ht Hc)
    as (Hw & Hok & _).
  fold out in Hw, Hok. split.
  - intros studentId Hin Hput. split; [|done].
    rewrite Hw. cbn [with_Attendance AttendanceTable].
    assert (Hr : record studentId
                 ∈ manual_records e teacherId classId sessionId presentStudents).
    { unfold manual_records. apply list_elem_of_fmap. by exists studentId. }
    change (attendance_key studentId finalSessionId)
      with (Attendance.attendanceId (record studentId)).
    apply stored_lookup; [done..|].
    intros r' Hr' Hk. by eapply manual_records_unique.
  - intros Hall. apply Hok. intros r Hr.
    apply list_elem_of_fmap in Hr as (x & -> & Hx). by apply Hall.
Qed.

Lemma manual_submission_is_unchecked_witness :
  Sessions world1 !! "no-such-session" = None
  ∧ Users world1 !! "nobody" = None
  ∧ AttendanceTable
      (submit_attendance "TEACH001" "CS101" (Some ["nobody"]) "no-such-session"
                         (env_at 1730000000123 []) world1).2
      !! "nobody-no-such-session"
    = Some (manual_record "TEACH001" "no-such-session" "2024-10-27T03:33:20.123Z"
                          "2024-10-27" "nobody").
Proof.
  split; [reflexivity|]. split; [reflexivity|].
  refine (proj1 (proj1 (manual_submission_is_unchecked (env_at 1730000000123 []) world1
            "TEACH001" "CS101" ["nobody"] "no-such-session" eq_refl eq_refl)
          "nobody" _ eq_refl)).
  by apply list_elem_of_singleton.
Defined.

Lemma mark_effect e w userId sessionId :
  let out := mark userId sessionId e w in
  (success out.1 ≠ Some (Bool true) ∧ out.2 = w)
  ∨ (success out.1 = Some (Bool true)
     ∧ out.2 = with_Attendance <[attendance_key userId sessionId
                                  := face_record e userId sessionId]> w).
Proof.
  unfold mark, handle, mark_route.
  destruct (truthy userId), (truthy sessionId); reduce; try (by left).
  unfold_monad.
  destruct (fault e (GetCommand SESSIONS_TABLE sessionId)); reduce; [by left|].
  destruct (Sessions w !! sessionId) as [x|]; reduce; [|by left].
  destruct (_ >? _); reduce; [by left|].
  destruct (fault e (PutCommand ATTENDANCE_TABLE _)); reduce; [by left | by right].
Qed.

Lemma scan_qr_effect e w userId qrData cameraType :
  let out := scan_qr userId qrData cameraType e w in
  (success out.1 ≠ Some (Bool true) ∧ out.2 = w)
  ∨ (success out.1 = Some (Bool true)
     ∧ out.2 = with_Attendance <[attendance_key userId qrData
                                  := qr_record e userId qrData cameraType]> w).
Proof.
  unfold scan_qr, handle, scan_qr_route.
  destruct (truthy userId), (truthy qrData); reduce; try (by left).
  unfold_monad.
  destruct (fault e (GetCommand SESSIONS_TABLE qrData)); reduce; [by left|].
  destruct (Sessions w !! qrData) as [x|]; reduce; [|by left].
  destruct (_ >? _); reduce; [by left|].
  destruct (fault e (PutCommand ATTENDANCE_TABLE _)); reduce; [by left | by right].
Qed.

Lemma submit_attendance_effect e w teacherId classId presentStudents sessionId :
  let out := submit_attendance teacherId classId (Some presentStudents) sessionId e w in
  (success out.1 ≠ Some (Bool true) ∧ out.2 = w)
  ∨ (truthy teacherId = true ∧ truthy classId = true).
Proof.
  unfold submit_attendance, handle, submit_attendance_route.
  destruct (truthy teacherId), (truthy classId); reduce; try (by left). by right.
Qed.

Lemma keyed_empty : keyed ∅.
Proof. intros k r H. by rewrite lookup_empty in H. Qed.

Lemma keyed_insert t r :
  keyed t → well_keyed r → keyed (<[Attendance.attendanceId r := r]> t).
Proof.
  intros Ht Hr k r' H. rewrite lookup_insert in H.
  case_decide as Hk; [|by apply Ht].
  injection H as <-. by rewrite <- Hk.
Qed.

Lemma keyed_stored e items t :
  keyed t → (∀ r, r ∈ items → well_keyed r) → keyed (stored e items t).
Proof.
  induction items as [|r items IH] using rev_ind; intros Ht Hwk; [done|].
  rewrite stored_snoc.
  assert (keyed (stored e items t)).
  { apply IH; [done|]. intros r' Hr'. apply Hwk, elem_of_app. by left. }
  destruct (put_ok e r); [|done].
  apply keyed_insert; [done|]. apply Hwk, elem_of_app. right.
  by apply list_elem_of_singleton.
Qed.

(** Under [keyed], a user has one row per session. *)
Lemma keyed_one_row t k1 k2 r1 r2 :
  keyed t → t !! k1 = Some r1 → t !! k2 = Some r2 →
  Attendance.userId r1 = Attendance.userId r2 →
  Attendance.sessionId r1 = Attendance.sessionId r2 →
  k1 = k2.
Proof.
  intros Ht H1 H2 Hu Hs. rewrite (Ht _ _ H1), (Ht _ _ H2). by rewrite Hu, Hs.
Qed.

Lemma mark_via_keyed p userId sessionId e w :
  keyed (AttendanceTable w) → keyed (AttendanceTable (mark_via p userId sessionId e w).2).
Proof.
  intros Hk. destruct p as [|cameraType|teacherId classId classmates]; cbn [mark_via].
  - destruct (mark_effect e w userId sessionId) as [[_ ->]|[_ ->]]; [done|].
    by apply (keyed_insert _ (face_record e userId sessionId)).
  - destruct (scan_qr_effect e w userId sessionId cameraType) as [[_ ->]|[_ ->]]; [done|].
    by apply (keyed_insert _ (qr_record e userId sessionId cameraType)).
  - destruct (submit_attendance_effect e w teacherId classId (userId :: classmates) sessionId)
      as [[_ ->]|[Ht Hc]]; [done|].
    destruct (submit_attendance_run e w teacherId classId (userId :: classmates) sessionId
                Ht Hc) as (-> & _).
    apply keyed_stored; [done|]. intros r Hr.
    by apply list_elem_of_fmap in Hr as (x & -> & _).
Qed.

Lemma mark_via_success p userId sessionId e w :
  truthy sessionId = true →
  success (mark_via p userId sessionId e w).1 = Some (Bool true) →
  ∃ row,
    AttendanceTable (mark_via p userId sessionId e w).2 !! attendance_key userId sessionId
      = Some row
    ∧ Attendance.attendanceId row = attendance_key userId sessionId
    ∧ Attendance.userId row = userId
    ∧ Attendance.sessionId row = sessionId
    ∧ Attendance.status row = "Present"
    ∧ Attendance.method row = method_written p.
Proof.
  intros Hs Hok. destruct p as [|cameraType|teacherId classId classmates];
    cbn [mark_via method_written] in *.
  - destruct (mark_effect e w userId sessionId) as [[Hno _]|[_ ->]]; [done|].
    exists (face_record e userId sessionId). split; [|done].
    cbn [with_Attendance AttendanceTable]. apply lookup_insert_eq.
  - destruct (scan_qr_effect e w userId sessionId cameraType) as [[Hno _]|[_ ->]]; [done|].
    exists (qr_record e userId sessionId cameraType). split; [|done].
    cbn [with_Attendance AttendanceTable]. apply lookup_insert_eq.
  - destruct (submit_attendance_effect e w teacherId classId (userId :: classmates) sessionId)
      as [[Hno _]|[Ht Hc]]; [done|].
    destruct (submit_attendance_run e w teacherId classId (userId :: classmates) sessionId
                Ht Hc) as (-> & Hall & _).
    pose proof (proj2 Hall Hok) as Hput.
    set (row := manual_record teacherId sessionId (toISOString e (clock e 1))
                              (before "T" (toISOString e (clock e 0))) userId).
    assert (Hrow : row ∈ manual_records e teacherId classId sessionId (userId :: classmates)).
    { unfold manual_records, final_session_id. rewrite Hs.
      apply list_elem_of_fmap. exists userId. split; [done|]. apply elem_of_cons. by left. }
    exists row. split; [|done].
    cbn [with_Attendance AttendanceTable].
    change (attendance_key userId sessionId) with (Attendance.attendanceId row).
    apply stored_lookup; [done | by apply Hput |].
    intros r' Hr' Hk. by eapply manual_records_unique.
Qed.

Lemma insert_all_snoc items r t :
  insert_all (items ++ [r]) t = <[Attendance.attendanceId r := r]> (insert_all items t).
Proof. unfold insert_all. by rewrite foldl_app. Qed.

Lemma stored_all_ok e items t :
  (∀ r, r ∈ items → put_ok e r = true) → stored e items t = insert_all items t.
Proof.
  induction items as [|r items IH] using rev_ind; intros Hok; [done|].
  rewrite stored_snoc, insert_all_snoc, IH.
  - rewrite Hok; [done|]. apply elem_of_app. right. by apply list_elem_of_singleton.
  - intros r' Hr'. apply Hok, elem_of_app. by left.
Qed.

Lemma insert_all_lookup items t r :
  r ∈ items →
  (∀ r', r' ∈ items → Attendance.attendanceId r' = Attendance.attendanceId r → r' = r) →
  insert_all items t !! Attendance.attendanceId r = Some r.
Proof.
  induction items as [|a items IH] using rev_ind; intros Hin Huniq.
  { by apply elem_of_nil in Hin. }
  rewrite insert_all_snoc.
  destruct (decide (Attendance.attendanceId a = Attendance.attendanceId r)) as [Heq|Hne].
  - assert (a = r) as ->.
    { apply Huniq; [|done]. apply elem_of_app. right. by apply list_elem_of_singleton. }
    apply lookup_insert_eq.
  - rewrite lookup_insert_ne by done. apply IH.
    + apply elem_of_app in Hin as [?|Hin]; [done|].
      apply list_elem_of_singleton in Hin. by subst.
    + intros r' Hr' Hk. apply Huniq; [|done]. apply elem_of_app. by left.
Qed.

Lemma keyed_insert_all items t :
  keyed t → (∀ r, r ∈ items → well_keyed r) → keyed (insert_all items t).
Proof.
  induction items as [|r items IH] using rev_ind; intros Ht Hwk; [done|].
  rewrite insert_all_snoc. apply keyed_insert.
  - apply IH; [done|]. intros r' Hr'. apply Hwk, elem_of_app. by left.
  - apply Hwk, elem_of_app. right. by apply list_elem_of_singleton.
Qed.

(** The Attendance table after a marking that answered success. *)
Lemma run_marking_success p userId sessionId e w :
  truthy sessionId = true →
  success (run_marking p userId sessionId e w).1 = Some (Bool true) →
  AttendanceTable (run_marking p userId sessionId e w).2
  = marked_table p e userId sessionId (AttendanceTable w).
Proof.
  intros Hs Hok. destruct p as [|cameraType|teacherId classId presentStudents];
    cbn [run_marking marked_table marking_record] in *.
  - by destruct (mark_effect e w userId sessionId) as [[Hno _]|[_ ->]].
  - by destruct (scan_qr_effect e w userId sessionId cameraType) as [[Hno _]|[_ ->]].
  - destruct (submit_attendance_effect e w teacherId classId presentStudents sessionId)
      as [[Hno _]|[Ht Hc]]; [done|].
    destruct (submit_attendance_run e w teacherId classId presentStudents sessionId Ht Hc)
      as (-> & Hall & _).
    pose proof (proj2 Hall Hok) as Hput.
    cbn [with_Attendance AttendanceTable].
    rewrite stored_all_ok by done.
    unfold manual_records, final_session_id. by rewrite Hs.
Qed.

Lemma marked_table_lookup p userId sessionId e t :
  names p userId →
  marked_table p e userId sessionId t !! attendance_key userId sessionId
  = Some (marking_record p e userId sessionId).
Proof.
  intros Hn. destruct p as [|cameraType|teacherId classId presentStudents];
    cbn [marked_table marking_record names] in *; try apply lookup_insert_eq.
  set (record := manual_record teacherId sessionId (toISOString e (clock e 1))
                               (before "T" (toISOString e (clock e 0)))).
  change (attendance_key userId sessionId) with (Attendance.attendanceId (record userId)).
  apply insert_all_lookup.
  - apply list_elem_of_fmap. by exists userId.
  - intros r' (x & -> & _)%list_elem_of_fmap Hk.
    cbn in Hk. by apply attendance_key_inj_user in Hk as ->.
Qed.

Lemma marked_table_keyed p userId sessionId e t :
  keyed t → keyed (marked_table p e userId sessionId t).
Proof.
  intros Hk. destruct p as [|cameraType|teacherId classId presentStudents];
    cbn [marked_table marking_record].
  - by apply (keyed_insert _ (face_record e userId sessionId)).
  - by apply (keyed_insert _ (qr_record e userId sessionId cameraType)).
  - apply keyed_insert_all; [done|].
    by intros r (x & -> & _)%list_elem_of_fmap.
Qed.

(** C2. Whichever of the three entry points marks [userId] present in
    [sessionId] (the face route, a QR scan with any camera, or a manual
    submission of any list of students that names the user), the record
    is put under the identifier derived from the two,
    "<userId>-<sessionId>".  When the pair is marked and then marked
    again, by the same or another entry point and both times with
    success, the second marking puts its own record (its own times,
    method and teacher) at that same identifier, in place of the first
    one: the table after each marking is the table before it with that
    marking's puts applied, the row at the identifier is the first
    record after the first marking and the second record after the
    second, a face or QR marking adds no row to the table, and in a
    table whose rows sit under their derived identifiers every row for
    the pair is that one row. *)
Theorem remarking_overwrites p1 p2 userId sessionId e1 e2 w :
  truthy sessionId = true →
  names p1 userId → names p2 userId →
  let out1 := run_marking p1 userId sessionId e1 w in
  let out2 := run_marking p2 userId sessionId e2 out1.2 in
  let key := attendance_key userId sessionId in
  success out1.1 = Some (Bool true) →
  success out2.1 = Some (Bool true) →
  AttendanceTable out1.2 = marked_table p1 e1 userId sessionId (AttendanceTable w)
  ∧ AttendanceTable out2.2 = marked_table p2 e2 userId sessionId (AttendanceTable out1.2)
  ∧ AttendanceTable out1.2 !! key = Some (marking_record p1 e1 userId sessionId)
  ∧ AttendanceTable out2.2 !! key = Some (marking_record p2 e2 userId sessionId)
  ∧ Attendance.attendanceId (marking_record p1 e1 userId sessionId) = key
  ∧ Attendance.attendanceId (marking_record p2 e2 userId sessionId) = key
  ∧ (p2 = ByFace ∨ (∃ cameraType, p2 = ByQr cameraType) →
     AttendanceTable out2.2
     = <[key := marking_record p2 e2 userId sessionId]> (AttendanceTable out1.2)
     ∧ dom (AttendanceTable out2.2) = dom (AttendanceTable out1.2))
  ∧ (keyed (AttendanceTable w) →
     ∀ k row, AttendanceTable out2.2 !! k = Some row →
              Attendance.userId row = userId → Attendance.sessionId row = sessionId →
              k = key ∧ row = marking_record p2 e2 userId sessionId).
Proof.
  intros Hs Hn1 Hn2 out1 out2 key Hok1 Hok2.
  pose proof (run_marking_success p1 userId sessionId e1 w Hs Hok1) as H1.
  pose proof (run_marking_success p2 userId sessionId e2 out1.2 Hs Hok2) as H2.
  fold out1 in H1. fold out2 in H2.
  assert (Hl1 : AttendanceTable out1.2 !! key = Some (marking_record p1 e1 userId sessionId)).
  { rewrite H1. by apply marked_table_lookup. }
  assert (Hl2 : AttendanceTable out2.2 !! key = Some (marking_record p2 e2 userId sessionId)).
  { rewrite H2. by apply marked_table_lookup. }
  split; [done|]. split; [done|]. split; [done|]. split; [done|].
  split; [by destruct p1|]. split; [by destruct p2|]. split.
  - intros Hp2.
    assert (Heq : AttendanceTable out2.2
                  = <[key := marking_record p2 e2 userId sessionId]> (AttendanceTable out1.2)).
    { rewrite H2. by destruct Hp2 as [->|[cameraType ->]]. }
    split; [done|]. rewrite Heq, dom_insert_L.
    assert (key ∈ dom (AttendanceTable out1.2)) by (apply elem_of_dom; by rewrite Hl1).
    apply (anti_symm (⊆)); [|apply union_subseteq_r].
    apply union_least; [by apply singleton_subseteq_l | done].
  - intros Hk k row Hrow Hu Hsid.
    assert (Hk2 : keyed (AttendanceTable out2.2)).
    { rewrite H2. apply marked_table_keyed. rewrite H1. by apply marked_table_keyed. }
    assert (k = key) as ->.
    { rewrite (Hk2 _ _ Hrow). by rewrite Hu, Hsid. }
    split; [done|]. rewrite Hl2 in Hrow. by injection Hrow as <-.
Qed.

Lemma remarking_overwrites_witness :
  AttendanceTable
    (scan_qr "10000012307" "CLASS-CS101-1730000000123" "front"
       (env_iso 1730000300000 "2024-10-27T03:38:20.000Z")
       (scan_qr "10000012307" "CLASS-CS101-1730000000123" "back"
          (env_iso 1730000000123 "2024-10-27T03:33:20.123Z") world1).2).2
  !! "10000012307-CLASS-CS101-1730000000123"
  = Some (Attendance.mk "10000012307-CLASS-CS101-1730000000123" "10000012307"
            "CLASS-CS101-1730000000123" "2024-10-27T03:38:20.000Z" "2024-10-27" "Present"
            None (Some "qr_scan") (Some "front"))
  ∧ AttendanceTable
      (scan_qr "10000012307" "CLASS-CS101-1730000000123" "back"
         (env_iso 1730000000123 "2024-10-27T03:33:20.123Z") world1).2
    !! "10000012307-CLASS-CS101-1730000000123"
    = Some (Attendance.mk "10000012307-CLASS-CS101-1730000000123" "10000012307"
              "CLASS-CS101-1730000000123" "2024-10-27T03:33:20.123Z" "2024-10-27" "Present"
              None (Some "qr_scan") (Some "back"))
  ∧ AttendanceTable
      (submit_attendance "TEACH001" "CS101" (Some ["10000099999"; "10000012307"])
         "CLASS-CS101-1730000000123"
         (env_iso 1730000300000 "2024-10-27T03:38:20.000Z")
         (mark "10000012307" "CLASS-CS101-1730000000123"
            (env_iso 1730000000123 "2024-10-27T03:33:20.123Z") world1).2).2
    !! "10000012307-CLASS-CS101-1730000000123"
    = Some (Attendance.mk "10000012307-CLASS-CS101-1730000000123" "10000012307"
              "CLASS-CS101-1730000000123" "2024-10-27T03:38:20.000Z" "2024-10-27" "Present"
              (Some "TEACH001") (Some "manual") None)
  ∧ AttendanceTable
      (mark "10000012307" "CLASS-CS101-1730000000123"
         (env_iso 1730000300000 "2024-10-27T03:38:20.000Z")
         (submit_attendance "TEACH001" "CS101" (Some ["10000012307"])
            "CLASS-CS101-1730000000123"
            (env_iso 1730000000123 "2024-10-27T03:33:20.123Z") world1).2).2
    !! "10000012307-CLASS-CS101-1730000000123"
    = Some (Attendance.mk "10000012307-CLASS-CS101-1730000000123" "10000012307"
              "CLASS-CS101-1730000000123" "2024-10-27T03:38:20.000Z" "2024-10-27" "Present"
              None None None).
Proof.
  destruct (remarking_overwrites (ByQr "back") (ByQr "front") "10000012307"
              "CLASS-CS101-1730000000123"
              (env_iso 1730000000123 "2024-10-27T03:33:20.123Z")
              (env_iso 1730000300000 "2024-10-27T03:38:20.000Z") world1
              eq_refl I I eq_refl eq_refl)
    as (_ & _ & Hfirst & Hsecond & _).
  destruct (remarking_overwrites ByFace
              (ByTeacher "TEACH001" "CS101" ["10000099999"; "10000012307"])
              "10000012307" "CLASS-CS101-1730000000123"
              (env_iso 1730000000123 "2024-10-27T03:33:20.123Z")
              (env_iso 1730000300000 "2024-10-27T03:38:20.000Z") world1
              eq_refl I (list_elem_of_further _ _ _ (list_elem_of_here _ _))
              eq_refl eq_refl)
    as (_ & _ & _ & Hmanual & _).
  destruct (remarking_overwrites (ByTeacher "TEACH001" "CS101" ["10000012307"]) ByFace
              "10000012307" "CLASS-CS101-1730000000123"
              (env_iso 1730000000123 "2024-10-27T03:33:20.123Z")
              (env_iso 1730000300000 "2024-10-27T03:38:20.000Z") world1
              eq_refl (list_elem_of_here _ _) I eq_refl eq_refl)
    as (_ & _ & _ & Hface & _).
  split; [exact Hsecond|]. split; [exact Hfirst|]. split; [exact Hmanual | exact Hface].
Defined.

(** C4. What the code does: on success each entry point leaves a
    "Present" record under the derived identifier whose [method] is
    "qr_scan" for the QR route and "manual" for the manual route, while
    the face route writes a record with no [method] attribute at all. *)
Theorem face_mark_writes_no_method p userId sessionId e w :
  truthy sessionId = true →
  success (mark_via p userId sessionId e w).1 = Some (Bool true) →
  ∃ row,
    AttendanceTable (mark_via p userId sessionId e w).2 !! attendance_key userId sessionId
      = Some row
    ∧ Attendance.status row = "Present"
    ∧ Attendance.method row
      = match p with
        | FaceMark => None
        | QrScan _ => Some "qr_scan"
        | ManualSubmission _ _ _ => Some "manual"
        end.
Proof.
  intros Hs Hok.
  destruct (mark_via_success p userId sessionId e w Hs Hok)
    as (row & Hl & _ & _ & _ & Hst & Hm).
  exists row. by destruct p.
Qed.

Lemma face_mark_writes_no_method_witness :
  (AttendanceTable
     (mark "10000012307" "CLASS-CS101-1730000000123" (env_at 1730000000123 []) world1).2
   !! "10000012307-CLASS-CS101-1730000000123") ≫= Attendance.method = None.
Proof.
  destruct (face_mark_writes_no_method FaceMark "10000012307" "CLASS-CS101-1730000000123"
              (env_at 1730000000123 []) world1 eq_refl eq_refl) as (row & Hrow & _ & Hm).
  cbn [mark_via] in Hrow.
  change (attendance_key "10000012307" "CLASS-CS101-1730000000123")
    with "10000012307-CLASS-CS101-1730000000123" in Hrow.
  rewrite Hrow. exact Hm.
Defined.

(** ** Registration: the synthesized identifier *)

Lemma append_cons a s t : String a s +:+ t = String a (s +:+ t).
Proof. reflexivity. Qed.

Lemma append_assoc s1 s2 s3 : (s1 +:+ s2) +:+ s3 = s1 +:+ (s2 +:+ s3).
Proof. induction s1 as [|a s1 IH]; [done|]. by rewrite !append_cons, IH. Qed.

Lemma all_digits_app s t : all_digits (s +:+ t) = all_digits s && all_digits t.
Proof.
  induction s as [|a s IH]; [done|].
  rewrite append_cons. cbn [all_digits]. by rewrite IH, andb_assoc.
Qed.

Lemma is_digit_pretty_N_char x : is_digit (pretty_N_char x) = true.
Proof.
  destruct x as [|p]; [done|].
  do 4 (try destruct p as [p|p|]); done.
Qed.

Lemma low_digits_length k n : String.length (low_digits k n) = k.
Proof.
  revert n. induction k as [|k IH]; intros n; cbn [low_digits]; [done|].
  rewrite length_append, IH. cbn [String.length]. lia.
Qed.

Lemma low_digits_all_digits k n : all_digits (low_digits k n) = true.
Proof.
  revert n. induction k as [|k IH]; intros n; cbn [low_digits]; [done|].
  rewrite all_digits_app, IH. cbn [all_digits]. by rewrite is_digit_pretty_N_char.
Qed.

Lemma pretty_N_go_app x s : pretty_N_go x s = pretty_N_go x "" +:+ s.
Proof.
  revert s. induction (N.lt_wf_0 x) as [x _ IH]; intros s.
  destruct (decide (x = 0)%N) as [->|Hx]; [by rewrite !pretty_N_go_0|].
  rewrite !(pretty_N_go_step x) by lia.
  assert (x `div` 10 < x)%N by (apply N.div_lt; lia).
  rewrite (IH (x `div` 10)%N H (String _ s)).
  rewrite (IH (x `div` 10)%N H (String _ "")).
  by rewrite append_assoc.
Qed.

Lemma pretty_N_go_low_digits k x s :
  (10 ^ N.of_nat k ≤ x)%N →
  pretty_N_go x s
  = pretty_N_go (x `div` 10 ^ N.of_nat (S k))%N (low_digits (S k) x +:+ s).
Proof.
  revert x s. induction k as [|k IH]; intros x s Hx.
  - rewrite pretty_N_go_step by (cbn in Hx; lia).
    by rewrite N.pow_1_r.
  - rewrite Nat2N.inj_succ, N.pow_succ_r' in Hx.
    rewrite pretty_N_go_step by lia.
    rewrite (IH (x `div` 10)%N).
    2:{ apply N.div_le_lower_bound; lia. }
    rewrite N.Div0.div_div.
    rewrite <- N.pow_succ_r', <- Nat2N.inj_succ.
    f_equal. cbn [low_digits]. rewrite !append_assoc. done.
Qed.

Lemma slice_last_app pre d : slice_last (String.length d) (pre +:+ d) = d.
Proof.
  unfold slice_last. rewrite length_append.
  replace (String.length pre + String.length d - String.length d)%nat
    with (String.length pre) by lia.
  induction pre as [|a pre IH]; [done | exact IH].
Qed.

Lemma append_empty_r s : s +:+ "" = s.
Proof. induction s as [|a s IH]; [done|]. by rewrite append_cons, IH. Qed.

Lemma toString_pos z : 0 < z → toString z = pretty_N_go (Z.to_N z) "".
Proof. destruct z as [|p|p]; [lia | | lia]. intros _. reflexivity. Qed.

(** [slice(-8)] of a timestamp of eight digits or more gives its eight
    low-order digits. *)
Lemma slice_last_toString z :
  10 ^ 7 ≤ z → slice_last 8 (toString z) = low_digits 8 (Z.to_N z).
Proof.
  intros Hz. rewrite toString_pos by lia.
  rewrite (pretty_N_go_low_digits 7) by (cbn; lia).
  rewrite pretty_N_go_app, append_empty_r.
  rewrite <- (low_digits_length 8 (Z.to_N z)) at 1.
  apply slice_last_app.
Qed.

(** [padStart(2, '0')] of a number below 100 gives its two digits. *)
Lemma padStart_toString r :
  0 ≤ r < 100 → padStart 2 "0" (toString r) = low_digits 2 (Z.to_N r).
Proof.
  intros Hr.
  destruct (decide (r = 0)) as [->|Hr0]; [reflexivity|].
  rewrite toString_pos by lia.
  destruct (decide (r < 10)) as [Hlt|Hge].
  - rewrite pretty_N_go_step by lia.
    assert (Hdiv : (Z.to_N r `div` 10 = 0)%N) by (apply N.div_small; lia).
    cbn [low_digits]. rewrite Hdiv, pretty_N_go_0. reflexivity.
  - rewrite (pretty_N_go_low_digits 1) by (cbn; lia).
    assert (Hdiv : (Z.to_N r `div` 10 ^ N.of_nat 2 = 0)%N) by (apply N.div_small; cbn; lia).
    rewrite Hdiv, pretty_N_go_0, append_empty_r.
    unfold padStart. by rewrite low_digits_length.
Qed.

Lemma register_success e w name email role imageBase64 :
  success (register name email role imageBase64 e w).1 = Some (Bool true) →
  register name email role imageBase64 e w
  = (json [("success", Bool true); ("message", Str "Registration submitted");
           ("userId", Str (temp_id e role))],
     with_Users <[temp_id e role
                  := pending_user (temp_id e role) name email role imageBase64]> w).
Proof.
  unfold register, handle, register_route.
  destruct (truthy name), (truthy email), (truthy role), (truthy imageBase64); reduce;
    try discriminate.
  unfold_monad. reduce.
  destruct (search e (Collection w)
              (Rekognition.mkSearch (fromBase64 e (strip_data_url imageBase64)) 1 80))
    as [rs|x]; reduce.
  - destruct (Rekognition.FaceMatches rs) as [[|m ms]|]; reduce.
    + destruct (fault e (PutCommand USERS_TABLE _)); reduce; [discriminate | done].
    + destruct (Rekognition.ExternalImageId (Rekognition.MatchedFace m)) as [k|]; reduce;
        [|discriminate].
      destruct (fault e (GetCommand USERS_TABLE k)); reduce; discriminate.
    + destruct (fault e (PutCommand USERS_TABLE _)); reduce; [discriminate | done].
  - destruct (fault e (PutCommand USERS_TABLE _)); reduce; [discriminate | done].
Qed.

(** C7. A successful registration answers with, and stores the pending
    user under, an identifier made of the role tag ("1" for role student,
    "2" for any other role), the eight low-order digits of the clock
    reading in milliseconds and the two digits of the random number: 11
    characters, all digits.  A student's identifier matches
    [/^1\d{10}$/]; any other starts with "2".  The clock reading has at
    least eight digits and the random number is below 100. *)
Theorem registration_identifier e w name email role imageBase64 :
  10 ^ 7 ≤ clock e 0 →
  0 ≤ random100 e < 100 →
  success (register name email role imageBase64 e w).1 = Some (Bool true) →
  ∃ tempId,
    field "userId" (register name email role imageBase64 e w).1 = Some (Str tempId)
    ∧ (User.userId <$> Users (register name email role imageBase64 e w).2 !! tempId)
      = Some tempId
    ∧ tempId = (if String.eqb role "student" then "1" else "2")
                 +:+ low_digits 8 (Z.to_N (clock e 0))
                 +:+ low_digits 2 (Z.to_N (random100 e))
    ∧ String.length tempId = 11%nat
    ∧ all_digits tempId = true
    ∧ (role = "student" → student_id tempId = true)
    ∧ (role ≠ "student" → ∃ rest, tempId = String "2" rest).
Proof.
  intros Hclock Hrandom Hok.
  rewrite (register_success _ _ _ _ _ _ Hok).
  exists (temp_id e role). split; [done|]. split.
  { cbn [snd with_Users Users]. by rewrite lookup_insert_eq. }
  unfold temp_id.
  rewrite slice_last_toString, padStart_toString by done.
  split; [done|].
  pose proof (low_digits_length 8 (Z.to_N (clock e 0))) as L8.
  pose proof (low_digits_length 2 (Z.to_N (random100 e))) as L2.
  pose proof (low_digits_all_digits 8 (Z.to_N (clock e 0))) as D8.
  pose proof (low_digits_all_digits 2 (Z.to_N (random100 e))) as D2.
  destruct (String.eqb_spec role "student") as [Hrole|Hrole].
  - rewrite append_cons. change ("" +:+ ?s) with s.
    cbn [String.length all_digits student_id].
    rewrite !length_append, !all_digits_app, L8, L2, D8, D2.
    by repeat split.
  - rewrite append_cons. change ("" +:+ ?s) with s.
    cbn [String.length all_digits].
    rewrite !length_append, !all_digits_app, L8, L2, D8, D2.
    repeat split; try done. intros _. by eexists.
Qed.

Lemma registration_identifier_witness :
  ∃ tempId,
    field "userId" (register "A" "a@example.com" "student"
                      "data:image/png;base64,iVBORw0KGgo=" (env_at 1730000000123 [])
                      world1).1 = Some (Str tempId)
    ∧ student_id tempId = true.
Proof.
  destruct (registration_identifier (env_at 1730000000123 []) world1 "A" "a@example.com"
              "student" "data:image/png;base64,iVBORw0KGgo=")
    as (tempId & Hf & _ & _ & _ & _ & Hs & _).
  - cbn. lia.
  - cbn. lia.
  - reflexivity.
  - exists tempId. split; [exact Hf | by apply Hs].
Defined.

(** * Further properties of the routes *)

Ltac unfold_routes :=
  cbv [put_timetable scan_users scan_timetable scan_attendance] in *; unfold_monad.

Ltac reduce_items :=
  cbn [world reads negb orb andb fst snd User.userId Timetable.timetableId
       Attendance.attendanceId Session.sessionId Rekognition.FaceMatches] in *.

(** ** Registration *)

Lemma truthy_temp_id e role : truthy (temp_id e role) = true.
Proof. unfold temp_id. by destruct (String.eqb role "student"). Qed.

(** What [register] can do to the world: nothing, or store the pending
    user under the new identifier. *)
Lemma register_effect e w name email role imageBase64 :
  let out := register name email role imageBase64 e w in
  (success out.1 ≠ Some (Bool true) ∧ out.2 = w)
  ∨ (success out.1 = Some (Bool true)
     ∧ truthy name = true ∧ truthy email = true ∧ truthy role = true
     ∧ truthy imageBase64 = true
     ∧ out.2 = with_Users <[temp_id e role
                            := pending_user (temp_id e role) name email role imageBase64]> w).
Proof.
  unfold register, handle, register_route.
  destruct (truthy name), (truthy email), (truthy role), (truthy imageBase64); reduce;
    try (by left).
  unfold_monad. reduce.
  destruct (search e (Collection w)
              (Rekognition.mkSearch (fromBase64 e (strip_data_url imageBase64)) 1 80))
    as [rs|x]; reduce.
  - destruct (Rekognition.FaceMatches rs) as [[|m ms]|]; reduce.
    + destruct (fault e (PutCommand USERS_TABLE _)); reduce; [by left | by right].
    + destruct (Rekognition.ExternalImageId (Rekognition.MatchedFace m)) as [k|]; reduce;
        [|by left].
      destruct (fault e (GetCommand USERS_TABLE k)); reduce; by left.
    + destruct (fault e (PutCommand USERS_TABLE _)); reduce; [by left | by right].
  - destruct (fault e (PutCommand USERS_TABLE _)); reduce; [by left | by right].
Qed.

(** X1. When the request passes validation, the face search either fails
    (with whatever exception) or reports no match, and the write goes
    through, [register] answers success with the new identifier and puts
    the pending user (approved false, the raw image, no password) under
    it, replacing any record already stored there; nothing else
    changes. *)
Theorem register_stores_pending_user e w name email role imageBase64 :
  truthy name = true → truthy email = true → truthy role = true →
  truthy imageBase64 = true →
  (∀ m ms, search e (Collection w)
             (Rekognition.mkSearch (fromBase64 e (strip_data_url imageBase64)) 1 80)
           ≠ Returned (Rekognition.mkSearchResponse (Some (m :: ms)))) →
  fault e (PutCommand USERS_TABLE (temp_id e role)) = None →
  register name email role imageBase64 e w
  = (json [("success", Bool true); ("message", Str "Registration submitted");
           ("userId", Str (temp_id e role))],
     with_Users <[temp_id e role
                  := User.mk (temp_id e role) (Some name) (Some email) (Some role)
                             (Some false) (Some imageBase64) None None None None None]> w).
Proof.
  intros Hn He Hr Hi Hs Hf.
  unfold register, handle, register_route.
  step Hn. step He. step Hr. step Hi. unfold_monad. reduce.
  destruct (search e (Collection w)
              (Rekognition.mkSearch (fromBase64 e (strip_data_url imageBase64)) 1 80))
    as [[[[|m ms]|]]|x] eqn:Hsearch; reduce_items;
    try (by destruct (Hs m ms));
    unfold temp_id in Hf; by rewrite Hf.
Qed.

Lemma register_stores_pending_user_witness :
  Users world1 !! "10000012307" = Some student1
  ∧ register "B" "b@example.com" "student" "data:image/png;base64,AAAA"
             (env_at 1730000000123 []) world1
    = (json [("success", Bool true); ("message", Str "Registration submitted");
             ("userId", Str "10000012307")],
       with_Users <["10000012307"
                    := User.mk "10000012307" (Some "B") (Some "b@example.com")
                               (Some "student") (Some false)
                               (Some "data:image/png;base64,AAAA")
                               None None None None None]> world1).
Proof.
  split; [reflexivity|].
  apply (register_stores_pending_user (env_at 1730000000123 []) world1
           "B" "b@example.com" "student" "data:image/png;base64,AAAA");
    try reflexivity.
  intros m ms. discriminate.
Defined.

(** X2. Whatever the request and whatever fails, [register] never
    touches the face collection, the bucket or the other tables, and in
    the Users table it changes at most the record under the new
    identifier: no face is indexed or uploaded at registration. *)
Theorem register_only_writes_the_new_user e w name email role imageBase64 :
  let w' := (register name email role imageBase64 e w).2 in
  Collection w' = Collection w
  ∧ Bucket w' = Bucket w
  ∧ Sessions w' = Sessions w
  ∧ AttendanceTable w' = AttendanceTable w
  ∧ TimetableTable w' = TimetableTable w
  ∧ (∀ k, k ≠ temp_id e role → Users w' !! k = Users w !! k).
Proof.
  destruct (register_effect e w name email role imageBase64)
    as [[_ ->]|(_ & _ & _ & _ & _ & ->)]; cbn zeta; [done|].
  repeat split. intros k Hk. cbn [with_Users Users]. by rewrite lookup_insert_ne.
Qed.

Lemma register_only_writes_the_new_user_witness :
  Users (register "B" "b@example.com" "teacher" "data:image/png;base64,AAAA"
           (env_at 1730000000123 []) world1).2 !! "TEACH001"
  = Users world1 !! "TEACH001".
Proof.
  apply (register_only_writes_the_new_user (env_at 1730000000123 []) world1
           "B" "b@example.com" "teacher" "data:image/png;base64,AAAA").
  discriminate.
Defined.

(** ** Approval *)

(** X3. When the request passes validation and the lookup returns,
    [approve] answers 404 for an identifier with no record and 400 for a
    record without a (non-empty) stored image, and in both cases uploads
    nothing, indexes nothing and leaves the record as it was. *)
Theorem approve_rejects_missing_user_or_image e w userId password :
  truthy userId = true → truthy password = true →
  fault e (GetCommand USERS_TABLE userId) = None →
  (Users w !! userId = None →
   approve userId password e w
   = (status_json 404 [("success", Bool false); ("error", Str "User not found")], w))
  ∧ (∀ u, Users w !! userId = Some u →
          User.faceImage u = None ∨ User.faceImage u = Some "" →
          approve userId password e w
          = (status_json 400 [("success", Bool false);
                              ("error", Str "No face image for user")], w)).
Proof.
  intros Hu Hp Hf.
  unfold approve, handle, approve_route.
  step Hu. step Hp. unfold_monad. step Hf.
  split.
  - intros Hl. by step Hl.
  - intros u Hl [Hi|Hi]; step Hl; by rewrite Hi.
Qed.

Lemma approve_rejects_missing_user_or_image_witness :
  approve "nobody" "pw" (env_at 1730000000123 []) world1
  = (status_json 404 [("success", Bool false); ("error", Str "User not found")], world1)
  ∧ approve "TEACH001" "pw" (env_at 1730000000123 []) world1
    = (status_json 400 [("success", Bool false); ("error", Str "No face image for user")],
       world1).
Proof.
  split.
  - apply (approve_rejects_missing_user_or_image (env_at 1730000000123 []) world1
             "nobody" "pw"); reflexivity.
  - apply (proj2 (approve_rejects_missing_user_or_image (env_at 1730000000123 []) world1
                    "TEACH001" "pw" eq_refl eq_refl eq_refl) teacher1); [reflexivity|].
    by left.
Defined.

(** X4. [approve] does not undo what it has done when a later step
    fails.  If [IndexFaces] throws after the upload, the answer is 500
    with the exception's message, the photo stays in the bucket, and the
    user record and the collection are untouched.  If the final update of
    the record throws, the face has been indexed under the identifier
    although the user is still not approved. *)
Theorem approve_keeps_partial_effects e w userId password u faceImage :
  truthy userId = true → truthy password = true →
  fault e (GetCommand USERS_TABLE userId) = None →
  fault e (PutObjectCommand (userId +:+ ".jpg")) = None →
  Users w !! userId = Some u →
  User.faceImage u = Some faceImage → truthy faceImage = true →
  let photo := fromBase64 e (strip_data_url faceImage) in
  (∀ x, index e (Collection w) (index_request e userId faceImage) = Threw x →
        approve userId password e w
        = (status_json 500 [("success", Bool false); ("error", Str (exn_message x))],
           with_Bucket <[userId +:+ ".jpg" := photo]> w))
  ∧ (∀ rs x, index e (Collection w) (index_request e userId faceImage) = Returned rs →
             fault e (UpdateCommand USERS_TABLE userId) = Some x →
             approve userId password e w
             = (status_json 500 [("success", Bool false); ("error", Str (exn_message x))],
                with_Collection
                  (λ c, c ++ Rekognition.indexed (index_request e userId faceImage) rs)
                  (with_Bucket <[userId +:+ ".jpg" := photo]> w))).
Proof.
  intros Hu Hp Hg Hs Hl Hi Ht photo. subst photo.
  unfold approve, handle, approve_route, index_request.
  step Hu. step Hp. unfold_monad. step Hg. step Hl. step Hi. step Ht. step Hs.
  cbn [with_Bucket Collection].
  split.
  - intros x Hx. by step Hx.
  - intros rs x Hx Hf. step Hx. by step Hf.
Qed.

Lemma approve_keeps_partial_effects_witness :
  approve "10000012307" "pw" (env_index_down 1730000000123) world1
  = (status_json 500 [("success", Bool false);
                      ("error", Str "Rekognition is unavailable")],
     with_Bucket <["10000012307.jpg" := []]> world1).
Proof.
  apply (proj1 (approve_keeps_partial_effects (env_index_down 1730000000123) world1
                  "10000012307" "pw" student1 "data:image/png;base64,iVBORw0KGgo="
                  eq_refl eq_refl eq_refl eq_refl eq_refl eq_refl eq_refl)
               (mkExn "ServiceUnavailableException" "Rekognition is unavailable")).
  reflexivity.
Defined.

(** ** Authentication *)

(** X5. When the request passes validation and the lookup returns,
    [login] succeeds exactly when the record exists, its [approved] flag
    is true and its stored password is the supplied one. *)
Theorem login_succeeds_iff e w userId password role :
  truthy userId = true → truthy password = true → truthy role = true →
  fault e (GetCommand USERS_TABLE userId) = None →
  success (login userId password role e w).1 = Some (Bool true)
  ↔ ∃ u, Users w !! userId = Some u
         ∧ User.approved u = Some true
         ∧ User.password u = Some password.
Proof.
  intros Hu Hp Hr Hf.
  unfold login, handle, login_route.
  step Hu. step Hp. step Hr. unfold_monad. step Hf.
  destruct (Users w !! userId) as [u|]; reduce.
  - destruct (User.approved u) as [[|]|] eqn:Ha; cbn [truthy_flag negb].
    + destruct (decide (User.password u = Some password)) as [Hpw|Hpw].
      * rewrite bool_decide_eq_true_2 by done. cbn [negb]. split; [|done].
        intros _. by exists u.
      * rewrite bool_decide_eq_false_2 by done. cbn [negb]. split; [done|].
        intros (u' & [= <-] & _ & Hpw'). done.
    + split; [done|]. intros (u' & [= <-] & Ha' & _). congruence.
    + split; [done|]. intros (u' & [= <-] & Ha' & _). congruence.
  - split; [done|]. by intros (u' & ? & _).
Qed.

Lemma login_succeeds_iff_witness :
  success (login "TEACH001" "password123" "teacher" (env_at 1730000000123 []) world1).1
  = Some (Bool true).
Proof.
  apply (login_succeeds_iff (env_at 1730000000123 []) world1 "TEACH001" "password123"
           "teacher" eq_refl eq_refl eq_refl eq_refl).
  exists teacher1. by repeat split.
Defined.

(** X6. [login] and [verify_face] only read: whatever the request, the
    search result and the failures, the world after them is the world
    before. *)
Theorem login_and_verify_face_write_nothing e w userId password role imageBase64 :
  (login userId password role e w).2 = w
  ∧ (verify_face userId imageBase64 e w).2 = w.
Proof.
  split.
  - unfold login, handle, login_route.
    destruct (truthy userId), (truthy password), (truthy role); reduce; try done.
    unfold_monad.
    destruct (fault e (GetCommand USERS_TABLE userId)); reduce; [done|].
    destruct (Users w !! userId) as [u|]; reduce; [|done].
    destruct (truthy_flag (User.approved u)); reduce; [|done].
    by destruct (bool_decide _).
  - unfold verify_face, handle, verify_face_route.
    destruct (truthy userId), (truthy imageBase64); reduce; try done.
    unfold_monad.
    destruct (fault e (GetCommand USERS_TABLE userId)); reduce; [done|].
    destruct (Users w !! userId) as [u|]; reduce; [|done].
    destruct (search e (Collection w) _) as [rs|x]; reduce; [|done].
    by destruct (Rekognition.FaceMatches rs ≫= find (same_person userId)).
Qed.

(** X7. From registration to the first login.  After a successful
    registration the new identifier cannot log in: the record is not
    approved.  Once [approve] has run on it with a password (nothing
    failing), logging in with that identifier and that password
    succeeds. *)
Theorem registered_user_logs_in_once_approved
    e1 e2 e3 w name email role imageBase64 password role' rs :
  success (register name email role imageBase64 e1 w).1 = Some (Bool true) →
  truthy password = true → truthy role' = true →
  no_fault e2 →
  fault e3 (GetCommand USERS_TABLE (temp_id e1 role)) = None →
  index e2 (Collection w) (index_request e2 (temp_id e1 role) imageBase64) = Returned rs →
  let userId := temp_id e1 role in
  let w1 := (register name email role imageBase64 e1 w).2 in
  let w2 := (approve userId password e2 w1).2 in
  (login userId password role' e3 w1).1
    = status_json 401 [("success", Bool false); ("error", Str "User not approved")]
  ∧ success (approve userId password e2 w1).1 = Some (Bool true)
  ∧ (login userId password role' e3 w2).1
    = json [("success", Bool true); ("message", Str "Login successful");
            ("userId", Str userId); ("role", Str role')].
Proof.
  intros Hok Hp Hr Hnf Hf Hx userId w1 w2.
  change (fault e3 (GetCommand USERS_TABLE userId) = None) in Hf.
  destruct (register_effect e1 w name email role imageBase64)
    as [[Hno _]|(_ & _ & _ & _ & Hi & Hw1)]; [done|].
  fold w1 in Hw1.
  assert (Hl1 : Users w1 !! userId
                = Some (pending_user userId name email role imageBase64)).
  { rewrite Hw1. cbn [with_Users Users]. apply lookup_insert_eq. }
  assert (Hc1 : Collection w1 = Collection w) by (by rewrite Hw1).
  assert (Hid : truthy userId = true) by apply truthy_temp_id.
  rewrite <- Hc1 in Hx.
  pose proof (approve_run e2 w1 userId password _ imageBase64 rs Hid Hp Hnf Hl1 eq_refl Hi Hx)
    as Hrun.
  split; [|split].
  - unfold login, handle, login_route.
    step Hid. step Hp. step Hr. unfold_monad. step Hf. by step Hl1.
  - by rewrite Hrun.
  - subst w2. rewrite Hrun. cbn [snd].
    unfold login, handle, login_route.
    step Hid. step Hp. step Hr. unfold_monad. step Hf.
    cbn [Users]. rewrite lookup_insert_eq. cbn [set_approved User.approved User.password
      truthy_flag negb]. by rewrite bool_decide_eq_true_2.
Qed.

Lemma registered_user_logs_in_once_approved_witness :
  (login "10000012307" "secret" "student" (env_at 1730000000123 [])
     (approve "10000012307" "secret" (env_at 1730000000123 [])
        (register "B" "b@example.com" "student" "data:image/png;base64,AAAA"
           (env_at 1730000000123 []) world1).2).2).1
  = json [("success", Bool true); ("message", Str "Login successful");
          ("userId", Str "10000012307"); ("role", Str "student")].
Proof.
  apply (registered_user_logs_in_once_approved
           (env_at 1730000000123 []) (env_at 1730000000123 []) (env_at 1730000000123 [])
           world1 "B" "b@example.com" "student" "data:image/png;base64,AAAA" "secret"
           "student"
           (Rekognition.mkIndexResponse
              (Some [Rekognition.mkFaceRecord
                       (Some (Rekognition.mkFace (Some "face-0") (Some "10000012307")))]))
           eq_refl eq_refl eq_refl (no_fault_env_at _ _) eq_refl eq_refl).
Defined.

(** ** Attendance sessions *)

(** X8. When the request passes validation and neither the session
    lookup nor the write fails, marking succeeds, by face or by QR code,
    exactly when the session exists and the current time in unix seconds
    is at most its [expireAt] (the second of expiry itself still counts);
    for an unknown session the answer is the route's "invalid" message
    and nothing is written. *)
Theorem marking_needs_a_live_session e w userId sessionId cameraType :
  truthy userId = true → truthy sessionId = true →
  fault e (GetCommand SESSIONS_TABLE sessionId) = None →
  fault e (PutCommand ATTENDANCE_TABLE (attendance_key userId sessionId)) = None →
  let live := ∃ session, Sessions w !! sessionId = Some session
                         ∧ clock e 0 `div` 1000 ≤ Session.expireAt session in
  (success (mark userId sessionId e w).1 = Some (Bool true) ↔ live)
  ∧ (success (scan_qr userId sessionId cameraType e w).1 = Some (Bool true) ↔ live)
  ∧ (Sessions w !! sessionId = None →
     mark userId sessionId e w
       = (json [("success", Bool false); ("error", Str "Invalid session")], w)
     ∧ scan_qr userId sessionId cameraType e w
       = (json [("success", Bool false); ("error", Str "Invalid QR code")], w)).
Proof.
  intros Hu Hs Hg Hp live. subst live.
  unfold mark, scan_qr, handle, mark_route, scan_qr_route.
  step Hu. step Hs. unfold_monad. step Hg.
  destruct (Sessions w !! sessionId) as [session|]; reduce.
  - destruct (Z.gtb_spec (clock e 0 `div` 1000) (Session.expireAt session)) as [Hgt|Hle];
      reduce_items.
    + repeat split; try done; intros (s' & [= <-] & Hle); exfalso; lia.
    + rewrite Hp. reduce. repeat split; try done; intros _; by exists session.
  - repeat split; try done; by intros (s' & ? & _).
Qed.

Lemma marking_needs_a_live_session_witness :
  Session.expireAt session1 = 1730000600
  ∧ success (mark "10000012307" "CLASS-CS101-1730000000123"
               (env_at 1730000600999 []) world1).1 = Some (Bool true).
Proof.
  split; [reflexivity|].
  apply (proj1 (marking_needs_a_live_session (env_at 1730000600999 []) world1
                  "10000012307" "CLASS-CS101-1730000000123" ""
                  eq_refl eq_refl eq_refl eq_refl)).
  exists session1. split; [reflexivity|]. by vm_compute.
Defined.

Lemma generate_qr_run e w teacherId classId :
  truthy teacherId = true → truthy classId = true → no_fault e →
  let sessionId := "CLASS-" +:+ classId +:+ "-" +:+ toString (clock e 0) in
  generate_qr teacherId classId e w
  = (json [("success", Bool true); ("qrData", Str (qrImage e sessionId));
           ("sessionId", Str sessionId)],
     with_Sessions
       <[sessionId := Session.mk sessionId classId teacherId (clock e 1 `div` 1000 + 600)]>
       w).
Proof.
  intros Ht Hc Hnf sessionId.
  unfold generate_qr, handle, generate_qr_route.
  step Ht. step Hc. unfold_monad. rewrite !Hnf. reduce_items.
  replace ((clock e 1 + 10 * 60 * 1000) `div` 1000) with (clock e 1 `div` 1000 + 600)
    by (rewrite <- (Z.div_add _ 600 1000) by lia; f_equal; lia).
  done.
Qed.

Lemma scan_qr_run e w userId qrData cameraType session :
  truthy userId = true → truthy qrData = true → no_fault e →
  Sessions w !! qrData = Some session →
  clock e 0 `div` 1000 ≤ Session.expireAt session →
  scan_qr userId qrData cameraType e w
  = (json [("success", Bool true);
           ("message", Str "Attendance marked successfully via QR scan");
           ("classId", Str (Session.classId session))],
     with_Attendance <[attendance_key userId qrData
                       := qr_record e userId qrData cameraType]> w).
Proof.
  intros Hu Hq Hnf Hl Hle.
  assert (Hgt : (clock e 0 `div` 1000 >? Session.expireAt session) = false).
  { rewrite Z.gtb_ltb. by apply Z.ltb_ge. }
  unfold scan_qr, handle, scan_qr_route.
  step Hu. step Hq. unfold_monad. rewrite !Hnf. reduce. step Hl. step Hgt.
  rewrite !Hnf. by reduce.
Qed.

(** X9. A session made by [generate_qr] is stored under
    "CLASS-<classId>-<creation time>" with an [expireAt] 600 seconds
    after the second of its creation.  A scan of that code no later than
    600000 ms after creation succeeds and names the class; a scan 601000
    ms or more after creation is refused as expired and writes
    nothing. *)
Theorem generated_code_lasts_600_seconds e1 e2 w teacherId classId userId cameraType :
  truthy teacherId = true → truthy classId = true → truthy userId = true →
  no_fault e1 → no_fault e2 →
  let sessionId := "CLASS-" +:+ classId +:+ "-" +:+ toString (clock e1 0) in
  let w1 := (generate_qr teacherId classId e1 w).2 in
  field "sessionId" (generate_qr teacherId classId e1 w).1 = Some (Str sessionId)
  ∧ Sessions w1 !! sessionId
    = Some (Session.mk sessionId classId teacherId (clock e1 1 `div` 1000 + 600))
  ∧ (clock e2 0 ≤ clock e1 1 + 600000 →
     (scan_qr userId sessionId cameraType e2 w1).1
     = json [("success", Bool true);
             ("message", Str "Attendance marked successfully via QR scan");
             ("classId", Str classId)])
  ∧ (clock e1 1 + 601000 ≤ clock e2 0 →
     scan_qr userId sessionId cameraType e2 w1
     = (json [("success", Bool false); ("error", Str "QR code has expired")], w1)).
Proof.
  intros Ht Hc Hu Hnf1 Hnf2 sessionId w1.
  pose proof (generate_qr_run e1 w teacherId classId Ht Hc Hnf1) as Hgen.
  cbn zeta in Hgen. fold sessionId in Hgen.
  assert (Hl : Sessions w1 !! sessionId
               = Some (Session.mk sessionId classId teacherId (clock e1 1 `div` 1000 + 600))).
  { subst w1. rewrite Hgen. cbn [snd with_Sessions Sessions]. apply lookup_insert_eq. }
  assert (Hs : truthy sessionId = true) by done.
  split; [by rewrite Hgen|]. split; [exact Hl|]. split; intros Hclock.
  - rewrite (scan_qr_run e2 w1 userId sessionId cameraType _ Hu Hs Hnf2 Hl); [done|].
    cbn [Session.expireAt].
    rewrite <- (Z.div_add _ 600 1000) by lia. apply Z.div_le_mono; lia.
  - unfold scan_qr, handle, scan_qr_route.
    step Hu. step Hs. unfold_monad. rewrite !Hnf2. reduce. step Hl.
    cbn [Session.expireAt].
    assert (Hgt : (clock e2 0 `div` 1000 >? clock e1 1 `div` 1000 + 600) = true).
    { apply Z.gtb_lt.
      assert (clock e1 1 `div` 1000 + 601 ≤ clock e2 0 `div` 1000); [|lia].
      rewrite <- (Z.div_add _ 601 1000) by lia. apply Z.div_le_mono; lia. }
    by step Hgt.
Qed.

Lemma generated_code_lasts_600_seconds_witness :
  (scan_qr "10000012307" "CLASS-CS101-1730000000123" "back" (env_at 1730000600123 [])
     (generate_qr "TEACH001" "CS101" (env_at 1730000000123 []) world1).2).1
  = json [("success", Bool true);
          ("message", Str "Attendance marked successfully via QR scan");
          ("classId", Str "CS101")].
Proof.
  apply (proj1 (proj2 (proj2 (generated_code_lasts_600_seconds
           (env_at 1730000000123 []) (env_at 1730000600123 []) world1
           "TEACH001" "CS101" "10000012307" "back" eq_refl eq_refl eq_refl
           (no_fault_env_at _ _) (no_fault_env_at _ _))))).
  by vm_compute.
Defined.

(** ** Manual attendance *)

Lemma manual_record_listed e teacherId classId sessionId presentStudents studentId :
  studentId ∈ presentStudents →
  manual_record teacherId (final_session_id e classId sessionId)
                (toISOString e (clock e 1)) (before "T" (toISOString e (clock e 0)))
                studentId
  ∈ manual_records e teacherId classId sessionId presentStudents.
Proof. intros Hin. unfold manual_records. apply list_elem_of_fmap. by exists studentId. Qed.

Lemma submit_attendance_invalid e w teacherId classId presentStudents sessionId :
  truthy teacherId = false ∨ truthy classId = false →
  submit_attendance teacherId classId (Some presentStudents) sessionId e w
  = (status_json 400 [("success", Bool false); ("error", Str "Missing required fields")], w).
Proof.
  unfold submit_attendance, handle, submit_attendance_route.
  intros [->| ->]; [done|]. by destruct (truthy teacherId).
Qed.

(** X10. The manual route changes nothing but the Attendance table, and
    there only the rows of the listed students under the session
    identifier it uses; an empty list is accepted and answered with
    success and a count of 0 while nothing is stored. *)
Theorem manual_submission_touches_only_listed_rows
    e w teacherId classId presentStudents sessionId :
  let out := submit_attendance teacherId classId (Some presentStudents) sessionId e w in
  let finalSessionId := final_session_id e classId sessionId in
  Users out.2 = Users w ∧ Sessions out.2 = Sessions w
  ∧ TimetableTable out.2 = TimetableTable w
  ∧ Bucket out.2 = Bucket w ∧ Collection out.2 = Collection w
  ∧ (∀ k, (∀ studentId, studentId ∈ presentStudents →
                        k ≠ attendance_key studentId finalSessionId) →
          AttendanceTable out.2 !! k = AttendanceTable w !! k)
  ∧ (presentStudents = [] → truthy teacherId = true → truthy classId = true →
     out = (json [("success", Bool true);
                  ("message", Str "Attendance marked for 0 students");
                  ("presentCount", Num 0);
                  ("sessionId", Str finalSessionId)], w)).
Proof.
  intros out finalSessionId.
  destruct (truthy teacherId) eqn:Ht; [destruct (truthy classId) eqn:Hc|].
  - destruct (submit_attendance_run e w teacherId classId presentStudents sessionId Ht Hc)
      as (Hw & _ & Hall).
    fold out in Hw, Hall. rewrite Hw. repeat split.
    + intros k Hk. cbn [with_Attendance AttendanceTable].
      apply stored_lookup_ne. intros r Hr.
      apply list_elem_of_fmap in Hr as (x & -> & Hx). intros Heq. by apply (Hk x).
    + intros -> _ _. rewrite (surjective_pairing out), Hw, Hall.
      * by destruct w.
      * intros r Hr. by apply elem_of_nil in Hr.
  - subst out. rewrite submit_attendance_invalid by (by right). by repeat split.
  - subst out. rewrite submit_attendance_invalid by (by left). by repeat split.
Qed.

Lemma manual_submission_touches_only_listed_rows_witness :
  submit_attendance "TEACH001" "CS101" (Some []) "" (env_at 1730000000123 []) world1
  = (json [("success", Bool true);
           ("message", Str "Attendance marked for 0 students");
           ("presentCount", Num 0);
           ("sessionId", Str "MANUAL-CS101-1730000000123")], world1).
Proof.
  apply (manual_submission_touches_only_listed_rows (env_at 1730000000123 []) world1
           "TEACH001" "CS101" [] ""); reflexivity.
Defined.

Lemma submit_attendance_answer e w teacherId classId presentStudents sessionId :
  truthy teacherId = true → truthy classId = true →
  let out := submit_attendance teacherId classId (Some presentStudents) sessionId e w in
  success out.1 = Some (Bool true)
  ∨ ∃ x, out.1 = status_json 500 [("success", Bool false); ("error", Str (exn_message x))].
Proof.
  intros Ht Hc out. subst out.
  unfold submit_attendance, handle, submit_attendance_route, Promise_all.
  step Ht. step Hc. unfold_monad.
  destruct (truthy sessionId); reduce.
  - destruct (put_all_run
      (manual_record teacherId sessionId (toISOString e (clock e 1))
         (before "T" (toISOString e (clock e 0))) <$> presentStudents)
      e (mkSt w 2)) as (o & -> & _).
    destruct o as [x|]; reduce; [right; by exists x | by left].
  - destruct (put_all_run
      (manual_record teacherId ("MANUAL-" +:+ classId +:+ "-" +:+ toString (clock e 2))
         (toISOString e (clock e 1))
         (before "T" (toISOString e (clock e 0))) <$> presentStudents)
      e (mkSt w 3)) as (o & -> & _).
    destruct o as [x|]; reduce; [right; by exists x | by left].
Qed.

(** X11. The manual route does not roll back.  When the write for one
    listed student fails, the answer is 500 with success=false, and yet
    every listed student whose own write went through has the record in
    the table. *)
Theorem manual_submission_has_no_rollback
    e w teacherId classId presentStudents sessionId failed :
  truthy teacherId = true → truthy classId = true →
  let finalSessionId := final_session_id e classId sessionId in
  let record := manual_record teacherId finalSessionId (toISOString e (clock e 1))
                              (before "T" (toISOString e (clock e 0))) in
  let out := submit_attendance teacherId classId (Some presentStudents) sessionId e w in
  failed ∈ presentStudents →
  put_ok e (record failed) = false →
  status out.1 = 500
  ∧ success out.1 = Some (Bool false)
  ∧ (∀ studentId, studentId ∈ presentStudents →
       put_ok e (record studentId) = true →
       AttendanceTable out.2 !! attendance_key studentId finalSessionId
       = Some (record studentId)).
Proof.
  intros Ht Hc finalSessionId record out Hin Hfail.
  destruct (submit_attendance_run e w teacherId classId presentStudents sessionId Ht Hc)
    as (Hw & Hok & _).
  fold out in Hw, Hok.
  destruct (submit_attendance_answer e w teacherId classId presentStudents sessionId Ht Hc)
    as [Hyes|[x Hx]]; fold out in Hyes || fold out in Hx.
  { rewrite (proj2 Hok Hyes) in Hfail; [done|]. by apply manual_record_listed. }
  split; [by rewrite Hx|]. split; [by rewrite Hx|].
  intros studentId Hs Hput. rewrite Hw. cbn [with_Attendance AttendanceTable].
  change (attendance_key studentId finalSessionId)
    with (Attendance.attendanceId (record studentId)).
  apply stored_lookup; [by apply manual_record_listed | done |].
  intros r' Hr' Hk. eapply manual_records_unique; [|done..].
  by apply manual_record_listed.
Qed.

Lemma manual_submission_has_no_rollback_witness :
  status (submit_attendance "TEACH001" "CS101" (Some ["ann"; "bob"; "cy"]) "S1"
            (env_failing 1730000000123 (is_put_attendance "bob-S1")) world1).1 = 500
  ∧ is_Some (AttendanceTable
               (submit_attendance "TEACH001" "CS101" (Some ["ann"; "bob"; "cy"]) "S1"
                  (env_failing 1730000000123 (is_put_attendance "bob-S1")) world1).2
             !! "cy-S1").
Proof.
  destruct (manual_submission_has_no_rollback
              (env_failing 1730000000123 (is_put_attendance "bob-S1")) world1
              "TEACH001" "CS101" ["ann"; "bob"; "cy"] "S1" "bob" eq_refl eq_refl)
    as (H1 & _ & H3).
  - apply elem_of_cons. right. apply elem_of_cons. by left.
  - reflexivity.
  - split; [exact H1|]. eexists. apply (H3 "cy"); [|reflexivity].
    do 2 (apply elem_of_cons; right). apply elem_of_cons. by left.
Defined.

(** ** The attendance identifier *)

Lemma dash_free_all_digits s : all_digits s = true → dash_free s = true.
Proof.
  induction s as [|c s IH]; [done|]. cbn [all_digits dash_free].
  intros [Hc Hs]%andb_true_iff. rewrite IH by done.
  destruct (Ascii.eqb_spec c "-") as [->|]; [done|done].
Qed.

Lemma dash_splits u1 u2 t1 t2 :
  dash_free u1 = true → dash_free u2 = true →
  u1 +:+ String "-" t1 = u2 +:+ String "-" t2 → u1 = u2 ∧ t1 = t2.
Proof.
  revert u2. induction u1 as [|a u1 IH]; intros [|b u2] H1 H2 Heq.
  - change (String "-" t1 = String "-" t2) in Heq. by injection Heq as ->.
  - change (String "-" t1 = String b (u2 +:+ String "-" t2)) in Heq.
    injection Heq as <- _. done.
  - change (String a (u1 +:+ String "-" t1) = String "-" t2) in Heq.
    injection Heq as -> _. done.
  - change (String a (u1 +:+ String "-" t1) = String b (u2 +:+ String "-" t2)) in Heq.
    injection Heq as -> Heq.
    cbn [dash_free] in H1, H2.
    apply andb_true_iff in H1 as [_ H1]. apply andb_true_iff in H2 as [_ H2].
    by destruct (IH u2 H1 H2 Heq) as [-> ->].
Qed.

(** X12. For user identifiers that contain no "-" (as every identifier
    [register] makes: they are all digits) the attendance identifier
    determines the user and the session, so two different (user,
    session) pairs never share a record. *)
Theorem attendance_key_injective userId1 sessionId1 userId2 sessionId2 :
  dash_free userId1 = true → dash_free userId2 = true →
  attendance_key userId1 sessionId1 = attendance_key userId2 sessionId2 →
  userId1 = userId2 ∧ sessionId1 = sessionId2.
Proof. apply dash_splits. Qed.

Lemma attendance_key_injective_witness :
  dash_free "10000012307" = true
  ∧ ("10000012307" = "10000012307" ∧ "S1" = "S1").
Proof.
  split; [reflexivity|].
  apply (attendance_key_injective "10000012307" "S1" "10000012307" "S1"); reflexivity.
Defined.

(** Without that, identifiers collide. *)
Lemma attendance_key_collision :
  attendance_key "a-b" "c" = attendance_key "a" "b-c".
Proof. reflexivity. Qed.

(** ** Timetable *)

(** X13. When the teacher exists with role "teacher" and nothing fails,
    [assign_teacher] answers success and sets the entry's teacher, the
    teacher's name (the supplied one, else the stored one) and the
    assignment time, keeping the entry's other attributes and every other
    entry.  It does not look for the entry first: for an identifier with
    no entry it creates one holding only these three attributes, with no
    class data and no [isActive] flag, and still answers success. *)
Theorem assign_teacher_updates_or_creates_entry
    e w timetableId teacherId teacherName teacher tname :
  truthy timetableId = true → truthy teacherId = true →
  no_fault e →
  Users w !! teacherId = Some teacher →
  User.role teacher = Some "teacher" →
  or_attr teacherName (User.name teacher) = Some tname →
  let out := assign_teacher timetableId teacherId teacherName e w in
  let now := toISOString e (clock e 0) in
  out.1 = json [("success", Bool true);
                ("message", Str ("Teacher " +:+ tname
                                   +:+ " assigned to class successfully"))]
  ∧ (∀ t, TimetableTable w !! timetableId = Some t →
          TimetableTable out.2 !! timetableId = Some (set_teacher teacherId tname now t))
  ∧ (TimetableTable w !! timetableId = None →
     TimetableTable out.2 !! timetableId
     = Some (Timetable.mk timetableId None None (Some teacherId) (Some tname)
                          None None None None None None (Some now) None))
  ∧ (∀ k, k ≠ timetableId → TimetableTable out.2 !! k = TimetableTable w !! k).
Proof.
  intros Ht Hid Hnf Hl Hrole Hname out now. subst out now.
  unfold assign_teacher, handle, assign_teacher_route.
  step Ht. step Hid. unfold_monad. rewrite !Hnf. reduce. step Hl.
  rewrite bool_decide_eq_true_2 by done. reduce. rewrite Hname. rewrite ?Hnf. reduce.
  cbn [with_Timetable TimetableTable].
  split; [done|]. split; [|split].
  - intros t Hlt. by rewrite lookup_insert_eq, Hlt.
  - intros Hlt. by rewrite lookup_insert_eq, Hlt.
  - intros k Hk. by rewrite lookup_insert_ne.
Qed.

Lemma assign_teacher_updates_or_creates_entry_witness :
  TimetableTable world1 !! "no-such-entry" = None
  ∧ (assign_teacher "no-such-entry" "TEACH001" "" (env_at 1730000000123 []) world1).1
    = json [("success", Bool true);
            ("message", Str "Teacher Dr. Sarah Johnson assigned to class successfully")].
Proof.
  split; [reflexivity|].
  apply (assign_teacher_updates_or_creates_entry (env_at 1730000000123 []) world1
           "no-such-entry" "TEACH001" "" teacher1 "Dr. Sarah Johnson"
           eq_refl eq_refl (no_fault_env_at _ _) eq_refl eq_refl eq_refl).
Defined.

(** The entry [upsert_timetable] stores. *)
Lemma upsert_timetable_run
    e w classId className teacherId teacherName dayOfWeek startTime endTime subject room :
  truthy classId = true → truthy className = true → truthy teacherId = true →
  truthy dayOfWeek = true → truthy startTime = true → truthy endTime = true →
  truthy subject = true →
  fault e (PutCommand TIMETABLE_TABLE (timetable_key classId dayOfWeek startTime)) = None →
  upsert_timetable classId className teacherId teacherName dayOfWeek startTime endTime
                   subject room e w
  = (json [("success", Bool true); ("message", Str "Timetable entry created/updated");
           ("timetableId", Str (timetable_key classId dayOfWeek startTime))],
     with_Timetable
       <[timetable_key classId dayOfWeek startTime
         := Timetable.mk (timetable_key classId dayOfWeek startTime) (Some classId)
              (Some className) (Some teacherId) (Some (or_else teacherName "Unknown Teacher"))
              (Some dayOfWeek) (Some startTime) (Some endTime) (Some subject)
              (Some (or_else room "")) (Some (toISOString e (clock e 0))) None (Some true)]>
       w).
Proof.
  intros H1 H2 H3 H4 H5 H6 H7 Hf.
  unfold upsert_timetable, handle, upsert_timetable_route.
  step H1. step H2. step H3. step H4. step H5. step H6. step H7.
  unfold_routes. reduce_items. by step Hf.
Qed.

(** X14. Submitting a timetable entry for a class, day and start time
    that already has one replaces it: after two accepted submissions for
    the same slot the table is the original one with the second entry
    under "<classId>-<dayOfWeek>-<startTime>"; nothing of the first is
    left and no second row appears. *)
Theorem timetable_resubmission_overwrites
    e1 e2 w classId dayOfWeek startTime
    className1 teacherId1 teacherName1 endTime1 subject1 room1
    className2 teacherId2 teacherName2 endTime2 subject2 room2 :
  truthy classId = true → truthy dayOfWeek = true → truthy startTime = true →
  truthy className1 = true → truthy teacherId1 = true → truthy endTime1 = true →
  truthy subject1 = true →
  truthy className2 = true → truthy teacherId2 = true → truthy endTime2 = true →
  truthy subject2 = true →
  no_fault e1 → no_fault e2 →
  let key := timetable_key classId dayOfWeek startTime in
  let w1 := (upsert_timetable classId className1 teacherId1 teacherName1 dayOfWeek
               startTime endTime1 subject1 room1 e1 w).2 in
  let w2 := (upsert_timetable classId className2 teacherId2 teacherName2 dayOfWeek
               startTime endTime2 subject2 room2 e2 w1).2 in
  TimetableTable w2
  = <[key := Timetable.mk key (Some classId) (Some className2) (Some teacherId2)
               (Some (or_else teacherName2 "Unknown Teacher")) (Some dayOfWeek)
               (Some startTime) (Some endTime2) (Some subject2) (Some (or_else room2 ""))
               (Some (toISOString e2 (clock e2 0))) None (Some true)]>
      (TimetableTable w)
  ∧ dom (TimetableTable w2) = dom (TimetableTable w1).
Proof.
  intros Hc Hd Hs Hn1 Ht1 He1 Hsu1 Hn2 Ht2 He2 Hsu2 Hnf1 Hnf2 key w1 w2.
  subst w2 w1.
  rewrite (upsert_timetable_run e1) by (done || apply Hnf1).
  cbn [snd].
  rewrite (upsert_timetable_run e2) by (done || apply Hnf2).
  cbn [snd with_Timetable TimetableTable]. fold key.
  split; [apply insert_insert_eq|].
  rewrite !dom_insert_L. by rewrite (assoc_L (∪)), (idemp_L (∪)).
Qed.

Lemma timetable_resubmission_overwrites_witness :
  dom (TimetableTable
         (upsert_timetable "CS101" "Algorithms II" "TEACH001" "" "Monday" "09:00" "10:30"
            "Algorithms" "" (env_at 1730000300000 [])
            (upsert_timetable "CS101" "Algorithms" "TEACH001" "Dr. Sarah Johnson" "Monday"
               "09:00" "10:00" "Algorithms" "R1" (env_at 1730000000123 []) world1).2).2)
  = dom (TimetableTable
           (upsert_timetable "CS101" "Algorithms" "TEACH001" "Dr. Sarah Johnson" "Monday"
              "09:00" "10:00" "Algorithms" "R1" (env_at 1730000000123 []) world1).2).
Proof.
  apply (timetable_resubmission_overwrites
           (env_at 1730000000123 []) (env_at 1730000300000 []) world1
           "CS101" "Monday" "09:00"
           "Algorithms" "TEACH001" "Dr. Sarah Johnson" "10:00" "Algorithms" "R1"
           "Algorithms II" "TEACH001" "" "10:30" "Algorithms" ""
           eq_refl eq_refl eq_refl eq_refl eq_refl eq_refl eq_refl eq_refl eq_refl eq_refl
           eq_refl (no_fault_env_at _ _) (no_fault_env_at _ _)).
Defined.

(** X15. Deleting a timetable entry is a soft delete that never says
    "not found".  When the update goes through the answer is success; an
    existing entry keeps every attribute except [isActive], which becomes
    false; for an identifier with no entry an inactive entry holding only
    the identifier is created; all other entries stay as they are. *)
Theorem delete_timetable_deactivates_or_creates e w timetableId :
  fault e (UpdateCommand TIMETABLE_TABLE timetableId) = None →
  let out := delete_timetable timetableId e w in
  out.1 = json [("success", Bool true); ("message", Str "Timetable entry deleted")]
  ∧ (∀ t, TimetableTable w !! timetableId = Some t →
          TimetableTable out.2 !! timetableId = Some (set_inactive t))
  ∧ (TimetableTable w !! timetableId = None →
     TimetableTable out.2 !! timetableId
     = Some (Timetable.mk timetableId None None None None None None None None None None
                          None (Some false)))
  ∧ (∀ k, k ≠ timetableId → TimetableTable out.2 !! k = TimetableTable w !! k)
  ∧ dom (TimetableTable w) ⊆ dom (TimetableTable out.2).
Proof.
  intros Hf out. subst out.
  unfold delete_timetable, handle, delete_timetable_route.
  unfold_monad. step Hf. cbn [with_Timetable TimetableTable].
  split; [done|]. split; [|split; [|split]].
  - intros t Hl. by rewrite lookup_insert_eq, Hl.
  - intros Hl. by rewrite lookup_insert_eq, Hl.
  - intros k Hk. by rewrite lookup_insert_ne.
  - rewrite dom_insert_L. apply union_subseteq_r.
Qed.

Lemma delete_timetable_deactivates_or_creates_witness :
  TimetableTable (delete_timetable "no-such-entry" (env_at 1730000000123 []) world1).2
    !! "no-such-entry"
  = Some (Timetable.mk "no-such-entry" None None None None None None None None None None
                       None (Some false)).
Proof.
  apply (delete_timetable_deactivates_or_creates (env_at 1730000000123 []) world1
           "no-such-entry" eq_refl).
  reflexivity.
Defined.

(** ** Removing a user, and the listings *)

Lemma remove_user_run e w userId u :
  no_fault e → Users w !! userId = Some u →
  remove_user userId e w
  = (json [("success", Bool true);
           ("message", Str ("User " +:+ userId +:+ " removed successfully"))],
     with_Users <[userId := set_removed u]> w).
Proof.
  intros Hnf Hl. unfold remove_user, handle, remove_user_route.
  unfold_monad. rewrite !Hnf. reduce. step Hl. rewrite Hnf. reduce.
  unfold with_Users. cbn [Users]. by rewrite Hl.
Qed.

Lemma elem_of_scan (keep : User.t → bool) (t : gmap string User.t) (u : User.t) :
  u ∈ List.filter keep (map_to_list t).*2 ↔ (∃ k, t !! k = Some u) ∧ keep u = true.
Proof.
  rewrite list_elem_of_In, filter_In, <- list_elem_of_In, list_elem_of_fmap.
  split.
  - intros [([k u'] & -> & Hin) Hk]. split; [|done].
    exists k. by apply elem_of_map_to_list.
  - intros [[k Hl] Hk]. split; [|done].
    exists (k, u). split; [done|]. by apply elem_of_map_to_list.
Qed.

(** X16. Removing a user is a soft delete.  For an unknown identifier
    the answer is 404 and nothing changes.  For a stored user (nothing
    failing) the record stays, with its password and face data, but with
    [approved] and [isActive] false; the face collection and the bucket
    are untouched, so the face stays indexed; and a later [login] with
    the right password is refused with 401 "User not approved". *)
Theorem removed_user_is_kept_but_locked_out e e' w userId u password role :
  no_fault e →
  fault e' (GetCommand USERS_TABLE userId) = None →
  truthy userId = true → truthy password = true → truthy role = true →
  let out := remove_user userId e w in
  (Users w !! userId = None →
   out = (status_json 404 [("success", Bool false); ("error", Str "User not found")], w))
  ∧ (Users w !! userId = Some u →
     success out.1 = Some (Bool true)
     ∧ Users out.2 !! userId
       = Some (User.mk (User.userId u) (User.name u) (User.email u) (User.role u)
                       (Some false) (User.faceImage u) (User.password u) (User.faceId u)
                       (User.photoKey u) (Some false) (User.approvedAt u))
     ∧ Collection out.2 = Collection w
     ∧ Bucket out.2 = Bucket w
     ∧ (login userId password role e' out.2).1
       = status_json 401 [("success", Bool false); ("error", Str "User not approved")]).
Proof.
  intros Hnf Hf Hu Hp Hr out. subst out. split.
  - intros Hl. unfold remove_user, handle, remove_user_route.
    unfold_monad. rewrite Hnf. reduce. by step Hl.
  - intros Hl. rewrite (remove_user_run e w userId u Hnf Hl). cbn [fst snd].
    split; [done|]. split; [apply lookup_insert_eq|]. split; [done|]. split; [done|].
    unfold login, handle, login_route.
    step Hu. step Hp. step Hr. unfold_monad. step Hf.
    cbn [with_Users Users]. by rewrite lookup_insert_eq.
Qed.

Lemma removed_user_is_kept_but_locked_out_witness :
  success (login "TEACH001" "password123" "teacher" (env_at 1730000000123 []) world1).1
  = Some (Bool true)
  ∧ (login "TEACH001" "password123" "teacher" (env_at 1730000000123 [])
       (remove_user "TEACH001" (env_at 1730000000123 []) world1).2).1
    = status_json 401 [("success", Bool false); ("error", Str "User not approved")].
Proof.
  split; [reflexivity|].
  apply (proj2 (removed_user_is_kept_but_locked_out
                  (env_at 1730000000123 []) (env_at 1730000000123 []) world1
                  "TEACH001" teacher1 "password123" "teacher"
                  (no_fault_env_at _ _) eq_refl eq_refl eq_refl eq_refl) eq_refl).
Defined.

(** X17. The pending listing shows a new registration until it is
    approved.  After a successful [register] the new record is in the
    list [pending] answers; after a successful [approve] of that
    identifier no record with that identifier is in the list. *)
Theorem pending_lists_registration_until_approved
    e1 e2 e3 w name email role imageBase64 password rs :
  users_keyed (Users w) →
  success (register name email role imageBase64 e1 w).1 = Some (Bool true) →
  truthy password = true → no_fault e2 →
  index e2 (Collection w) (index_request e2 (temp_id e1 role) imageBase64) = Returned rs →
  let userId := temp_id e1 role in
  let w1 := (register name email role imageBase64 e1 w).2 in
  let w2 := (approve userId password e2 w1).2 in
  (∃ l, (pending None e3 w1).1 = Success l
        ∧ pending_user userId name email role imageBase64 ∈ l)
  ∧ (∃ l, (pending None e3 w2).1 = Success l
          ∧ ∀ u, u ∈ l → User.userId u ≠ userId).
Proof.
  intros Hkeyed Hok Hp Hnf Hx userId w1 w2.
  destruct (register_effect e1 w name email role imageBase64)
    as [[Hno _]|(_ & _ & _ & _ & Hi & Hw1)]; [done|].
  fold w1 in Hw1.
  assert (Hl1 : Users w1 !! userId
                = Some (pending_user userId name email role imageBase64)).
  { rewrite Hw1. cbn [with_Users Users]. apply lookup_insert_eq. }
  assert (Hc1 : Collection w1 = Collection w) by (by rewrite Hw1).
  rewrite <- Hc1 in Hx.
  pose proof (approve_run e2 w1 userId password _ imageBase64 rs
                (truthy_temp_id e1 role) Hp Hnf Hl1 eq_refl Hi Hx) as Hrun.
  split.
  - eexists. split; [reflexivity|]. cbn [world].
    apply elem_of_scan. split; [by exists userId | done].
  - eexists. split; [reflexivity|]. cbn [world].
    intros u [[k Hk] Hpend]%elem_of_scan.
    subst w2. rewrite Hrun in Hk. cbn [snd Users] in Hk.
    destruct (decide (k = userId)) as [->|Hne].
    + rewrite lookup_insert_eq in Hk. injection Hk as <-. done.
    + rewrite lookup_insert_ne in Hk by done.
      rewrite Hw1 in Hk. cbn [with_Users Users] in Hk.
      rewrite lookup_insert_ne in Hk by done.
      by rewrite (Hkeyed _ _ Hk).
Qed.

Lemma users_keyed_world1 : users_keyed (Users world1).
Proof.
  intros k u Hk. unfold world1 in Hk. cbn [Users] in Hk.
  apply lookup_insert_Some in Hk as [[<- <-]|[_ Hk]]; [done|].
  apply lookup_singleton_Some in Hk as [<- <-]. done.
Qed.

Lemma pending_lists_registration_until_approved_witness :
  ∃ l, (pending None (env_at 1730000000123 [])
          (register "B" "b@example.com" "student" "data:image/png;base64,AAAA"
             (env_at 1730000000123 []) world1).2).1 = Success l
       ∧ pending_user "10000012307" "B" "b@example.com" "student"
                      "data:image/png;base64,AAAA" ∈ l.
Proof.
  apply (pending_lists_registration_until_approved
           (env_at 1730000000123 []) (env_at 1730000000123 []) (env_at 1730000000123 [])
           world1 "B" "b@example.com" "student" "data:image/png;base64,AAAA" "secret"
           (Rekognition.mkIndexResponse
              (Some [Rekognition.mkFaceRecord
                       (Some (Rekognition.mkFace (Some "face-0") (Some "10000012307")))]))
           users_keyed_world1 eq_refl eq_refl (no_fault_env_at _ _) eq_refl).
Defined.

(** X18. A removed user turns up as a pending registration.  After a
    successful [remove_user] the record, now with [approved] false, is
    in the list [pending] answers, while [admin_users] lists no student
    or teacher with that identifier. *)
Theorem removed_user_is_listed_as_pending e e' w userId u :
  users_keyed (Users w) →
  no_fault e → Users w !! userId = Some u →
  let w' := (remove_user userId e w).2 in
  (∃ l, (pending None e' w').1 = Success l ∧ set_removed u ∈ l)
  ∧ (∃ r, (admin_users None e' w').1 = Success r
          ∧ ∀ v, v ∈ students r ++ teachers r → User.userId v ≠ userId).
Proof.
  intros Hkeyed Hnf Hl w'. subst w'.
  rewrite (remove_user_run e w userId u Hnf Hl). cbn [snd]. split.
  - eexists. split; [reflexivity|]. cbn [world with_Users Users].
    apply elem_of_scan. split; [|done]. exists userId. apply lookup_insert_eq.
  - eexists. split; [reflexivity|]. cbn [world with_Users Users students teachers].
    assert (Hscan : ∀ v, v ∈ List.filter is_approved_active
                               (map_to_list (<[userId := set_removed u]> (Users w))).*2 →
                         User.userId v ≠ userId).
    { intros v [[k Hk] Hv]%elem_of_scan.
      destruct (decide (k = userId)) as [->|Hne].
      - rewrite lookup_insert_eq in Hk. injection Hk as <-. done.
      - rewrite lookup_insert_ne in Hk by done. by rewrite (Hkeyed _ _ Hk). }
    intros v [Hv|Hv]%elem_of_app; apply Hscan;
      apply list_elem_of_In, filter_In in Hv as [Hv _]; by apply list_elem_of_In.
Qed.

Lemma removed_user_is_listed_as_pending_witness :
  ∃ l, (pending None (env_at 1730000000123 [])
          (remove_user "TEACH001" (env_at 1730000000123 []) world1).2).1 = Success l
       ∧ set_removed teacher1 ∈ l.
Proof.
  apply (removed_user_is_listed_as_pending (env_at 1730000000123 [])
           (env_at 1730000000123 []) world1 "TEACH001" teacher1
           users_keyed_world1 (no_fault_env_at _ _) eq_refl).
Defined.

(** What [approve] can do to the Users table: nothing, or the [SET] of
    the approval on the stored record. *)
Lemma approve_effect_users e w userId password :
  Users (approve userId password e w).2 = Users w
  ∨ ∃ u faceId now,
      Users w !! userId = Some u
      ∧ Users (approve userId password e w).2
        = <[userId := set_approved password faceId (userId +:+ ".jpg") now u]> (Users w).
Proof.
  unfold approve, handle, approve_route.
  destruct (truthy userId), (truthy password); reduce; try (by left).
  unfold_monad.
  destruct (fault e (GetCommand USERS_TABLE userId)); reduce; [by left|].
  destruct (Users w !! userId) as [u|] eqn:Hl; reduce; [|by left].
  destruct (User.faceImage u) as [faceImage|]; reduce; [|by left].
  destruct (truthy faceImage); reduce; [|by left].
  destruct (fault e (PutObjectCommand _)); reduce; [by left|].
  cbn [with_Bucket Collection].
  destruct (index e (Collection w) _) as [rs|x]; reduce; [|by left].
  destruct (fault e (UpdateCommand USERS_TABLE userId)); reduce; [by left|].
  right. exists u, (first_face_id rs), (toISOString e (clock e 0)).
  split; [done|]. cbn [with_Users with_Collection with_Bucket Users]. by rewrite Hl.
Qed.

Lemma remove_user_effect_users e w userId :
  Users (remove_user userId e w).2 = Users w
  ∨ ∃ u, Users w !! userId = Some u
         ∧ Users (remove_user userId e w).2 = <[userId := set_removed u]> (Users w).
Proof.
  unfold remove_user, handle, remove_user_route. unfold_monad.
  destruct (fault e (GetCommand USERS_TABLE userId)); reduce; [by left|].
  destruct (Users w !! userId) as [u|] eqn:Hl; reduce; [|by left].
  destruct (fault e (UpdateCommand USERS_TABLE userId)); reduce; [by left|].
  right. exists u. split; [done|]. cbn [with_Users Users]. by rewrite Hl.
Qed.

(** X19. The routes that write the Users table keep every record under
    its own [userId]: [register] stores the new record under the
    identifier it carries, and [approve] and [remove_user] rewrite a
    stored record without touching its identifier, whatever the request
    and whatever fails. *)
Theorem users_table_stays_keyed e w :
  users_keyed (Users w) →
  (∀ name email role imageBase64,
     users_keyed (Users (register name email role imageBase64 e w).2))
  ∧ (∀ userId password, users_keyed (Users (approve userId password e w).2))
  ∧ (∀ userId, users_keyed (Users (remove_user userId e w).2)).
Proof.
  intros Hk. split; [|split].
  - intros name email role imageBase64.
    destruct (register_effect e w name email role imageBase64)
      as [[_ ->]|(_ & _ & _ & _ & _ & ->)]; [done|].
    cbn [with_Users Users]. intros k u Hu.
    apply lookup_insert_Some in Hu as [[<- <-]|[_ Hu]]; [done | by apply Hk].
  - intros userId password.
    destruct (approve_effect_users e w userId password)
      as [->|(u & faceId & now & Hl & ->)]; [done|].
    intros k v Hv.
    apply lookup_insert_Some in Hv as [[<- <-]|[_ Hv]]; [|by apply Hk].
    cbn [set_approved set_removed User.userId]. by apply Hk.
  - intros userId.
    destruct (remove_user_effect_users e w userId) as [->|(u & Hl & ->)]; [done|].
    intros k v Hv.
    apply lookup_insert_Some in Hv as [[<- <-]|[_ Hv]]; [|by apply Hk].
    cbn [set_approved set_removed User.userId]. by apply Hk.
Qed.

Lemma users_table_stays_keyed_witness :
  users_keyed (Users (approve "10000012307" "pw" (env_at 1730000000123 []) world1).2).
Proof.
  apply (users_table_stays_keyed (env_at 1730000000123 []) world1 users_keyed_world1).
Defined.

(** ** Images *)

Lemma strip_prefix_app p s : strip_prefix p (p +:+ s) = Some s.
Proof.
  induction p as [|a p IH]; [done|].
  change (String a p +:+ s) with (String a (p +:+ s)).
  cbn [strip_prefix]. by rewrite Ascii.eqb_refl.
Qed.

Lemma drop_letters_app fmt rest :
  all_letters fmt = true →
  drop_letters (fmt +:+ String ";" rest) = String ";" rest.
Proof.
  induction fmt as [|a fmt IH]; [done|].
  cbn [all_letters]. intros [Ha Hfmt]%andb_true_iff.
  change (String a fmt +:+ String ";" rest) with (String a (fmt +:+ String ";" rest)).
  cbn [drop_letters]. rewrite Ha. by apply IH.
Qed.

(** X20. For a data URL ["data:image/<format>;base64,<payload>"] whose
    format is one or more letters, the prefix is removed and the bytes
    handed to Rekognition and S3 are the decoding of the payload
    alone. *)
Theorem data_url_prefix_is_stripped e s format payload :
  format ≠ "" → all_letters format = true →
  strip_data_url ("data:image/" +:+ format +:+ ";base64," +:+ payload) = payload
  ∧ image_buffer ("data:image/" +:+ format +:+ ";base64," +:+ payload) e s
    = (Returned (fromBase64 e payload), s).
Proof.
  intros Hne Hletters.
  assert (Hstrip : strip_data_url ("data:image/" +:+ format +:+ ";base64," +:+ payload)
                   = payload).
  { unfold strip_data_url. rewrite strip_prefix_app.
    destruct format as [|a format]; [done|].
    change (String a format +:+ ";base64," +:+ payload)
      with (String a (format +:+ String ";" ("base64," +:+ payload))).
    cbn [all_letters] in Hletters. apply andb_true_iff in Hletters as [Ha Hfmt].
    rewrite Ha. cbn [drop_letters]. rewrite Ha.
    rewrite drop_letters_app by done.
    change (String ";" ("base64," +:+ payload)) with (";base64," +:+ payload).
    by rewrite strip_prefix_app. }
  split; [done|]. unfold image_buffer. unfold_monad. by rewrite Hstrip.
Qed.

Lemma data_url_prefix_is_stripped_witness :
  strip_data_url ("data:image/" +:+ "jpeg" +:+ ";base64," +:+ "/9j/4AAQ") = "/9j/4AAQ".
Proof.
  apply (data_url_prefix_is_stripped (env_at 0 []) (mkSt world1 0) "jpeg" "/9j/4AAQ");
    [discriminate | reflexivity].
Defined.

(** A format that is not made of letters only is left in place. *)
Lemma data_url_with_other_format_is_kept :
  strip_data_url "data:image/svg+xml;base64,AAAA" = "data:image/svg+xml;base64,AAAA".
Proof. reflexivity. Qed.

(** ** Class times *)

Lemma string_compare_refl s : String.compare s s = Eq.
Proof.
  pose proof (String.compare_antisym s s) as H. by destruct (String.compare s s).
Qed.

Lemma digit_compare a b :
  (a < 10)%N → (b < 10)%N →
  Ascii.compare (pretty_N_char a) (pretty_N_char b) = (a ?= b)%N.
Proof.
  intros Ha Hb.
  destruct a as [|p]; [|do 4 (try destruct p as [p|p|])]; try lia;
    (destruct b as [|q]; [|do 4 (try destruct q as [q|q|])]; try lia; reflexivity).
Qed.

Lemma low_digits_2 n :
  low_digits 2 n
  = String (pretty_N_char ((n `div` 10) `mod` 10)%N)
           (String (pretty_N_char (n `mod` 10)%N) EmptyString).
Proof. reflexivity. Qed.

Lemma current_time_digits h m :
  0 ≤ h < 100 → 0 ≤ m < 100 →
  current_time h m
  = String (pretty_N_char (Z.to_N h `div` 10)%N)
      (String (pretty_N_char (Z.to_N h `mod` 10)%N)
         (String ":"
            (String (pretty_N_char (Z.to_N m `div` 10)%N)
               (String (pretty_N_char (Z.to_N m `mod` 10)%N) EmptyString)))).
Proof.
  intros Hh Hm. unfold current_time.
  rewrite !padStart_toString, !low_digits_2 by done.
  rewrite !(N.mod_small (_ `div` 10) 10); [done|..];
    apply N.Div0.div_lt_upper_bound; lia.
Qed.

Lemma current_time_compare h1 m1 h2 m2 :
  0 ≤ h1 < 100 → 0 ≤ m1 < 100 → 0 ≤ h2 < 100 → 0 ≤ m2 < 100 →
  String.compare (current_time h1 m1) (current_time h2 m2)
  = (100 * h1 + m1 ?= 100 * h2 + m2).
Proof.
  intros Hh1 Hm1 Hh2 Hm2.
  rewrite !current_time_digits by done.
  cbn [String.compare].
  rewrite !digit_compare
    by (apply N.mod_lt || apply N.Div0.div_lt_upper_bound; lia).
  change (Ascii.compare ":" ":") with Eq. cbv iota.
  pose proof (N.div_mod (Z.to_N h1) 10 ltac:(lia)) as E1.
  pose proof (N.div_mod (Z.to_N h2) 10 ltac:(lia)) as E2.
  pose proof (N.div_mod (Z.to_N m1) 10 ltac:(lia)) as E3.
  pose proof (N.div_mod (Z.to_N m2) 10 ltac:(lia)) as E4.
  pose proof (N.mod_lt (Z.to_N h1) 10 ltac:(lia)) as B1.
  pose proof (N.mod_lt (Z.to_N h2) 10 ltac:(lia)) as B2.
  pose proof (N.mod_lt (Z.to_N m1) 10 ltac:(lia)) as B3.
  pose proof (N.mod_lt (Z.to_N m2) 10 ltac:(lia)) as B4.
  revert E1 E2 E3 E4 B1 B2 B3 B4.
  generalize (Z.to_N h1 `div` 10)%N (Z.to_N h1 `mod` 10)%N
             (Z.to_N h2 `div` 10)%N (Z.to_N h2 `mod` 10)%N
             (Z.to_N m1 `div` 10)%N (Z.to_N m1 `mod` 10)%N
             (Z.to_N m2 `div` 10)%N (Z.to_N m2 `mod` 10)%N.
  intros a1 b1 a2 b2 c1 d1 c2 d2 E1 E2 E3 E4 B1 B2 B3 B4.
  symmetry.
  destruct (N.compare_spec a1 a2); [|apply Z.compare_lt_iff; lia|apply Z.compare_gt_iff; lia].
  destruct (N.compare_spec b1 b2); [|apply Z.compare_lt_iff; lia|apply Z.compare_gt_iff; lia].
  destruct (N.compare_spec c1 c2); [|apply Z.compare_lt_iff; lia|apply Z.compare_gt_iff; lia].
  destruct (N.compare_spec d1 d2); [|apply Z.compare_lt_iff; lia|apply Z.compare_gt_iff; lia].
  apply Z.compare_eq_iff. lia.
Qed.

(** X21. The wall-clock string is always five characters "HH:MM", and
    on such strings the comparison by characters agrees with the order
    of the times of day. *)
Theorem current_time_order_is_chronological h1 m1 h2 m2 :
  0 ≤ h1 < 24 → 0 ≤ m1 < 60 → 0 ≤ h2 < 24 → 0 ≤ m2 < 60 →
  String.length (current_time h1 m1) = 5%nat
  ∧ (String.ltb (current_time h1 m1) (current_time h2 m2) = true
     ↔ 60 * h1 + m1 < 60 * h2 + m2)
  ∧ (current_time h1 m1 = current_time h2 m2 ↔ h1 = h2 ∧ m1 = m2).
Proof.
  intros Hh1 Hm1 Hh2 Hm2.
  split; [by rewrite current_time_digits by lia|].
  pose proof (current_time_compare h1 m1 h2 m2 ltac:(lia) ltac:(lia) ltac:(lia) ltac:(lia))
    as Hcmp.
  split.
  - unfold String.ltb. rewrite Hcmp.
    destruct (Z.compare_spec (100 * h1 + m1) (100 * h2 + m2)); split; try done; lia.
  - split; [|by intros [-> ->]].
    intros Heq. rewrite Heq in Hcmp.
    rewrite string_compare_refl in Hcmp.
    symmetry in Hcmp. apply Z.compare_eq_iff in Hcmp. lia.
Qed.

Lemma current_time_order_is_chronological_witness :
  String.ltb (current_time 9 5) (current_time 10 0) = true.
Proof.
  apply (current_time_order_is_chronological 9 5 10 0); lia.
Defined.

Lemma not_ltb_leb a b : negb (String.ltb b a) = String.leb a b.
Proof.
  unfold String.ltb, String.leb. rewrite String.compare_antisym.
  by destruct (String.compare a b).
Qed.

Lemma leb_trans a b c :
  String.leb a b = true → String.leb b c = true → String.leb a c = true.
Proof.
  intros H1 H2. apply Is_true_true.
  apply Is_true_true in H1, H2.
  change (String.le a c). by trans b.
Qed.

(** X22. The three flags of a class split the day when its start is not
    after its end: at every moment exactly one of [canTakeAttendance],
    [isUpcoming] and [isCompleted] is true.  When the start is after the
    end, or the entry has no start time, attendance can never be
    taken. *)
Theorem class_flags_partition currentTime cls :
  let f := class_flags currentTime cls in
  (∀ start finish,
     Timetable.startTime cls = Some start → Timetable.endTime cls = Some finish →
     String.leb start finish = true →
     (canTakeAttendance f = true ∧ isUpcoming f = false ∧ isCompleted f = false)
     ∨ (canTakeAttendance f = false ∧ isUpcoming f = true ∧ isCompleted f = false)
     ∨ (canTakeAttendance f = false ∧ isUpcoming f = false ∧ isCompleted f = true))
  ∧ (∀ start finish,
       Timetable.startTime cls = Some start → Timetable.endTime cls = Some finish →
       String.leb start finish = false → canTakeAttendance f = false)
  ∧ (Timetable.startTime cls = None →
     canTakeAttendance f = false ∧ isUpcoming f = false).
Proof.
  intros f. subst f. unfold class_flags. cbn [canTakeAttendance isUpcoming isCompleted].
  split; [|split].
  - intros start finish -> -> Hle. cbn [str_ge str_le str_lt str_gt].
    rewrite !not_ltb_leb.
    rewrite <- (negb_involutive (String.ltb currentTime start)), not_ltb_leb.
    rewrite <- (negb_involutive (String.ltb finish currentTime)), not_ltb_leb.
    destruct (String.leb start currentTime) eqn:H1,
             (String.leb currentTime finish) eqn:H2; cbn; auto.
    exfalso.
    destruct (String.leb_total start currentTime) as [H|H]; [congruence|].
    destruct (String.leb_total currentTime finish) as [H'|H']; [congruence|].
    pose proof (leb_trans _ _ _ Hle H') as H3.
    assert (start = currentTime) as -> by (by apply String.leb_antisym).
    congruence.
  - intros start finish -> -> Hle. cbn [str_ge str_le].
    rewrite !not_ltb_leb.
    destruct (String.leb start currentTime) eqn:H1,
             (String.leb currentTime finish) eqn:H2; cbn; auto.
    by rewrite (leb_trans _ _ _ H1 H2) in Hle.
  - by intros ->.
Qed.

Lemma class_flags_partition_witness :
  canTakeAttendance
    (class_flags "09:30"
       (Timetable.mk "CS101-Monday-10:00" (Some "CS101") (Some "Algorithms")
          (Some "TEACH001") (Some "Dr. Sarah Johnson") (Some "Monday") (Some "10:00")
          (Some "09:00") (Some "Algorithms") (Some "") None None (Some true)))
  = false.
Proof.
  apply (proj1 (proj2 (class_flags_partition "09:30"
           (Timetable.mk "CS101-Monday-10:00" (Some "CS101") (Some "Algorithms")
              (Some "TEACH001") (Some "Dr. Sarah Johnson") (Some "Monday") (Some "10:00")
              (Some "09:00") (Some "Algorithms") (Some "") None None (Some true))))
         "10:00" "09:00"); reflexivity.
Defined.

(** X23. For a class whose start and end are stored as "HH:MM" strings,
    the flags follow the clock: attendance can be taken exactly from the
    start minute to the end minute inclusive, the class is upcoming
    before and completed after. *)
Theorem class_flags_follow_the_clock h m hs ms he me cls :
  0 ≤ h < 24 → 0 ≤ m < 60 → 0 ≤ hs < 24 → 0 ≤ ms < 60 → 0 ≤ he < 24 → 0 ≤ me < 60 →
  Timetable.startTime cls = Some (current_time hs ms) →
  Timetable.endTime cls = Some (current_time he me) →
  let f := class_flags (current_time h m) cls in
  (canTakeAttendance f = true ↔ 60 * hs + ms ≤ 60 * h + m ≤ 60 * he + me)
  ∧ (isUpcoming f = true ↔ 60 * h + m < 60 * hs + ms)
  ∧ (isCompleted f = true ↔ 60 * he + me < 60 * h + m).
Proof.
  intros Hh Hm Hhs Hms Hhe Hme Hs He f. subst f.
  unfold class_flags. cbn [canTakeAttendance isUpcoming isCompleted].
  rewrite Hs, He. cbn [str_ge str_le str_lt str_gt].
  unfold String.ltb.
  rewrite !current_time_compare by lia.
  destruct (Z.compare_spec (100 * h + m) (100 * hs + ms));
    destruct (Z.compare_spec (100 * he + me) (100 * h + m)); cbn;
    repeat split; intros; try done; lia.
Qed.

Lemma class_flags_follow_the_clock_witness :
  canTakeAttendance
    (class_flags (current_time 10 30)
       (Timetable.mk "CS101-Monday-09:00" (Some "CS101") (Some "Algorithms")
          (Some "TEACH001") (Some "Dr. Sarah Johnson") (Some "Monday") (Some "09:00")
          (Some "10:30") (Some "Algorithms") (Some "") None None (Some true)))
  = true.
Proof.
  apply (proj1 (class_flags_follow_the_clock 10 30 9 0 10 30
           (Timetable.mk "CS101-Monday-09:00" (Some "CS101") (Some "Algorithms")
              (Some "TEACH001") (Some "Dr. Sarah Johnson") (Some "Monday") (Some "09:00")
              (Some "10:30") (Some "Algorithms") (Some "") None None (Some true))
           ltac:(lia) ltac:(lia) ltac:(lia) ltac:(lia) ltac:(lia) ltac:(lia)
           eq_refl eq_refl)).
  lia.
Defined.

(** ** Failures of the store *)

(** X24. When the lookup a route starts with fails, the route answers
    500 with the message of the exception and success=false, and writes
    nothing.  Each route is taken on its own, with its own request and
    with only its own lookup failing: [login], [verify_face], [approve],
    [assign_teacher] and [remove_user] look the user up in the Users
    table, [mark] and [scan_qr] look the session up in the Sessions
    table. *)
Theorem failed_lookup_answers_500 e w x :
  let failed := (status_json 500 [("success", Bool false); ("error", Str (exn_message x))],
                 w) in
  (∀ userId password role,
     truthy userId = true → truthy password = true → truthy role = true →
     fault e (GetCommand USERS_TABLE userId) = Some x →
     login userId password role e w = failed)
  ∧ (∀ userId imageBase64,
       truthy userId = true → truthy imageBase64 = true →
       fault e (GetCommand USERS_TABLE userId) = Some x →
       verify_face userId imageBase64 e w = failed)
  ∧ (∀ userId password,
       truthy userId = true → truthy password = true →
       fault e (GetCommand USERS_TABLE userId) = Some x →
       approve userId password e w = failed)
  ∧ (∀ userId sessionId,
       truthy userId = true → truthy sessionId = true →
       fault e (GetCommand SESSIONS_TABLE sessionId) = Some x →
       mark userId sessionId e w = failed)
  ∧ (∀ userId qrData cameraType,
       truthy userId = true → truthy qrData = true →
       fault e (GetCommand SESSIONS_TABLE qrData) = Some x →
       scan_qr userId qrData cameraType e w = failed)
  ∧ (∀ timetableId teacherId teacherName,
       truthy timetableId = true → truthy teacherId = true →
       fault e (GetCommand USERS_TABLE teacherId) = Some x →
       assign_teacher timetableId teacherId teacherName e w = failed)
  ∧ (∀ userId,
       fault e (GetCommand USERS_TABLE userId) = Some x →
       remove_user userId e w = failed).
Proof.
  intros failed. subst failed.
  unfold login, verify_face, approve, mark, scan_qr, assign_teacher, remove_user, handle,
    login_route, verify_face_route, approve_route, mark_route, scan_qr_route,
    assign_teacher_route, remove_user_route.
  repeat split.
  - intros userId password role Hu Hp Hr Hf.
    rewrite Hu, Hp, Hr. reduce. unfold_monad. rewrite Hf. by reduce.
  - intros userId imageBase64 Hu Hi Hf.
    rewrite Hu, Hi. reduce. unfold_monad. rewrite Hf. by reduce.
  - intros userId password Hu Hp Hf.
    rewrite Hu, Hp. reduce. unfold_monad. rewrite Hf. by reduce.
  - intros userId sessionId Hu Hs Hf.
    rewrite Hu, Hs. reduce. unfold_monad. rewrite Hf. by reduce.
  - intros userId qrData cameraType Hu Hq Hf.
    rewrite Hu, Hq. reduce. unfold_monad. rewrite Hf. by reduce.
  - intros timetableId teacherId teacherName Ht Hu Hf.
    rewrite Ht, Hu. reduce. unfold_monad. rewrite Hf. by reduce.
  - intros userId Hf.
    unfold_monad. rewrite Hf. by reduce.
Qed.

Lemma failed_lookup_answers_500_witness :
  login "TEACH001" "password123" "teacher" (env_failing 0 is_get_user) world1
  = (status_json 500 [("success", Bool false); ("error", Str "DynamoDB is unavailable")],
     world1)
  ∧ verify_face "10000012307" "data:image/png;base64,iVBORw0KGgo="
                (env_failing 0 is_get_user) world1
    = (status_json 500 [("success", Bool false); ("error", Str "DynamoDB is unavailable")],
       world1)
  ∧ approve "10000012307" "pw1" (env_failing 0 is_get_user) world1
    = (status_json 500 [("success", Bool false); ("error", Str "DynamoDB is unavailable")],
       world1)
  ∧ mark "10000012307" "CLASS-CS101-1730000000123"
         (env_failing 1730000000123 is_get_session) world1
    = (status_json 500 [("success", Bool false); ("error", Str "DynamoDB is unavailable")],
       world1)
  ∧ scan_qr "10000012307" "CLASS-CS101-1730000000123" "back"
            (env_failing 1730000000123 is_get_session) world1
    = (status_json 500 [("success", Bool false); ("error", Str "DynamoDB is unavailable")],
       world1)
  ∧ assign_teacher "CS101_Monday_09:00" "TEACH001" "Dr. Sarah Johnson"
                   (env_failing 0 is_get_user) world1
    = (status_json 500 [("success", Bool false); ("error", Str "DynamoDB is unavailable")],
       world1)
  ∧ remove_user "10000012307" (env_failing 0 is_get_user) world1
    = (status_json 500 [("success", Bool false); ("error", Str "DynamoDB is unavailable")],
       world1).
Proof.
  destruct (failed_lookup_answers_500 (env_failing 0 is_get_user) world1
              (mkExn "InternalServerError" "DynamoDB is unavailable"))
    as (Hlogin & Hverify & Happrove & _ & _ & Hassign & Hremove).
  destruct (failed_lookup_answers_500 (env_failing 1730000000123 is_get_session) world1
              (mkExn "InternalServerError" "DynamoDB is unavailable"))
    as (_ & _ & _ & Hmark & Hscan & _).
  split; [exact (Hlogin "TEACH001" "password123" "teacher" eq_refl eq_refl eq_refl eq_refl)|].
  split; [exact (Hverify "10000012307" "data:image/png;base64,iVBORw0KGgo=" eq_refl eq_refl eq_refl)|].
  split; [exact (Happrove "10000012307" "pw1" eq_refl eq_refl eq_refl)|].
  split; [exact (Hmark "10000012307" "CLASS-CS101-1730000000123" eq_refl eq_refl eq_refl)|].
  split; [exact (Hscan "10000012307" "CLASS-CS101-1730000000123" "back" eq_refl eq_refl eq_refl)|].
  split; [exact (Hassign "CS101_Monday_09:00" "TEACH001" "Dr. Sarah Johnson" eq_refl eq_refl eq_refl)|].
  exact (Hremove "10000012307" eq_refl).
Defined.

(** ** Teacher assignments *)

Lemma elem_of_scan_timetable (keep : Timetable.t → bool) (t : gmap string Timetable.t)
    (entry : Timetable.t) :
  entry ∈ List.filter keep (map_to_list t).*2 ↔ (∃ k, t !! k = Some entry) ∧ keep entry = true.
Proof.
  rewrite list_elem_of_In, filter_In, <- list_elem_of_In, list_elem_of_fmap.
  split.
  - intros [([k u'] & -> & Hin) Hk]. split; [|done].
    exists k. by apply elem_of_map_to_list.
  - intros [[k Hl] Hk]. split; [|done].
    exists (k, entry). split; [done|]. by apply elem_of_map_to_list.
Qed.

Lemma upsert_timetable_effect
    e w classId className teacherId teacherName dayOfWeek startTime endTime subject room :
  let w' := (upsert_timetable classId className teacherId teacherName dayOfWeek startTime
               endTime subject room e w).2 in
  TimetableTable w' = TimetableTable w
  ∨ ∃ entry, Timetable.isActive entry = Some true
             ∧ has_no_teacher entry = false
             ∧ TimetableTable w'
               = <[timetable_key classId dayOfWeek startTime := entry]> (TimetableTable w).
Proof.
  unfold upsert_timetable, handle, upsert_timetable_route.
  destruct (truthy classId), (truthy className), (truthy teacherId) eqn:Ht,
    (truthy dayOfWeek), (truthy startTime), (truthy endTime), (truthy subject);
    reduce; try (by left).
  unfold_routes. reduce_items.
  destruct (fault e (PutCommand TIMETABLE_TABLE _)); reduce; [by left|].
  right. eexists. split; [|split; [|reflexivity]]; [done|].
  unfold has_no_teacher. cbn [Timetable.teacherId]. by rewrite Ht.
Qed.

Lemma assign_teacher_effect e w timetableId teacherId teacherName :
  let w' := (assign_teacher timetableId teacherId teacherName e w).2 in
  TimetableTable w' = TimetableTable w
  ∨ ∃ tname now,
      truthy teacherId = true
      ∧ TimetableTable w'
        = <[timetableId := set_teacher teacherId tname now
                             (default (Timetable.blank timetableId)
                                      (TimetableTable w !! timetableId))]>
            (TimetableTable w).
Proof.
  unfold assign_teacher, handle, assign_teacher_route.
  destruct (truthy timetableId), (truthy teacherId); reduce; try (by left).
  unfold_monad.
  destruct (fault e (GetCommand USERS_TABLE teacherId)); reduce; [by left|].
  destruct (Users w !! teacherId) as [teacher|]; reduce; [|by left].
  destruct (bool_decide (User.role teacher = Some "teacher")); reduce; [|by left].
  destruct (or_attr teacherName (User.name teacher)) as [tname|]; reduce; [|by left].
  destruct (fault e (UpdateCommand TIMETABLE_TABLE timetableId)); reduce; [by left|].
  right. by exists tname, (toISOString e (clock e 0)).
Qed.

Lemma delete_timetable_effect e w timetableId :
  let w' := (delete_timetable timetableId e w).2 in
  TimetableTable w' = TimetableTable w
  ∨ TimetableTable w'
    = <[timetableId := set_inactive (default (Timetable.blank timetableId)
                                             (TimetableTable w !! timetableId))]>
        (TimetableTable w).
Proof.
  unfold delete_timetable, handle, delete_timetable_route. unfold_monad.
  destruct (fault e (UpdateCommand TIMETABLE_TABLE timetableId)); reduce; [by left|].
  by right.
Qed.

(** X25. Through these routes an active timetable entry always names a
    teacher: submitting an entry requires one, assigning sets one, and
    the entries that deleting or assigning create from nothing are not
    active.  The three routes keep this, starting from the empty table,
    and so the [unassignedClasses] of the teacher-assignment listing is
    the empty list. *)
Theorem active_entries_always_have_a_teacher e w :
  active_entries_have_teacher (TimetableTable w) →
  (∀ classId className teacherId teacherName dayOfWeek startTime endTime subject room,
     active_entries_have_teacher
       (TimetableTable (upsert_timetable classId className teacherId teacherName dayOfWeek
                          startTime endTime subject room e w).2))
  ∧ (∀ timetableId teacherId teacherName,
       active_entries_have_teacher
         (TimetableTable (assign_teacher timetableId teacherId teacherName e w).2))
  ∧ (∀ timetableId,
       active_entries_have_teacher (TimetableTable (delete_timetable timetableId e w).2))
  ∧ (∀ failure2 r, (teacher_assignments None failure2 e w).1 = Success r →
                   unassignedClasses r = []).
Proof.
  intros Hinv. split; [|split; [|split]].
  - intros classId className teacherId teacherName dayOfWeek startTime endTime subject room.
    destruct (upsert_timetable_effect e w classId className teacherId teacherName dayOfWeek
                startTime endTime subject room) as [->|(entry & Ha & Ht & ->)]; [done|].
    intros k entry' Hk Hact.
    apply lookup_insert_Some in Hk as [[_ <-]|[_ Hk]]; [done | by eapply Hinv].
  - intros timetableId teacherId teacherName.
    destruct (assign_teacher_effect e w timetableId teacherId teacherName)
      as [->|(tname & now & Ht & ->)]; [done|].
    intros k entry' Hk Hact.
    apply lookup_insert_Some in Hk as [[_ <-]|[_ Hk]]; [|by eapply Hinv].
    unfold has_no_teacher. cbn [set_teacher Timetable.teacherId]. by rewrite Ht.
  - intros timetableId.
    destruct (delete_timetable_effect e w timetableId) as [->| ->]; [done|].
    intros k entry' Hk Hact.
    apply lookup_insert_Some in Hk as [[_ <-]|[_ Hk]]; [done | by eapply Hinv].
  - intros failure2 r.
    unfold teacher_assignments, handle_data, teacher_assignments_route.
    unfold_routes. reduce.
    destruct failure2 as [x|]; reduce; [done|].
    intros [= <-]. cbn [unassignedClasses].
    destruct (List.filter has_no_teacher _) as [|entry l] eqn:Hl; [done|].
    assert (Hin : entry ∈ List.filter has_no_teacher
                    (List.filter is_active (map_to_list (TimetableTable w)).*2)).
    { rewrite Hl. apply elem_of_cons. by left. }
    apply list_elem_of_In, filter_In in Hin as [Hin Hno].
    apply list_elem_of_In, elem_of_scan_timetable in Hin as [[k Hk] Hact].
    apply bool_decide_eq_true_1 in Hact.
    by rewrite (Hinv k entry Hk Hact) in Hno.
Qed.

Lemma active_entries_have_teacher_empty : active_entries_have_teacher ∅.
Proof. intros k entry Hk. by rewrite lookup_empty in Hk. Qed.

Lemma active_entries_always_have_a_teacher_witness :
  active_entries_have_teacher
    (TimetableTable (delete_timetable "no-such-entry" (env_at 1730000000123 []) world1).2).
Proof.
  apply (active_entries_always_have_a_teacher (env_at 1730000000123 []) world1
           active_entries_have_teacher_empty).
Defined.

(** ** Attendance of a class *)

Lemma strip_prefix_Some p s rest : strip_prefix p s = Some rest → s = p +:+ rest.
Proof.
  revert s. induction p as [|a p IH]; intros s H.
  - cbn in H. by injection H as ->.
  - destruct s as [|b s]; [done|]. cbn [strip_prefix] in H.
    destruct (Ascii.eqb_spec a b) as [->|]; [|done].
    change (String b p +:+ rest) with (String b (p +:+ rest)). f_equal. by apply IH.
Qed.

Lemma contains_spec sub s :
  contains sub s = true ↔ ∃ pre post, s = pre +:+ sub +:+ post.
Proof.
  split.
  - induction s as [|a s IH]; cbn [contains].
    + destruct (strip_prefix sub "") as [rest|] eqn:Hp; [|discriminate].
      intros _. exists "", rest. exact (strip_prefix_Some _ _ _ Hp).
    + destruct (strip_prefix sub (String a s)) as [rest|] eqn:Hp.
      * intros _. exists "", rest. exact (strip_prefix_Some _ _ _ Hp).
      * intros (pre & post & ->)%IH. by exists (String a pre), post.
  - intros (pre & post & ->). induction pre as [|a pre IH].
    + change ("" +:+ sub +:+ post) with (sub +:+ post).
      destruct (sub +:+ post) eqn:E; cbn [contains]; rewrite <- E, strip_prefix_app; done.
    + change (String a pre +:+ sub +:+ post) with (String a (pre +:+ sub +:+ post)).
      cbn [contains]. rewrite IH. by destruct (strip_prefix _ _).
Qed.

Lemma enrich_run record e s :
  ∃ v, enrich record e s = (Returned v, s)
       ∧ view_record v = record
       ∧ (Users (world s) !! Attendance.userId record = None
          ∨ fault e (GetCommand USERS_TABLE (Attendance.userId record)) ≠ None →
          userName v = "Unknown User" ∧ userEmail v = "" ∧ userRole v = "student").
Proof.
  unfold enrich. unfold_monad.
  destruct (fault e (GetCommand USERS_TABLE (Attendance.userId record))) as [x|] eqn:Hf;
    reduce.
  - eexists. split; [done|]. by split.
  - eexists. split; [done|]. split; [done|].
    intros [->|?]; [done|done].
Qed.

Lemma enrich_all_run attendance e s :
  ∃ l, enrich_all attendance e s = (Returned l, s)
       ∧ view_record <$> l = attendance
       ∧ (∀ v, v ∈ l →
            Users (world s) !! Attendance.userId (view_record v) = None
            ∨ fault e (GetCommand USERS_TABLE (Attendance.userId (view_record v))) ≠ None →
            userName v = "Unknown User" ∧ userEmail v = "" ∧ userRole v = "student").
Proof.
  induction attendance as [|record rest IH].
  - exists []. split; [done|]. split; [done|]. intros v Hv. by apply elem_of_nil in Hv.
  - destruct (enrich_run record e s) as (v & Hv & Hrec & Hph).
    destruct IH as (l & Hl & Hrecs & Hphs).
    exists (v :: l). cbn [enrich_all]. unfold bind at 1. rewrite Hv.
    unfold bind at 1. rewrite Hl. cbn [ret].
    split; [done|]. split; [by rewrite fmap_cons, Hrec, Hrecs|].
    intros v' [->|Hin]%elem_of_cons; [by rewrite Hrec | by apply Hphs].
Qed.

Lemma class_attendance_matches_by_substring_aux e w classId :
  ∃ l,
    class_attendance None classId e w = (Success l, w)
    ∧ (∀ r, r ∈ view_record <$> l
            ↔ (∃ k, AttendanceTable w !! k = Some r)
              ∧ ∃ pre post, Attendance.sessionId r = pre +:+ classId +:+ post)
    ∧ (∀ v, v ∈ l →
         Users w !! Attendance.userId (view_record v) = None
         ∨ fault e (GetCommand USERS_TABLE (Attendance.userId (view_record v))) ≠ None →
         userName v = "Unknown User" ∧ userEmail v = "" ∧ userRole v = "student").
Proof.
  unfold class_attendance, handle_data, class_attendance_route.
  unfold scan_attendance, bind at 1. reduce.
  destruct (enrich_all_run
              (List.filter (λ r, contains classId (Attendance.sessionId r))
                           (map_to_list (AttendanceTable w)).*2)
              e (mkSt w 0)) as (l & -> & Hrecs & Hph).
  exists l. split; [done|]. split; [|exact Hph].
  intros r. rewrite Hrecs.
  rewrite list_elem_of_In, filter_In, <- list_elem_of_In, list_elem_of_fmap, contains_spec.
  split.
  - intros [([k r'] & -> & Hin) Hc]. split; [|done].
    exists k. by apply elem_of_map_to_list.
  - intros [[k Hk] Hc]. split; [|done].
    exists (k, r). split; [done|]. by apply elem_of_map_to_list.
Qed.

(** X26. The attendance listing of a class matches by substring and
    never fails on a user.  When the scan returns, the answer is a list
    with exactly the stored records whose session identifier contains
    the class identifier somewhere (so also those of every class whose
    identifier merely contains it), whatever the user lookups do; a
    record whose user is unknown, or whose lookup fails, is shown with
    the name "Unknown User", no e-mail and role "student".  Nothing is
    written. *)
Theorem class_attendance_matches_by_substring e w classId :
  ∃ l,
    class_attendance None classId e w = (Success l, w)
    ∧ (∀ r, r ∈ view_record <$> l
            ↔ (∃ k, AttendanceTable w !! k = Some r)
              ∧ ∃ pre post, Attendance.sessionId r = pre +:+ classId +:+ post)
    ∧ (∀ v, v ∈ l →
         Users w !! Attendance.userId (view_record v) = None
         ∨ fault e (GetCommand USERS_TABLE (Attendance.userId (view_record v))) ≠ None →
         userName v = "Unknown User" ∧ userEmail v = "" ∧ userRole v = "student").
Proof. apply class_attendance_matches_by_substring_aux. Qed.

Lemma class_attendance_matches_by_substring_witness :
  ∃ l, class_attendance None "CS1" (env_at 1730000000123 [])
         (scan_qr "10000012307" "CLASS-CS101-1730000000123" "back"
            (env_at 1730000000123 []) world1).2
       = (Success l,
          (scan_qr "10000012307" "CLASS-CS101-1730000000123" "back"
             (env_at 1730000000123 []) world1).2).
Proof.
  destruct (class_attendance_matches_by_substring (env_at 1730000000123 [])
              (scan_qr "10000012307" "CLASS-CS101-1730000000123" "back"
                 (env_at 1730000000123 []) world1).2 "CS1") as (l & Hl & _).
  by exists l.
Defined.

(** X27. From the code to the teacher's list.  When a teacher generates
    a code for a class and a student scans it within 600000 ms (nothing
    failing), the listing of that class's attendance contains the
    student's record, written by the QR route under the derived
    identifier. *)
Theorem scanned_attendance_is_listed e1 e2 e3 w teacherId classId userId cameraType :
  truthy teacherId = true → truthy classId = true → truthy userId = true →
  no_fault e1 → no_fault e2 →
  clock e2 0 ≤ clock e1 1 + 600000 →
  let sessionId := "CLASS-" +:+ classId +:+ "-" +:+ toString (clock e1 0) in
  let w1 := (generate_qr teacherId classId e1 w).2 in
  let w2 := (scan_qr userId sessionId cameraType e2 w1).2 in
  ∃ l v, class_attendance None classId e3 w2 = (Success l, w2)
         ∧ v ∈ l
         ∧ Attendance.attendanceId (view_record v) = attendance_key userId sessionId
         ∧ Attendance.userId (view_record v) = userId
         ∧ Attendance.sessionId (view_record v) = sessionId
         ∧ Attendance.method (view_record v) = Some "qr_scan".
Proof.
  intros Ht Hc Hu Hnf1 Hnf2 Hclock sessionId w1 w2.
  pose proof (generate_qr_run e1 w teacherId classId Ht Hc Hnf1) as Hgen.
  cbn zeta in Hgen. fold sessionId in Hgen.
  assert (Hl : Sessions w1 !! sessionId
               = Some (Session.mk sessionId classId teacherId (clock e1 1 `div` 1000 + 600))).
  { subst w1. rewrite Hgen. cbn [snd with_Sessions Sessions]. apply lookup_insert_eq. }
  assert (Hs : truthy sessionId = true) by done.
  assert (Hw2 : w2 = with_Attendance <[attendance_key userId sessionId
                                       := qr_record e2 userId sessionId cameraType]> w1).
  { subst w2. rewrite (scan_qr_run e2 w1 userId sessionId cameraType _ Hu Hs Hnf2 Hl);
      [done|].
    cbn [Session.expireAt].
    rewrite <- (Z.div_add _ 600 1000) by lia. apply Z.div_le_mono; lia. }
  destruct (class_attendance_matches_by_substring_aux e3 w2 classId) as (l & Hrun & Hiff & _).
  assert (Hin : qr_record e2 userId sessionId cameraType ∈ view_record <$> l).
  { apply Hiff. split.
    - exists (attendance_key userId sessionId). rewrite Hw2.
      cbn [with_Attendance AttendanceTable]. apply lookup_insert_eq.
    - exists "CLASS-", ("-" +:+ toString (clock e1 0)). done. }
  apply list_elem_of_fmap in Hin as (v & Hv & Hvl).
  exists l, v. split; [done|]. split; [done|]. by rewrite <- Hv.
Qed.

Lemma scanned_attendance_is_listed_witness :
  ∃ l v, class_attendance None "CS101" (env_at 1730000700000 [])
           (scan_qr "10000012307" "CLASS-CS101-1730000000123" "back"
              (env_at 1730000600123 [])
              (generate_qr "TEACH001" "CS101" (env_at 1730000000123 []) world1).2).2
         = (Success l,
            (scan_qr "10000012307" "CLASS-CS101-1730000000123" "back"
               (env_at 1730000600123 [])
               (generate_qr "TEACH001" "CS101" (env_at 1730000000123 []) world1).2).2)
         ∧ v ∈ l
         ∧ Attendance.method (view_record v) = Some "qr_scan".
Proof.
  destruct (scanned_attendance_is_listed
              (env_at 1730000000123 []) (env_at 1730000600123 []) (env_at 1730000700000 [])
              world1 "TEACH001" "CS101" "10000012307" "back" eq_refl eq_refl eq_refl
              (no_fault_env_at _ _) (no_fault_env_at _ _))
    as (l & v & Hrun & Hin & _ & _ & _ & Hm); [by vm_compute|].
  exists l, v. split; [exact Hrun|]. split; [exact Hin | exact Hm].
Defined.
